(** * PromptLane SDK: the connection-mode dispatch layer

    A shallow embedding of [promptlane_sdk] (Python) and the properties of
    its resource dispatchers, its two backends and its error mapping.

    Layout, following the package:
    - Python runtime values, exceptions and the collaborating libraries
      ([uuid], [pydantic], [requests], the SQL engine);
    - [models/*.py];
    - [api/connection.py] and [database/connection.py];
    - [core/utils/decorators.py], [core/resources/*.py] and
      [core/client.py];
    - the vocabulary of the properties, the properties, and their
      instances on concrete inputs. *)

From Stdlib Require Import Ascii String ZArith.
From stdpp Require Import gmap strings list fin_maps pretty.

Local Open Scope Z_scope.
Set Warnings "-register-all".
Set Default Proof Using "Type*".  (* for stdpp-style sections *)

(* ===================================================================== *)
(** * 1. Python runtime                                                   *)
(* ===================================================================== *)

(** Values that travel through the SDK: keyword arguments, model fields,
    row cells and decoded JSON.  [U] is the type of [uuid.UUID] objects. *)
Inductive pyval_ (U : Type) : Type :=
| PNone
| PBool (b : bool)
| PInt (z : Z)
| PStr (s : string)
| PUuid (u : U)
| PDatetime (iso : string)
| PList (l : list (pyval_ U))
| PDict (d : list (string * pyval_ U)).

Arguments PNone {U}.
Arguments PBool {U} b.
Arguments PInt {U} z.
Arguments PStr {U} s.
Arguments PUuid {U} u.
Arguments PDatetime {U} iso.
Arguments PList {U} l.
Arguments PDict {U} d.

(** The standard library's [uuid] module and [str()] of containers are not
    part of the package; the development is parametric in them.
    [uuid_UUID s = None] stands for [uuid.UUID(s)] raising [ValueError]. *)
Class PyLib := {
  uuid : Type;
  uuid_eq_dec :: EqDecision uuid;
  uuid_UUID : string → option uuid;
  uuid_str : uuid → string;
  uuid_UUID_str : ∀ u, uuid_UUID (uuid_str u) = Some u;
  container_str : pyval_ uuid → string
}.

(** ** A concrete instance: the 8-4-4-4-12 text form

    Used to run the embedding on concrete inputs.  A UUID is its 32
    hexadecimal digits; parsing accepts the hyphenated 36-character form,
    in either letter case, on which it agrees with [uuid.UUID]. *)

Inductive hexdigit :=
| X0 | X1 | X2 | X3 | X4 | X5 | X6 | X7
| X8 | X9 | XA | XB | XC | XD | XE | XF.

#[export] Instance hexdigit_eq_dec : EqDecision hexdigit.
Proof. solve_decision. Defined.

Definition hexdigit_char (d : hexdigit) : ascii :=
  match d with
  | X0 => "0" | X1 => "1" | X2 => "2" | X3 => "3"
  | X4 => "4" | X5 => "5" | X6 => "6" | X7 => "7"
  | X8 => "8" | X9 => "9" | XA => "a" | XB => "b"
  | XC => "c" | XD => "d" | XE => "e" | XF => "f"
  end%char.

Definition char_hexdigit (c : ascii) : option hexdigit :=
  match c with
  | "0" => Some X0 | "1" => Some X1 | "2" => Some X2 | "3" => Some X3
  | "4" => Some X4 | "5" => Some X5 | "6" => Some X6 | "7" => Some X7
  | "8" => Some X8 | "9" => Some X9
  | "a" | "A" => Some XA | "b" | "B" => Some XB | "c" | "C" => Some XC
  | "d" | "D" => Some XD | "e" | "E" => Some XE | "f" | "F" => Some XF
  | _ => None
  end%char.

Definition hex4 : Type := hexdigit * hexdigit * hexdigit * hexdigit.

Record canonical_uuid := CanonicalUuid {
  time_low : hex4 * hex4;
  time_mid : hex4;
  time_hi : hex4;
  clock_seq : hex4;
  node : hex4 * hex4 * hex4
}.

#[export] Instance canonical_uuid_eq_dec : EqDecision canonical_uuid.
Proof. solve_decision. Defined.

Definition render4 (g : hex4) (rest : string) : string :=
  let '(a, b, c, d) := g in
  String (hexdigit_char a) (String (hexdigit_char b)
    (String (hexdigit_char c) (String (hexdigit_char d) rest))).

Definition parse4 (s : string) : option (hex4 * string) :=
  match s with
  | String a (String b (String c (String d rest))) =>
      match char_hexdigit a, char_hexdigit b, char_hexdigit c, char_hexdigit d with
      | Some a', Some b', Some c', Some d' => Some ((a', b', c', d'), rest)
      | _, _, _, _ => None
      end
  | _ => None
  end.

Definition dash (s : string) : option string :=
  match s with
  | String c r => if Ascii.eqb c "-"%char then Some r else None
  | EmptyString => None
  end.

Definition canonical_text (u : canonical_uuid) : string :=
  render4 (time_low u).1 (render4 (time_low u).2 (String "-"
    (render4 (time_mid u) (String "-"
      (render4 (time_hi u) (String "-"
        (render4 (clock_seq u) (String "-"
          (render4 (node u).1.1 (render4 (node u).1.2
            (render4 (node u).2 EmptyString)))))))))))%char.

Definition canonical_parse (s : string) : option canonical_uuid :=
  '(l1, s) ← parse4 s;
  '(l2, s) ← parse4 s;
  s ← dash s;
  '(m, s) ← parse4 s;
  s ← dash s;
  '(h, s) ← parse4 s;
  s ← dash s;
  '(c, s) ← parse4 s;
  s ← dash s;
  '(n1, s) ← parse4 s;
  '(n2, s) ← parse4 s;
  '(n3, s) ← parse4 s;
  match s with
  | EmptyString => Some (CanonicalUuid (l1, l2) m h c (n1, n2, n3))
  | _ => None
  end.

Lemma char_hexdigit_char (d : hexdigit) : char_hexdigit (hexdigit_char d) = Some d.
Proof. by destruct d. Qed.

Lemma parse4_render4 (g : hex4) (rest : string) : parse4 (render4 g rest) = Some (g, rest).
Proof.
  destruct g as [[[a b] c] d]. unfold parse4, render4.
  by rewrite !char_hexdigit_char.
Qed.

Lemma canonical_parse_text (u : canonical_uuid) : canonical_parse (canonical_text u) = Some u.
Proof.
  destruct u as [[l1 l2] m h c [[n1 n2] n3]].
  unfold canonical_parse, canonical_text. simpl.
  repeat (rewrite parse4_render4; simpl).
  done.
Qed.

(** Containers are rendered by a fixed placeholder in this instance; no
    property below depends on the text chosen. *)
Definition canonical_container_str (v : pyval_ canonical_uuid) : string :=
  match v with
  | PList _ => "[...]"
  | PDict _ => "{...}"
  | _ => EmptyString
  end.

#[export] Instance canonical_pylib : PyLib := {|
  uuid := canonical_uuid;
  uuid_UUID := canonical_parse;
  uuid_str := canonical_text;
  uuid_UUID_str := canonical_parse_text;
  container_str := canonical_container_str
|}.

Abbreviation pyval := (pyval_ uuid).

Section Runtime.
Context `{PyLib}.

(** Truth value of an object, as [if x], [not x] and [x or y] use it.
    [uuid.UUID] and [datetime] define neither [__bool__] nor [__len__]. *)
Definition py_truthy (v : pyval) : bool :=
  match v with
  | PNone => false
  | PBool b => b
  | PInt z => negb (z =? 0)
  | PStr s => negb (String.eqb s EmptyString)
  | PUuid _ => true
  | PDatetime _ => true
  | PList l => match l with [] => false | _ => true end
  | PDict d => match d with [] => false | _ => true end
  end.

(** [a or b] *)
Definition py_or (a b : pyval) : pyval := if py_truthy a then a else b.

(** [str(v)], also what an f-string substitutes for [{v}]. *)
Definition py_str (v : pyval) : string :=
  match v with
  | PNone => "None"
  | PBool true => "True"
  | PBool false => "False"
  | PInt z => pretty z
  | PStr s => s
  | PUuid u => uuid_str u
  | PDatetime iso => iso
  | PList _ | PDict _ => container_str v
  end.

(** [d.get(k)] on a decoded JSON object. *)
Fixpoint dict_get (d : list (string * pyval)) (k : string) : pyval :=
  match d with
  | [] => PNone
  | (k', v) :: rest => if String.eqb k' k then v else dict_get rest k
  end.

(** [s] occurs inside [t]. *)
Definition carries (t s : string) : Prop := ∃ pre post, t = pre +:+ s +:+ post.

End Runtime.

(** ** Exceptions

    An [exn] is an instance of a subclass of [Exception]; [exn_str] is what
    [str(e)] returns.  [superclasses] lists the class and its bases. *)
Inductive exn_class :=
| Exception_
| ValueError
| TypeError
| AttributeError
| PydanticValidationError
| JSONDecodeError
| RequestException
| HTTPError
| SQLAlchemyError
| APIError
| AuthenticationError
| NotFoundError
| ValidationError
| RateLimitError
| ConnectionError.

#[export] Instance exn_class_eq_dec : EqDecision exn_class.
Proof. solve_decision. Defined.

Definition superclasses (c : exn_class) : list exn_class :=
  match c with
  | Exception_ => [Exception_]
  | PydanticValidationError => [PydanticValidationError; ValueError; Exception_]
  | JSONDecodeError => [JSONDecodeError; ValueError; Exception_]
  | HTTPError => [HTTPError; RequestException; Exception_]
  (* api/exceptions.py *)
  | AuthenticationError => [AuthenticationError; APIError; Exception_]
  | NotFoundError => [NotFoundError; APIError; Exception_]
  | ValidationError => [ValidationError; APIError; Exception_]
  | RateLimitError => [RateLimitError; APIError; Exception_]
  | ConnectionError => [ConnectionError; APIError; Exception_]
  | c => [c; Exception_]
  end.

Record exn := Exn { exn_cls : exn_class; exn_str : string }.

(** [isinstance(e, c)], the test of an [except c] clause. *)
Definition isinstance (e : exn) (c : exn_class) : bool :=
  bool_decide (c ∈ superclasses (exn_cls e)).

Inductive result (A : Type) : Type :=
| Ok (a : A)
| Raise (e : exn).

Arguments Ok {A} a.
Arguments Raise {A} e.

Definition result_bind {A B} (r : result A) (f : A → result B) : result B :=
  match r with
  | Ok a => f a
  | Raise e => Raise e
  end.

Fixpoint result_mapM {A B} (f : A → result B) (l : list A) : result (list B) :=
  match l with
  | [] => Ok []
  | a :: rest =>
      result_bind (f a) (λ b,
      result_bind (result_mapM f rest) (λ bs, Ok (b :: bs)))
  end.

(* ===================================================================== *)
(** * 2. models/*.py                                                      *)
(* ===================================================================== *)

Inductive model_class :=
| Project | ProjectCreate | ProjectUpdate
| Prompt | PromptCreate | PromptUpdate
| Team | TeamCreate | TeamUpdate
| User | UserCreate | UserUpdate
| Activity.

#[export] Instance model_class_eq_dec : EqDecision model_class.
Proof. solve_decision. Defined.

Inductive field_type :=
| TStr | TBool | TInt | TUuid | TDatetime | TDictAny | TUserStatus
| TOptional (t : field_type).

Section Models.
Context `{PyLib}.

(** One annotated class attribute; [f_default = None] marks a required
    field. *)
Record field_decl := Field {
  f_name : string;
  f_type : field_type;
  f_default : option pyval
}.

(** models/base.py, [BaseModel] *)
Definition base_fields : list field_decl :=
  [ Field "id" (TOptional TUuid) (Some PNone);
    Field "created_at" (TOptional TDatetime) (Some PNone);
    Field "updated_at" (TOptional TDatetime) (Some PNone);
    Field "created_by" (TOptional TUuid) (Some PNone);
    Field "updated_by" (TOptional TUuid) (Some PNone) ].

Definition model_fields (c : model_class) : list field_decl :=
  match c with
  | Project => base_fields ++
      [ Field "name" TStr None; Field "key" TStr None;
        Field "description" (TOptional TStr) (Some PNone);
        Field "team_id" TUuid None ]
  | ProjectCreate =>
      [ Field "name" TStr None; Field "key" TStr None;
        Field "description" (TOptional TStr) (Some PNone);
        Field "team_id" TUuid None ]
  | ProjectUpdate =>
      [ Field "name" (TOptional TStr) (Some PNone);
        Field "description" (TOptional TStr) (Some PNone);
        Field "team_id" (TOptional TUuid) (Some PNone) ]
  | Prompt => base_fields ++
      [ Field "name" TStr None; Field "key" TStr None;
        Field "description" (TOptional TStr) (Some PNone);
        Field "system_prompt" TStr None; Field "user_prompt" TStr None;
        Field "is_active" TBool (Some (PBool true));
        Field "version" TInt (Some (PInt 1));
        Field "project_id" TUuid None;
        Field "parent_id" (TOptional TUuid) (Some PNone) ]
  | PromptCreate =>
      [ Field "name" TStr None; Field "key" TStr None;
        Field "description" (TOptional TStr) (Some PNone);
        Field "system_prompt" TStr None; Field "user_prompt" TStr None;
        Field "is_active" TBool (Some (PBool true));
        Field "project_id" TUuid None;
        Field "parent_id" (TOptional TUuid) (Some PNone) ]
  | PromptUpdate =>
      [ Field "name" (TOptional TStr) (Some PNone);
        Field "description" (TOptional TStr) (Some PNone);
        Field "system_prompt" (TOptional TStr) (Some PNone);
        Field "user_prompt" (TOptional TStr) (Some PNone);
        Field "is_active" (TOptional TBool) (Some PNone) ]
  | Team => base_fields ++
      [ Field "name" TStr None;
        Field "description" (TOptional TStr) (Some PNone) ]
  | TeamCreate =>
      [ Field "name" TStr None;
        Field "description" (TOptional TStr) (Some PNone) ]
  | TeamUpdate =>
      [ Field "name" (TOptional TStr) (Some PNone);
        Field "description" (TOptional TStr) (Some PNone) ]
  | User => base_fields ++
      [ Field "username" (TOptional TStr) (Some PNone);
        Field "email" TStr None;
        Field "full_name" (TOptional TStr) (Some PNone);
        Field "is_active" TBool (Some (PBool true));
        Field "is_admin" TBool (Some (PBool false));
        Field "status" TUserStatus (Some (PStr "active"));
        Field "invitation_token" (TOptional TStr) (Some PNone);
        Field "invitation_expiry" (TOptional TStr) (Some PNone) ]
  | UserCreate =>
      [ Field "username" (TOptional TStr) (Some PNone);
        Field "email" TStr None;
        Field "full_name" (TOptional TStr) (Some PNone);
        Field "password" (TOptional TStr) (Some PNone);
        Field "is_active" TBool (Some (PBool true));
        Field "is_admin" TBool (Some (PBool false)) ]
  | UserUpdate =>
      [ Field "username" (TOptional TStr) (Some PNone);
        Field "email" (TOptional TStr) (Some PNone);
        Field "full_name" (TOptional TStr) (Some PNone);
        Field "is_active" (TOptional TBool) (Some PNone);
        Field "is_admin" (TOptional TBool) (Some PNone);
        Field "status" (TOptional TUserStatus) (Some PNone) ]
  | Activity => base_fields ++
      [ Field "user_id" TUuid None;
        Field "activity_type" TStr None;
        Field "timestamp" TDatetime None;
        Field "details" (TOptional TDictAny) (Some PNone) ]
  end.

(** [isinstance(obj, BaseModel)] for the package's own [BaseModel]
    (models/base.py).  The create and update variants derive from
    [BaseCreateModel] and [BaseUpdateModel], which are siblings of it. *)
Definition derives_BaseModel (c : model_class) : bool :=
  match c with
  | Project | Prompt | Team | User | Activity => true
  | _ => false
  end.

Definition find_field (c : model_class) (f : string) : option field_decl :=
  List.find (λ d, String.eqb (f_name d) f) (model_fields c).

(** The field is annotated [uuid.UUID] or [Optional[uuid.UUID]]. *)
Definition uuid_field (c : model_class) (f : string) : bool :=
  match f_type <$> find_field c f with
  | Some TUuid | Some (TOptional TUuid) => true
  | _ => false
  end.

(** A model instance: its class, the value of every field and
    [__fields_set__], the names given explicitly. *)
Record Model := {
  m_class : model_class;
  m_fields : gmap string pyval;
  m_fields_set : gset string
}.

(** [obj.name] *)
Definition model_getattr (m : Model) (name : string) : result pyval :=
  match m_fields m !! name with
  | Some v => Ok v
  | None => Raise (Exn AttributeError ("object has no attribute '" +:+ name +:+ "'"))
  end.

(** [obj.name = v]: pydantic accepts declared fields only, stores the value
    unvalidated and records the field as set. *)
Definition model_setattr (m : Model) (name : string) (v : pyval) : result Model :=
  match find_field (m_class m) name with
  | Some _ =>
      Ok {| m_class := m_class m;
            m_fields := <[name := v]> (m_fields m);
            m_fields_set := {[name]} ∪ m_fields_set m |}
  | None => Raise (Exn ValueError ("object has no field " +:+ name))
  end.

(** [obj.dict(exclude_unset=True)] *)
Definition model_dict_exclude_unset (m : Model) : gmap string pyval :=
  filter (λ kv, kv.1 ∈ m_fields_set m) (m_fields m).

End Models.

(** ** pydantic

    [pydantic_init c kw] is the call of class [c] on the keyword
    arguments [kw]: [inl msg] stands for pydantic's
    [ValidationError] with [str(e) = msg].  The development relies on
    three facts about validation: the object is an instance of [c]; it has
    no field that [c] does not declare; and a field annotated [UUID] or
    [Optional[UUID]] that is given the text of a UUID holds that UUID. *)
Class Pydantic `{PyLib} := {
  pydantic_init : model_class → gmap string pyval → string + Model;
  pydantic_init_class : ∀ c kw m,
    pydantic_init c kw = inr m → m_class m = c;
  pydantic_init_declared : ∀ c kw m f,
    pydantic_init c kw = inr m →
    find_field c f = None →
    m_fields m !! f = None;
  pydantic_init_uuid : ∀ c kw m f u,
    pydantic_init c kw = inr m →
    uuid_field c f = true →
    kw !! f = Some (PStr (uuid_str u)) →
    m_fields m !! f = Some (PUuid u)
}.

Section StrictValidation.
Context `{PyLib}.

(** A validator that accepts type-exact input only (pydantic also coerces
    some inputs of other types; those are rejected here).  It provides a
    runnable instance of [Pydantic]. *)
Fixpoint coerce (t : field_type) (v : pyval) : option pyval :=
  match t with
  | TOptional t' => match v with PNone => Some PNone | _ => coerce t' v end
  | TStr => match v with PStr _ => Some v | _ => None end
  | TBool => match v with PBool _ => Some v | _ => None end
  | TInt => match v with PInt _ => Some v | _ => None end
  | TUuid =>
      match v with
      | PUuid _ => Some v
      | PStr s => PUuid <$> uuid_UUID s
      | _ => None
      end
  | TDatetime => match v with PDatetime _ => Some v | _ => None end
  | TDictAny => match v with PDict _ => Some v | _ => None end
  | TUserStatus =>
      match v with
      | PStr s =>
          if bool_decide (s ∈ ["active"; "invited"; "disabled"]) then Some v else None
      | _ => None
      end
  end.

Definition field_value (d : field_decl) (kw : gmap string pyval) : option pyval :=
  match kw !! f_name d with
  | Some v => coerce (f_type d) v
  | None => f_default d
  end.

Fixpoint validate_fields (decls : list field_decl) (kw : gmap string pyval)
  : option (gmap string pyval) :=
  match decls with
  | [] => Some ∅
  | d :: rest =>
      match validate_fields rest kw, field_value d kw with
      | Some m, Some v => Some (<[f_name d := v]> m)
      | _, _ => None
      end
  end.

Definition strict_init (c : model_class) (kw : gmap string pyval) : string + Model :=
  match validate_fields (model_fields c) kw with
  | Some fs =>
      inr {| m_class := c;
             m_fields := fs;
             m_fields_set :=
               filter (λ k, k ∈ (f_name <$> model_fields c)) (dom kw) |}
  | None => inl "validation error"
  end.

Lemma validate_fields_lookup decls kw fs f d :
  validate_fields decls kw = Some fs →
  List.find (λ d, String.eqb (f_name d) f) decls = Some d →
  fs !! f = field_value d kw.
Proof.
  revert fs. induction decls as [|d0 rest IH]; intros fs Hv Hf; [done|].
  simpl in Hv, Hf.
  destruct (validate_fields rest kw) as [m|] eqn:Hrest; [|done].
  destruct (field_value d0 kw) as [v|] eqn:Hd0; [|done].
  injection Hv as <-.
  destruct (String.eqb (f_name d0) f) eqn:Heq.
  - apply String.eqb_eq in Heq. injection Hf as <-.
    subst f. by rewrite lookup_insert_eq.
  - apply String.eqb_neq in Heq. rewrite lookup_insert_ne; [|done]. by apply IH.
Qed.

Lemma strict_init_uuid c kw m f u :
  strict_init c kw = inr m →
  uuid_field c f = true →
  kw !! f = Some (PStr (uuid_str u)) →
  m_fields m !! f = Some (PUuid u).
Proof.
  unfold strict_init, uuid_field, find_field. intros Hinit Hty Hkw.
  destruct (validate_fields (model_fields c) kw) as [fs|] eqn:Hv; [|done].
  injection Hinit as <-. simpl.
  destruct (List.find _ (model_fields c)) as [d|] eqn:Hf; [|done].
  rewrite (validate_fields_lookup _ _ _ _ _ Hv Hf).
  pose proof (List.find_some _ _ Hf) as [_ Hname].
  apply String.eqb_eq in Hname.
  unfold field_value. rewrite Hname, Hkw. simpl in Hty.
  destruct (f_type d) as [| | | | | | |t]; try done; simpl.
  - by rewrite uuid_UUID_str.
  - destruct t; try done. simpl. by rewrite uuid_UUID_str.
Qed.

Lemma validate_fields_undeclared decls kw fs f :
  validate_fields decls kw = Some fs →
  List.find (λ d, String.eqb (f_name d) f) decls = None →
  fs !! f = None.
Proof.
  revert fs. induction decls as [|d0 rest IH]; intros fs Hv Hf.
  - by injection Hv as <-.
  - simpl in Hv, Hf.
    destruct (validate_fields rest kw) as [m|] eqn:Hrest; [|done].
    destruct (field_value d0 kw) as [v|] eqn:Hd0; [|done].
    injection Hv as <-.
    destruct (String.eqb (f_name d0) f) eqn:Heq; [done|].
    apply String.eqb_neq in Heq. rewrite lookup_insert_ne; [|done]. by apply IH.
Qed.

Lemma strict_init_class c kw m : strict_init c kw = inr m → m_class m = c.
Proof.
  unfold strict_init. destruct (validate_fields _ _); [|done]. by intros [= <-].
Qed.

Lemma strict_init_declared c kw m f :
  strict_init c kw = inr m → find_field c f = None → m_fields m !! f = None.
Proof.
  unfold strict_init, find_field.
  destruct (validate_fields _ _) as [fs|] eqn:Hv; [|done].
  intros [= <-] Hf. simpl. by eapply validate_fields_undeclared.
Qed.

#[export] Instance strict_pydantic : Pydantic := {|
  pydantic_init := strict_init;
  pydantic_init_class := strict_init_class;
  pydantic_init_declared := strict_init_declared;
  pydantic_init_uuid := strict_init_uuid
|}.

End StrictValidation.

(* ===================================================================== *)
(** * 3. The world outside the SDK and the effect monad                   *)
(* ===================================================================== *)

Section World.
Context `{PyLib}.

(** What is passed where the code passes a model class: one of the classes
    of models/*.py or [typing.Dict] (teams.py and users.py pass [Dict]). *)
Inductive class_ref :=
| Cls (c : model_class)
| TypingDict.

(** A request body: a plain [dict] or a model object. *)
Inductive payload :=
| DataDict (d : gmap string pyval)
| DataModel (m : Model).

(** What a backend call returns: a plain value, a model or a list of
    models. *)
Inductive pyobj :=
| OVal (v : pyval)
| OModel (m : Model)
| OModels (l : list Model).

(** ** SQL, as far as database/connection.py builds it *)

(** [table.c.<col> == v] *)
Inductive cond := ColEq (col : string) (v : pyval).

Inductive stmt :=
| Select (tbl : string) (wheres : list cond)
| Insert (tbl : string) (values : gmap string pyval)
| UpdateStmt (tbl : string) (c : cond) (values : gmap string pyval)
| DeleteStmt (tbl : string) (c : cond)
(* SELECT u.* FROM users u JOIN team_members tm ON u.id = tm.user_id
   WHERE tm.team_id = :team_id *)
| TeamMembersJoin (team_id : string)
(* SELECT t.* FROM teams t JOIN team_members tm ON t.id = tm.team_id
   WHERE tm.user_id = :user_id *)
| UserTeamsJoin (user_id : string).

(** A table: its columns, the server-side defaults of some of them, and
    its rows. *)
Record Table := {
  t_columns : list string;
  t_defaults : gmap string pyval;
  t_rows : list (gmap string pyval)
}.

(** ** HTTP, as far as api/connection.py sees it *)

Record HttpRequest := {
  rq_method : string;
  rq_url : string;
  rq_json : option payload;
  rq_params : option (gmap string pyval)
}.

(** A [requests.Response]: [json_body = None] when [response.json()]
    raises because the body is not valid JSON. *)
Record Response := {
  status_code : Z;
  reason : string;
  text : string;
  json_body : option pyval
}.

(** ** Observable events

    A [Call] is logged when a backend method is entered, after Python has
    bound its arguments; [Sql] when a statement is handed to the engine;
    [Http] when a request is handed to the HTTP session. *)
Inductive call :=
| DbList (name : string) (filters : gmap string pyval)
| DbGet (name id_or_key : string)
| DbCreate (name : string) (data : Model)
| DbUpdate (name id_or_key : string) (data : Model)
| DbDelete (name id_or_key : string)
| DbGetTeamMembers (team_id : string)
| DbGetUserTeams (user_id : string)
| ApiList (path : string) (params : gmap string pyval)
| ApiGet (path id : string)
| ApiCreate (path : string) (data : payload)
| ApiUpdate (path id : string) (data : payload)
| ApiDelete (path id : string).

Inductive event :=
| Call (c : call)
| Sql (s : stmt)
| Http (r : HttpRequest).

Inductive backend := DB | API.

Definition call_backend (c : call) : backend :=
  match c with
  | DbList _ _ | DbGet _ _ | DbCreate _ _ | DbUpdate _ _ _ | DbDelete _ _
  | DbGetTeamMembers _ | DbGetUserTeams _ => DB
  | _ => API
  end.

Definition event_backend (e : event) : backend :=
  match e with
  | Call c => call_backend c
  | Sql _ => DB
  | Http _ => API
  end.

Definition is_db (e : event) : bool :=
  match event_backend e with DB => true | API => false end.

Definition is_api (e : event) : bool :=
  match event_backend e with API => true | DB => false end.

(** The backend was entered / was left alone during a run. *)
Definition touches_db (log : list event) : bool := existsb is_db log.
Definition touches_api (log : list event) : bool := existsb is_api log.

(** ** The world

    The tables of the database, the remote service behind the HTTP session
    (retries happen inside the session), and the source of [uuid.uuid4()]. *)
Record World := {
  w_tables : gmap string Table;
  w_http : HttpRequest → result Response;
  w_uuid4 : nat → uuid;
  w_uuid4_calls : nat
}.

(** ** Computations: state, exceptions and the event log *)
Definition M (A : Type) : Type := World → result A * World * list event.

Definition ret {A} (a : A) : M A := λ w, (Ok a, w, []).
Definition raise {A} (e : exn) : M A := λ w, (Raise e, w, []).
Definition lift {A} (r : result A) : M A := λ w, (r, w, []).
Definition emit (e : event) : M unit := λ w, (Ok tt, w, [e]).
Definition get_world : M World := λ w, (Ok w, w, []).
Definition put_world (w' : World) : M unit := λ _, (Ok tt, w', []).

Definition bind {A B} (m : M A) (f : A → M B) : M B := λ w,
  match m w with
  | (Ok a, w1, l1) => let '(r, w2, l2) := f a w1 in (r, w2, l1 ++ l2)
  | (Raise e, w1, l1) => (Raise e, w1, l1)
  end.

(** [try: m  except Exception as e: h e] *)
Definition try_except {A} (m : M A) (h : exn → M A) : M A := λ w,
  match m w with
  | (Raise e, w1, l1) => let '(r, w2, l2) := h e w1 in (r, w2, l1 ++ l2)
  | ok => ok
  end.

(** [with conn.begin(): m]: an exception rolls the tables back. *)
Definition transaction {A} (m : M A) : M A := λ w,
  match m w with
  | (Raise e, w1, l1) =>
      (Raise e,
       {| w_tables := w_tables w; w_http := w_http w1;
          w_uuid4 := w_uuid4 w1; w_uuid4_calls := w_uuid4_calls w1 |}, l1)
  | ok => ok
  end.

Fixpoint mapM {A B} (f : A → M B) (l : list A) : M (list B) :=
  match l with
  | [] => ret []
  | a :: rest => bind (f a) (λ b, bind (mapM f rest) (λ bs, ret (b :: bs)))
  end.

(** A call that forwards keyword arguments [kw] after positional ones:
    binding fails when [kw] names a parameter that is already bound
    positionally. *)
Definition kwargs_clear (positional : list string) (kw : gmap string pyval) : bool :=
  forallb (λ p, match kw !! p with None => true | Some _ => false end) positional.

Definition bind_kwargs (fname : string) (positional : list string)
    (kw : gmap string pyval) : M unit :=
  if kwargs_clear positional kw
  then ret tt
  else raise (Exn TypeError (fname +:+ "() got multiple values for an argument")).

End World.

(** stdpp's [x ← m; k] and [m;; k] are used for sequencing. *)
#[export] Instance M_bind `{PyLib} : MBind M := λ A B f m, bind m f.
#[export] Instance M_ret `{PyLib} : MRet M := λ A a, ret a.

(* ===================================================================== *)
(** * 4. api/connection.py                                                *)
(* ===================================================================== *)

(** [s.lstrip("/")] and [s.rstrip("/")] *)
Fixpoint lstrip_slash (s : string) : string :=
  match s with
  | String c r => if Ascii.eqb c "/"%char then lstrip_slash r else s
  | EmptyString => EmptyString
  end.

Fixpoint rstrip_slash (s : string) : string :=
  match s with
  | EmptyString => EmptyString
  | String c r =>
      match rstrip_slash r with
      | EmptyString => if Ascii.eqb c "/"%char then EmptyString else String c EmptyString
      | r' => String c r'
      end
  end.

Section APIConnection.
Context `{Hpy : PyLib} `{Hpd : !Pydantic}.

Record APIConnection := {
  base_url : string;
  api_key : string;
  api_version : string;
  timeout : Z
}.

(** [APIConnection.__init__] with the default timeout; the retry policy is
    handed to the HTTP session and lives in [w_http]. *)
Definition APIConnection_init (base_url api_key api_version : string) : APIConnection :=
  {| base_url := rstrip_slash base_url;
     api_key := api_key;
     api_version := api_version;
     timeout := 30 |}.

Definition _build_url (self : APIConnection) (path : string) : string :=
  let path := lstrip_slash path in
  let path :=
    if String.prefix (api_version self +:+ "/") path then path
    else api_version self +:+ "/" +:+ path in
  base_url self +:+ "/" +:+ path.

(** [requests.Response.raise_for_status]: [HTTPError] for the client and
    server error ranges, 400 to 599, and nothing otherwise. *)
Definition raise_for_status (r : Response) : result unit :=
  if (400 <=? status_code r) && (status_code r <? 600)
  then Raise (Exn HTTPError (pretty (status_code r) +:+ " Error: " +:+ reason r))
  else Ok tt.

(** A model class called on keyword arguments. *)
Definition pydantic_call (mc : model_class) (kw : gmap string pyval) : result Model :=
  match pydantic_init mc kw with
  | inr m => Ok m
  | inl msg => Raise (Exn PydanticValidationError msg)
  end.

(** [expected_model_class] applied to the keyword arguments of [item].
    [typing.Dict] cannot be instantiated. *)
Definition instantiate (c : class_ref) (item : pyval) : result Model :=
  match item with
  | PDict d =>
      match c with
      | Cls mc => pydantic_call mc (list_to_map d)
      | TypingDict =>
          Raise (Exn TypeError "Type Dict cannot be instantiated; use dict() instead")
      end
  | _ => Raise (Exn TypeError "argument after ** must be a mapping")
  end.

(** The inner [try] of [_handle_response]: only a body that is not JSON is
    caught; [.get] on a decoded value that is no object raises. *)
Definition error_detail_of (response : Response) : result pyval :=
  match json_body response with
  | Some (PDict error_data) =>
      Ok (py_or (dict_get error_data "detail") (dict_get error_data "message"))
  | Some _ => Raise (Exn AttributeError "object has no attribute 'get'")
  | None => Ok (PStr (text response))
  end.

Definition _handle_response (response : Response)
    (expected_model_class : option class_ref) : result pyobj :=
  match raise_for_status response with
  | Raise _ =>
      let status_code := status_code response in
      result_bind (error_detail_of response) (λ error_detail,
      if (status_code =? 401) || (status_code =? 403) then
        Raise (Exn AuthenticationError
                 (py_str (py_or error_detail (PStr "Authentication failed"))))
      else if status_code =? 404 then
        Raise (Exn NotFoundError
                 (py_str (py_or error_detail (PStr "Resource not found"))))
      else if status_code =? 422 then
        Raise (Exn ValidationError
                 (py_str (py_or error_detail (PStr "Validation error"))))
      else if status_code =? 429 then
        Raise (Exn RateLimitError
                 (py_str (py_or error_detail (PStr "Rate limit exceeded"))))
      else
        Raise (Exn APIError
                 ("API error: " +:+ pretty status_code +:+ " - " +:+
                  py_str (py_or error_detail (PStr (reason response))))))
  | Ok _ =>
      match json_body response with
      | None => Raise (Exn JSONDecodeError "Expecting value")
      | Some data =>
          match expected_model_class, data with
          | Some c, PList items =>
              result_bind (result_mapM (instantiate c) items) (λ ms, Ok (OModels ms))
          | Some c, PDict _ =>
              result_bind (instantiate c data) (λ m, Ok (OModel m))
          | _, _ => Ok (OVal data)
          end
      end
  end.

(** [self.session.request(...)] *)
Definition session_request (rq : HttpRequest) : M Response :=
  λ w, (w_http w rq, w, [Http rq]).

Definition request (self : APIConnection) (method path : string)
    (model_class : option class_ref) (data : option payload)
    (params : option (gmap string pyval)) : M pyobj :=
  let url := _build_url self path in
  let data :=
    match data with
    | Some (DataModel m) =>
        if derives_BaseModel (m_class m)
        then Some (DataDict (model_dict_exclude_unset m))
        else data
    | _ => data
    end in
  response ← session_request
    {| rq_method := method; rq_url := url; rq_json := data; rq_params := params |};
  lift (_handle_response response model_class).

Definition APIConnection_list (self : APIConnection) (resource_path : string)
    (model_class : class_ref) (params : gmap string pyval) : M pyobj :=
  bind_kwargs "list" ["self"; "resource_path"; "model_class"] params;;
  emit (Call (ApiList resource_path params));;
  request self "GET" resource_path (Some model_class) None (Some params).

Definition APIConnection_get (self : APIConnection) (resource_path resource_id : string)
    (model_class : class_ref) : M pyobj :=
  emit (Call (ApiGet resource_path resource_id));;
  let path := resource_path +:+ "/" +:+ resource_id in
  request self "GET" path (Some model_class) None None.

Definition APIConnection_create (self : APIConnection) (resource_path : string)
    (data : payload) (model_class : class_ref) : M pyobj :=
  emit (Call (ApiCreate resource_path data));;
  request self "POST" resource_path (Some model_class) (Some data) None.

Definition APIConnection_update (self : APIConnection) (resource_path resource_id : string)
    (data : payload) (model_class : class_ref) : M pyobj :=
  emit (Call (ApiUpdate resource_path resource_id data));;
  let path := resource_path +:+ "/" +:+ resource_id in
  request self "PUT" path (Some model_class) (Some data) None.

(** [def delete(self, resource_path, resource_id)].  Its callers do not
    all pass the same number of positional arguments, so the binding of
    the arguments is part of the model: Python raises [TypeError] before
    the body runs unless both are supplied. *)
Definition APIConnection_delete (self : APIConnection) (args : list string) : M pyobj :=
  match args with
  | [resource_path; resource_id] =>
      emit (Call (ApiDelete resource_path resource_id));;
      let path := resource_path +:+ "/" +:+ resource_id in
      request self "DELETE" path None None None;;
      mret (OVal (PBool true))
  | [_] =>
      raise (Exn TypeError
               "delete() missing 1 required positional argument: 'resource_id'")
  | [] =>
      raise (Exn TypeError
               "delete() missing 2 required positional arguments: 'resource_path' and 'resource_id'")
  | _ =>
      raise (Exn TypeError "delete() takes 3 positional arguments but more were given")
  end.

End APIConnection.

(* ===================================================================== *)
(** * 5. database/connection.py                                           *)
(* ===================================================================== *)

Section DatabaseConnection.
Context `{Hpy : PyLib} `{Hpd : !Pydantic}.

Record DatabaseConnection := { connection_string : string }.

(** ** The SQL engine

    Cells and bound parameters are compared as scalars; a [UUID] object is
    bound through its text.  Constraints and connection failures are not
    modelled. *)
Definition uuid_to_str (v : pyval) : pyval :=
  match v with
  | PUuid u => PStr (uuid_str u)
  | _ => v
  end.

Definition sql_param (v : pyval) : pyval := uuid_to_str v.

Definition scalar_eqb (a b : pyval) : bool :=
  match a, b with
  | PNone, PNone => true
  | PBool x, PBool y => Bool.eqb x y
  | PInt x, PInt y => x =? y
  | PStr x, PStr y => String.eqb x y
  | PDatetime x, PDatetime y => String.eqb x y
  | _, _ => false
  end.

(** [column = :param]; a [None] parameter is rendered [IS NULL]. *)
Definition sql_eq (cell v : pyval) : bool := scalar_eqb (sql_param cell) (sql_param v).

(** [a.x = b.y] between two columns: never true on NULL. *)
Definition sql_col_eq (a b : pyval) : bool :=
  match a with
  | PNone => false
  | _ => sql_eq a b
  end.

Definition eval_cond (c : cond) (row : gmap string pyval) : bool :=
  match c with
  | ColEq col v =>
      match row !! col with
      | Some cell => sql_eq cell v
      | None => false
      end
  end.

Definition cell (row : gmap string pyval) (col : string) : pyval :=
  default PNone (row !! col).

Definition known_columns (t : Table) (values : gmap string pyval) : bool :=
  forallb (λ kv, bool_decide (kv.1 ∈ t_columns t)) (map_to_list values).

(** The stored row: the given values, the column default or NULL in the
    other columns. *)
Definition stored_cell (t : Table) (values : gmap string pyval) (c : string) : pyval :=
  match values !! c with
  | Some v => v
  | None => cell (t_defaults t) c
  end.

Definition new_row (t : Table) (values : gmap string pyval) : gmap string pyval :=
  list_to_map ((λ c, (c, stored_cell t values c)) <$> t_columns t).

Definition engine_error {A} (msg : string) : M A := raise (Exn SQLAlchemyError msg).

Definition set_rows (tbl : string) (t : Table) (rows : list (gmap string pyval)) : M unit :=
  w ← get_world;
  put_world
    {| w_tables :=
         <[tbl := {| t_columns := t_columns t; t_defaults := t_defaults t;
                     t_rows := rows |}]> (w_tables w);
       w_http := w_http w; w_uuid4 := w_uuid4 w; w_uuid4_calls := w_uuid4_calls w |}.

Definition engine_table (tbl : string) : M Table :=
  w ← get_world;
  match w_tables w !! tbl with
  | Some t => mret t
  | None => engine_error ("no such table: " +:+ tbl)
  end.

(** [conn.execute(s)]: the rows selected, or the rows affected (whose
    number is [rowcount]).  An UPDATE is modelled for a value map that is
    not empty; the engine rejects one without values, and the properties
    of [update] below that depend on it take a value map that is not
    empty. *)
Definition conn_execute (s : stmt) : M (list (gmap string pyval)) :=
  emit (Sql s);;
  match s with
  | Select tbl wheres =>
      t ← engine_table tbl;
      mret (List.filter (λ r, forallb (λ c, eval_cond c r) wheres) (t_rows t))
  | Insert tbl values =>
      t ← engine_table tbl;
      if known_columns t values then
        set_rows tbl t (t_rows t ++ [new_row t values]);;
        mret [new_row t values]
      else engine_error "Unconsumed column names"
  | UpdateStmt tbl c values =>
      t ← engine_table tbl;
      if known_columns t values then
        set_rows tbl t ((λ r, if eval_cond c r then values ∪ r else r) <$> t_rows t);;
        mret (List.filter (eval_cond c) (t_rows t))
      else engine_error "Unconsumed column names"
  | DeleteStmt tbl c =>
      t ← engine_table tbl;
      set_rows tbl t (List.filter (λ r, negb (eval_cond c r)) (t_rows t));;
      mret (List.filter (eval_cond c) (t_rows t))
  | TeamMembersJoin team_id =>
      users ← engine_table "users";
      members ← engine_table "team_members";
      mret (List.flat_map (λ u,
              List.flat_map (λ tm,
                if sql_col_eq (cell u "id") (cell tm "user_id")
                   && sql_eq (cell tm "team_id") (PStr team_id)
                then [u] else []) (t_rows members)) (t_rows users))
  | UserTeamsJoin user_id =>
      teams ← engine_table "teams";
      members ← engine_table "team_members";
      mret (List.flat_map (λ t,
              List.flat_map (λ tm,
                if sql_col_eq (cell t "id") (cell tm "team_id")
                   && sql_eq (cell tm "user_id") (PStr user_id)
                then [t] else []) (t_rows members)) (t_rows teams))
  end.

(** [uuid.uuid4()] *)
Definition uuid4 : M uuid := λ w,
  (Ok (w_uuid4 w (w_uuid4_calls w)),
   {| w_tables := w_tables w; w_http := w_http w;
      w_uuid4 := w_uuid4 w; w_uuid4_calls := S (w_uuid4_calls w) |}, []).

(** ** The connection's methods *)

Definition _get_table (self : DatabaseConnection) (resource_name : string) : M Table :=
  w ← get_world;
  match w_tables w !! resource_name with
  | Some t => mret t
  | None =>
      raise (Exn ValueError ("Table " +:+ resource_name +:+ " not found in database schema"))
  end.

(** [hasattr(table.c, name)] and [table.c.<name>], for a name that is no
    attribute of the column collection itself: the table has a column of
    that name.  (For a name such as [keys], which the collection defines
    as a method, [hasattr] holds too and [table.c.keys] is the method;
    such names are outside the model, and the properties of [list] below
    that depend on it take filters named after model fields.) *)
Definition has_column (table : Table) (name : string) : bool :=
  bool_decide (name ∈ t_columns table).

Definition column (table : Table) (name : string) : M unit :=
  if has_column table name then mret tt
  else raise (Exn AttributeError name).

Definition _model_to_dict (model_obj : Model) : gmap string pyval :=
  uuid_to_str <$> model_dict_exclude_unset model_obj.

Definition _row_to_model (row : gmap string pyval) (model_class : model_class) : result Model :=
  pydantic_call model_class row.

(** [dict(row)] for the result of [fetchone()] *)
Definition dict_of_fetched (row : option (gmap string pyval)) : result (gmap string pyval) :=
  match row with
  | Some r => Ok r
  | None => Raise (Exn TypeError "'NoneType' object is not iterable")
  end.

Definition DatabaseConnection_list (self : DatabaseConnection) (resource_name : string)
    (model_class : model_class) (filters : gmap string pyval) : M (list Model) :=
  bind_kwargs "list" ["self"; "resource_name"; "model_class"] filters;;
  emit (Call (DbList resource_name filters));;
  table ← _get_table self resource_name;
  let wheres :=
    (λ kv, ColEq kv.1 kv.2) <$>
      List.filter (λ kv, has_column table kv.1) (map_to_list filters) in
  rows ← conn_execute (Select resource_name wheres);
  lift (result_mapM (λ row, _row_to_model row model_class) rows).

Definition DatabaseConnection_get (self : DatabaseConnection)
    (resource_name id_or_key : string) (model_class : model_class) : M (option Model) :=
  emit (Call (DbGet resource_name id_or_key));;
  table ← _get_table self resource_name;
  query ←
    match uuid_UUID id_or_key with
    | Some uuid_obj =>
        column table "id";; mret (Select resource_name [ColEq "id" (PUuid uuid_obj)])
    | None =>
        column table "key";; mret (Select resource_name [ColEq "key" (PStr id_or_key)])
    end;
  result ← conn_execute query;
  match head result with
  | None => mret None
  | Some row => m ← lift (_row_to_model row model_class); mret (Some m)
  end.

Definition DatabaseConnection_create (self : DatabaseConnection) (resource_name : string)
    (data : Model) (model_class : model_class) : M Model :=
  emit (Call (DbCreate resource_name data));;
  table ← _get_table self resource_name;
  let values := _model_to_dict data in
  values ←
    match values !! "id" with
    | Some v =>
        if py_truthy v then mret values
        else u ← uuid4; mret (<["id" := PStr (uuid_str u)]> values)
    | None => u ← uuid4; mret (<["id" := PStr (uuid_str u)]> values)
    end;
  new_row ← transaction (
    conn_execute (Insert resource_name values);;
    column table "id";;
    result ← conn_execute (Select resource_name [ColEq "id" (cell values "id")]);
    mret (head result));
  row ← lift (dict_of_fetched new_row);
  lift (_row_to_model row model_class).

Definition DatabaseConnection_update (self : DatabaseConnection)
    (resource_name id_or_key : string) (data : Model) (model_class : model_class) : M Model :=
  emit (Call (DbUpdate resource_name id_or_key data));;
  table ← _get_table self resource_name;
  let values := _model_to_dict data in
  condition ←
    match uuid_UUID id_or_key with
    | Some uuid_obj => column table "id";; mret (ColEq "id" (PUuid uuid_obj))
    | None => column table "key";; mret (ColEq "key" (PStr id_or_key))
    end;
  updated_row ← transaction (
    conn_execute (UpdateStmt resource_name condition values);;
    result ← conn_execute (Select resource_name [condition]);
    mret (head result));
  row ← lift (dict_of_fetched updated_row);
  lift (_row_to_model row model_class).

Definition DatabaseConnection_delete (self : DatabaseConnection)
    (resource_name id_or_key : string) : M bool :=
  emit (Call (DbDelete resource_name id_or_key));;
  table ← _get_table self resource_name;
  condition ←
    match uuid_UUID id_or_key with
    | Some uuid_obj => column table "id";; mret (ColEq "id" (PUuid uuid_obj))
    | None => column table "key";; mret (ColEq "key" (PStr id_or_key))
    end;
  result ← transaction (conn_execute (DeleteStmt resource_name condition));
  mret (0 <? length result)%nat.

Definition DatabaseConnection_get_team_members (self : DatabaseConnection)
    (team_id : string) : M (list Model) :=
  emit (Call (DbGetTeamMembers team_id));;
  rows ← conn_execute (TeamMembersJoin team_id);
  lift (result_mapM (λ row, pydantic_call User row) rows).

Definition DatabaseConnection_get_user_teams (self : DatabaseConnection)
    (user_id : string) : M (list Model) :=
  emit (Call (DbGetUserTeams user_id));;
  rows ← conn_execute (UserTeamsJoin user_id);
  lift (result_mapM (λ row, pydantic_call Team row) rows).

End DatabaseConnection.

(* ===================================================================== *)
(** * 6. core/utils/decorators.py and core/resources/base.py              *)
(* ===================================================================== *)

Section Resources.
Context `{Hpy : PyLib} `{Hpd : !Pydantic}.

Inductive resource_class := Projects | Prompts | Teams | Users | Activities.

(** The class attributes of the five resource classes.  [Activities] sets
    [model_class] and [resource_name] only; the other two stay [None], as
    [ResourceBase] declares them. *)
Definition model_class_of (c : resource_class) : model_class :=
  match c with
  | Projects => Project
  | Prompts => Prompt
  | Teams => Team
  | Users => User
  | Activities => Activity
  end.

Definition create_model_class_of (c : resource_class) : option model_class :=
  match c with
  | Projects => Some ProjectCreate
  | Prompts => Some PromptCreate
  | Teams => Some TeamCreate
  | Users => Some UserCreate
  | Activities => None
  end.

Definition update_model_class_of (c : resource_class) : option model_class :=
  match c with
  | Projects => Some ProjectUpdate
  | Prompts => Some PromptUpdate
  | Teams => Some TeamUpdate
  | Users => Some UserUpdate
  | Activities => None
  end.

Definition resource_name_of (c : resource_class) : string :=
  match c with
  | Projects => "projects"
  | Prompts => "prompts"
  | Teams => "teams"
  | Users => "users"
  | Activities => "activities"
  end.

(** The classes built on [ResourceMixin]; Teams and Users are built on
    [WriteThruAPIResourceMixin]. *)
Definition standard (c : resource_class) : bool :=
  match c with
  | Projects | Prompts | Activities => true
  | Teams | Users => false
  end.

Record Resource := {
  r_class : resource_class;
  db : option DatabaseConnection;
  api : option APIConnection;
  mixed_mode : bool
}.

(** Truth value of a connection attribute: [None] is false, a connection
    object is true. *)
Definition conn_truthy {A} (o : option A) : bool :=
  match o with
  | Some _ => true
  | None => false
  end.

(** [ResourceBase.__init__] *)
Definition ResourceBase_init (cls : resource_class)
    (db : option DatabaseConnection) (api : option APIConnection) : result Resource :=
  if negb (conn_truthy db) && negb (conn_truthy api)
  then Raise (Exn ValueError "At least one of db or api must be provided")
  else Ok {| r_class := cls; db := db; api := api;
             mixed_mode := conn_truthy db && conn_truthy api |}.

Definition _get_id_from_arg (id_or_key : pyval) : string := py_str id_or_key.

(** [self.db.<method>] and [self.api.<method>]: attribute access on [None]
    raises. *)
Definition self_db (self : Resource) : M DatabaseConnection :=
  match db self with
  | Some conn => mret conn
  | None => raise (Exn AttributeError "'NoneType' object has no attribute")
  end.

Definition self_api (self : Resource) : M APIConnection :=
  match api self with
  | Some conn => mret conn
  | None => raise (Exn AttributeError "'NoneType' object has no attribute")
  end.

(** [self.create_model_class] or [self.update_model_class] called on the
    keyword arguments. *)
Definition call_model_class (c : option model_class) (kwargs : gmap string pyval)
  : result Model :=
  match c with
  | Some mc => pydantic_call mc kwargs
  | None => Raise (Exn TypeError "'NoneType' object is not callable")
  end.

(** [kwargs.get("force_api", False)] as a condition *)
Definition force_api (kwargs : gmap string pyval) : bool :=
  py_truthy (default (PBool false) (kwargs !! "force_api")).

(** ** decorators.py: [api_write_only] *)
Definition api_write_only {A} (method_name : string) (self : Resource) (method : M A) : M A :=
  if negb (conn_truthy (api self)) then
    raise (Exn ValueError
             ("API connection is required for " +:+ method_name +:+
              ". Please initialize the client with an API connection."))
  else
    try_except method (λ e,
      if isinstance e AuthenticationError then
        raise (Exn AuthenticationError
                 ("Failed to authenticate when performing " +:+ method_name +:+
                  ": " +:+ exn_str e))
      else if isinstance e ValidationError then
        raise (Exn ValidationError
                 ("Invalid data for " +:+ method_name +:+ ": " +:+ exn_str e))
      else if isinstance e NotFoundError then
        raise (Exn NotFoundError
                 ("Resource not found in " +:+ method_name +:+ ": " +:+ exn_str e))
      else if isinstance e APIError then
        raise (Exn APIError
                 ("API error occurred during " +:+ method_name +:+ ": " +:+ exn_str e))
      else
        raise (Exn APIError
                 ("Unexpected error during " +:+ method_name +:+ ": " +:+ exn_str e))).

(** ** [ResourceMixin] *)

Definition ResourceMixin_list (self : Resource) (kwargs : gmap string pyval) : M pyobj :=
  let resource_name := resource_name_of (r_class self) in
  let model_class := model_class_of (r_class self) in
  if conn_truthy (db self) && negb (mixed_mode self && force_api kwargs) then
    conn ← self_db self;
    ms ← DatabaseConnection_list conn resource_name model_class kwargs;
    mret (OModels ms)
  else
    conn ← self_api self;
    APIConnection_list conn resource_name (Cls model_class) kwargs.

Definition of_optional (o : option Model) : pyobj :=
  match o with
  | Some m => OModel m
  | None => OVal PNone
  end.

Definition ResourceMixin_get (self : Resource) (id_or_key : pyval)
    (kwargs : gmap string pyval) : M pyobj :=
  let resource_name := resource_name_of (r_class self) in
  let model_class := model_class_of (r_class self) in
  let item_id := _get_id_from_arg id_or_key in
  if conn_truthy (db self) && negb (mixed_mode self && force_api kwargs) then
    conn ← self_db self;
    o ← DatabaseConnection_get conn resource_name item_id model_class;
    mret (of_optional o)
  else
    conn ← self_api self;
    APIConnection_get conn resource_name item_id (Cls model_class).

Definition ResourceMixin_create (self : Resource) (kwargs : gmap string pyval) : M pyobj :=
  let resource_name := resource_name_of (r_class self) in
  let model_class := model_class_of (r_class self) in
  data ← lift (call_model_class (create_model_class_of (r_class self)) kwargs);
  if mixed_mode self || negb (conn_truthy (db self)) then
    conn ← self_api self;
    APIConnection_create conn resource_name (DataModel data) (Cls model_class)
  else
    conn ← self_db self;
    m ← DatabaseConnection_create conn resource_name data model_class;
    mret (OModel m).

Definition ResourceMixin_update (self : Resource) (id_or_key : pyval)
    (kwargs : gmap string pyval) : M pyobj :=
  let resource_name := resource_name_of (r_class self) in
  let model_class := model_class_of (r_class self) in
  let item_id := _get_id_from_arg id_or_key in
  data ← lift (call_model_class (update_model_class_of (r_class self)) kwargs);
  if mixed_mode self || negb (conn_truthy (db self)) then
    conn ← self_api self;
    APIConnection_update conn resource_name item_id (DataModel data) (Cls model_class)
  else
    conn ← self_db self;
    m ← DatabaseConnection_update conn resource_name item_id data model_class;
    mret (OModel m).

Definition ResourceMixin_delete (self : Resource) (id_or_key : pyval)
    (kwargs : gmap string pyval) : M pyobj :=
  let resource_name := resource_name_of (r_class self) in
  let item_id := _get_id_from_arg id_or_key in
  if mixed_mode self || negb (conn_truthy (db self)) then
    conn ← self_api self;
    APIConnection_delete conn [resource_name; item_id]
  else
    conn ← self_db self;
    b ← DatabaseConnection_delete conn resource_name item_id;
    mret (OVal (PBool b)).

(** ** [WriteThruAPIResourceMixin]

    users.py and teams.py repeat these three methods with the same bodies
    and the same decorator. *)

Definition WriteThruAPIResourceMixin_create (self : Resource)
    (kwargs : gmap string pyval) : M pyobj :=
  api_write_only "create" self (
    data ← lift (call_model_class (create_model_class_of (r_class self)) kwargs);
    conn ← self_api self;
    APIConnection_create conn (resource_name_of (r_class self)) (DataModel data)
      (Cls (model_class_of (r_class self)))).

Definition WriteThruAPIResourceMixin_update (self : Resource) (id_or_key : pyval)
    (kwargs : gmap string pyval) : M pyobj :=
  api_write_only "update" self (
    let item_id := _get_id_from_arg id_or_key in
    data ← lift (call_model_class (update_model_class_of (r_class self)) kwargs);
    conn ← self_api self;
    APIConnection_update conn (resource_name_of (r_class self)) item_id (DataModel data)
      (Cls (model_class_of (r_class self)))).

Definition WriteThruAPIResourceMixin_delete (self : Resource) (id_or_key : pyval) : M pyobj :=
  api_write_only "delete" self (
    let item_id := _get_id_from_arg id_or_key in
    conn ← self_api self;
    APIConnection_delete conn [resource_name_of (r_class self); item_id]).

End Resources.

(* ===================================================================== *)
(** * 7. core/resources: projects, prompts, activities, teams, users      *)
(* ===================================================================== *)

Section ResourceClasses.
Context `{Hpy : PyLib} `{Hpd : !Pydantic}.

(** ** projects.py *)
Definition Projects_get_prompts (self : Resource) (project_id : pyval) : M pyobj :=
  let resource_name := resource_name_of (r_class self) in
  let project_id := _get_id_from_arg project_id in
  if conn_truthy (db self) && negb (mixed_mode self) then
    conn ← self_db self;
    ms ← DatabaseConnection_list conn "prompts" Prompt {["project_id" := PStr project_id]};
    mret (OModels ms)
  else
    conn ← self_api self;
    APIConnection_list conn (resource_name +:+ "/" +:+ project_id +:+ "/prompts")
      (Cls Prompt) ∅.

(** ** prompts.py *)

(** [parent.id] where [parent] is what [db.get] returned. *)
Definition attr_of_fetched (o : option Model) (name : string) : result pyval :=
  match o with
  | Some m => model_getattr m name
  | None => Raise (Exn AttributeError ("'NoneType' object has no attribute '" +:+ name +:+ "'"))
  end.

Definition Prompts_create_version (self : Resource) (id_or_key : pyval)
    (kwargs : gmap string pyval) : M pyobj :=
  let resource_name := resource_name_of (r_class self) in
  let prompt_id := _get_id_from_arg id_or_key in
  data ← lift (pydantic_call PromptCreate kwargs);
  if mixed_mode self || negb (conn_truthy (db self)) then
    conn ← self_api self;
    APIConnection_create conn (resource_name +:+ "/" +:+ prompt_id +:+ "/versions")
      (DataModel data) (Cls Prompt)
  else
    conn ← self_db self;
    parent ← DatabaseConnection_get conn resource_name prompt_id Prompt;
    parent_id ← lift (attr_of_fetched parent "id");
    data ← lift (model_setattr data "parent_id" parent_id);
    m ← DatabaseConnection_create conn resource_name data Prompt;
    mret (OModel m).

Definition Prompts_get_versions (self : Resource) (id_or_key : pyval) : M pyobj :=
  let resource_name := resource_name_of (r_class self) in
  let prompt_id := _get_id_from_arg id_or_key in
  if conn_truthy (db self) && negb (mixed_mode self) then
    conn ← self_db self;
    prompt ← DatabaseConnection_get conn resource_name prompt_id Prompt;
    parent_id ← lift (attr_of_fetched prompt "parent_id");
    root_id ←
      (if py_truthy parent_id then mret parent_id
       else lift (attr_of_fetched prompt "id"));
    ms ← DatabaseConnection_list conn resource_name Prompt {["parent_id" := root_id]};
    mret (OModels ms)
  else
    conn ← self_api self;
    APIConnection_list conn (resource_name +:+ "/" +:+ prompt_id +:+ "/versions")
      (Cls Prompt) ∅.

(** ** activities.py *)

(** [f(..., user_id=user_id, **kwargs)]: a keyword given twice is an
    error at the call. *)
Definition with_user_id (user_id : string) (kwargs : gmap string pyval)
  : M (gmap string pyval) :=
  match kwargs !! "user_id" with
  | None => mret (<["user_id" := PStr user_id]> kwargs)
  | Some _ =>
      raise (Exn TypeError "list() got multiple values for keyword argument 'user_id'")
  end.

Definition Activities_list_for_user (self : Resource) (user_id : pyval)
    (kwargs : gmap string pyval) : M pyobj :=
  let resource_name := resource_name_of (r_class self) in
  let user_id := _get_id_from_arg user_id in
  if conn_truthy (db self) && negb (mixed_mode self) then
    conn ← self_db self;
    filters ← with_user_id user_id kwargs;
    ms ← DatabaseConnection_list conn resource_name Activity filters;
    mret (OModels ms)
  else
    conn ← self_api self;
    APIConnection_list conn (resource_name +:+ "?user_id=" +:+ user_id) (Cls Activity) kwargs.

(** ** teams.py *)

Definition Teams_get_members (self : Resource) (team_id : pyval) : M pyobj :=
  let resource_name := resource_name_of (r_class self) in
  let team_id := _get_id_from_arg team_id in
  try_except
    (if conn_truthy (db self) && negb (mixed_mode self) then
       conn ← self_db self;
       ms ← DatabaseConnection_get_team_members conn team_id;
       mret (OModels ms)
     else
       conn ← self_api self;
       APIConnection_list conn (resource_name +:+ "/" +:+ team_id +:+ "/members")
         (Cls User) ∅)
    (λ e,
       if isinstance e NotFoundError then
         raise (Exn NotFoundError ("Team with ID " +:+ team_id +:+ " not found"))
       else
         raise (Exn APIError
                  ("Error retrieving members for team " +:+ team_id +:+ ": " +:+ exn_str e))).

Definition Teams_create := WriteThruAPIResourceMixin_create.
Definition Teams_update := WriteThruAPIResourceMixin_update.
Definition Teams_delete := WriteThruAPIResourceMixin_delete.

Definition Teams_add_member (self : Resource) (team_id user_id role : pyval) : M pyobj :=
  api_write_only "add_member" self (
    let resource_name := resource_name_of (r_class self) in
    let team_id := _get_id_from_arg team_id in
    let user_id := _get_id_from_arg user_id in
    let data : gmap string pyval := <["user_id" := PStr user_id]> {["role" := role]} in
    conn ← self_api self;
    APIConnection_create conn (resource_name +:+ "/" +:+ team_id +:+ "/members")
      (DataDict data) TypingDict).

(** [self.api.delete] is called here with the path as its only
    argument. *)
Definition Teams_remove_member (self : Resource) (team_id user_id : pyval) : M pyobj :=
  api_write_only "remove_member" self (
    let resource_name := resource_name_of (r_class self) in
    let team_id := _get_id_from_arg team_id in
    let user_id := _get_id_from_arg user_id in
    conn ← self_api self;
    APIConnection_delete conn
      [resource_name +:+ "/" +:+ team_id +:+ "/members/" +:+ user_id]).

Definition Teams_update_member_role (self : Resource) (team_id user_id role : pyval)
  : M pyobj :=
  api_write_only "update_member_role" self (
    let resource_name := resource_name_of (r_class self) in
    let team_id := _get_id_from_arg team_id in
    let user_id := _get_id_from_arg user_id in
    let data : gmap string pyval := {["role" := role]} in
    conn ← self_api self;
    APIConnection_update conn
      (resource_name +:+ "/" +:+ team_id +:+ "/members/" +:+ user_id) EmptyString
      (DataDict data) TypingDict).

(** ** users.py *)

Definition Users_get_teams (self : Resource) (user_id : pyval) : M pyobj :=
  let resource_name := resource_name_of (r_class self) in
  let user_id := _get_id_from_arg user_id in
  try_except
    (if conn_truthy (db self) && negb (mixed_mode self) then
       conn ← self_db self;
       ms ← DatabaseConnection_get_user_teams conn user_id;
       mret (OModels ms)
     else
       conn ← self_api self;
       APIConnection_list conn (resource_name +:+ "/" +:+ user_id +:+ "/teams")
         (Cls Team) ∅)
    (λ e,
       if isinstance e NotFoundError then
         raise (Exn NotFoundError ("User with ID " +:+ user_id +:+ " not found"))
       else
         raise (Exn APIError
                  ("Error retrieving teams for user " +:+ user_id +:+ ": " +:+ exn_str e))).

Definition Users_create := WriteThruAPIResourceMixin_create.
Definition Users_update := WriteThruAPIResourceMixin_update.
Definition Users_delete := WriteThruAPIResourceMixin_delete.

Definition Users_invite (self : Resource) (email full_name : pyval) : M pyobj :=
  api_write_only "invite" self (
    let resource_name := resource_name_of (r_class self) in
    let data : gmap string pyval := <["email" := email]> {["full_name" := full_name]} in
    conn ← self_api self;
    APIConnection_create conn (resource_name +:+ "/invite") (DataDict data) (Cls User)).

Definition Users_activate (self : Resource) (id_or_key : pyval) : M pyobj :=
  api_write_only "activate" self (
    let resource_name := resource_name_of (r_class self) in
    let item_id := _get_id_from_arg id_or_key in
    conn ← self_api self;
    APIConnection_create conn (resource_name +:+ "/" +:+ item_id +:+ "/activate")
      (DataDict ∅) (Cls User)).

Definition Users_deactivate (self : Resource) (id_or_key : pyval) : M pyobj :=
  api_write_only "deactivate" self (
    let resource_name := resource_name_of (r_class self) in
    let item_id := _get_id_from_arg id_or_key in
    conn ← self_api self;
    APIConnection_create conn (resource_name +:+ "/" +:+ item_id +:+ "/deactivate")
      (DataDict ∅) (Cls User)).

Definition Users_change_password (self : Resource)
    (id_or_key current_password new_password : pyval) : M pyobj :=
  api_write_only "change_password" self (
    let resource_name := resource_name_of (r_class self) in
    let item_id := _get_id_from_arg id_or_key in
    let data : gmap string pyval :=
      <["current_password" := current_password]> {["new_password" := new_password]} in
    conn ← self_api self;
    APIConnection_create conn (resource_name +:+ "/" +:+ item_id +:+ "/change-password")
      (DataDict data) TypingDict;;
    mret (OVal (PBool true))).

(** ** The write methods of the write-through resources, by name *)
Inductive write_method :=
| W_create | W_update | W_delete
| W_add_member | W_remove_member | W_update_member_role
| W_invite | W_activate | W_deactivate | W_change_password.

(** The call of a write method on arguments [a1 a2 a3] and keyword
    arguments [kwargs]; each method takes the arguments it declares. *)
Definition write_call (m : write_method) (self : Resource)
    (a1 a2 a3 : pyval) (kwargs : gmap string pyval) : M pyobj :=
  match m with
  | W_create => WriteThruAPIResourceMixin_create self kwargs
  | W_update => WriteThruAPIResourceMixin_update self a1 kwargs
  | W_delete => WriteThruAPIResourceMixin_delete self a1
  | W_add_member => Teams_add_member self a1 a2 a3
  | W_remove_member => Teams_remove_member self a1 a2
  | W_update_member_role => Teams_update_member_role self a1 a2 a3
  | W_invite => Users_invite self a1 a2
  | W_activate => Users_activate self a1
  | W_deactivate => Users_deactivate self a1
  | W_change_password => Users_change_password self a1 a2 a3
  end.

End ResourceClasses.

(* ===================================================================== *)
(** * 7a. core/client.py                                                  *)
(* ===================================================================== *)

(** [c.lower()] on one character: the letters A to Z are mapped, every
    other byte is kept.  (Python also maps letters outside ASCII; none of
    them is mapped to a letter of the three values of [ConnectionType].) *)
Definition ascii_lower (c : ascii) : ascii :=
  let n := nat_of_ascii c in
  if ((65 <=? n) && (n <=? 90))%nat then ascii_of_nat (n + 32) else c.

(** [s.lower()] *)
Fixpoint str_lower (s : string) : string :=
  match s with
  | EmptyString => EmptyString
  | String c r => String (ascii_lower c) (str_lower r)
  end.

Section Client.
Context `{Hpy : PyLib} `{Hpd : !Pydantic}.

(** [class ConnectionType(str, Enum)] *)
Inductive ConnectionType :=
| ConnectionType_API
| ConnectionType_DATABASE
| ConnectionType_MIXED.

#[export] Instance ConnectionType_eq_dec : EqDecision ConnectionType.
Proof. solve_decision. Defined.

(** [ConnectionType(value)]: the member with that value, or
    [ValueError]. *)
Definition ConnectionType_of_value (value : string) : result ConnectionType :=
  if String.eqb value "api" then Ok ConnectionType_API
  else if String.eqb value "database" then Ok ConnectionType_DATABASE
  else if String.eqb value "mixed" then Ok ConnectionType_MIXED
  else Raise (Exn ValueError ("'" +:+ value +:+ "' is not a valid ConnectionType")).

(** [not x] for an [Optional[str]] *)
Definition not_str (x : option string) : bool :=
  match x with
  | None => true
  | Some s => String.eqb s EmptyString
  end.

(** [x = os.environ.get(name)] under [if not x] *)
Definition or_environ (environ : gmap string string) (x : option string) (name : string)
  : option string :=
  if not_str x then environ !! name else x.

(** The attributes of a client.  [client_api] and [client_db] are the
    attributes [api] and [db], which exist only in the modes that set
    them. *)
Record PromptLaneClient := {
  connection_type : ConnectionType;
  client_api : option APIConnection;
  client_db : option DatabaseConnection;
  projects : Resource;
  prompts : Resource;
  teams : Resource;
  users : Resource;
  activities : Resource
}.

(** [PromptLaneClient._init_resources]: five dispatchers on the
    connections of the mode. *)
Definition _init_resources (connection_type : ConnectionType)
    (api : option APIConnection) (db : option DatabaseConnection)
  : result PromptLaneClient :=
  let '(d, a) :=
    match connection_type with
    | ConnectionType_API => (None, api)
    | ConnectionType_DATABASE => (db, None)
    | ConnectionType_MIXED => (db, api)
    end in
  result_bind (ResourceBase_init Projects d a) (λ projects,
  result_bind (ResourceBase_init Prompts d a) (λ prompts,
  result_bind (ResourceBase_init Teams d a) (λ teams,
  result_bind (ResourceBase_init Users d a) (λ users,
  result_bind (ResourceBase_init Activities d a) (λ activities,
  Ok {| connection_type := connection_type;
        client_api := api; client_db := db;
        projects := projects; prompts := prompts; teams := teams;
        users := users; activities := activities |}))))).

(** [PromptLaneClient.__init__].  [connection_type] is given as a string
    (a member of [ConnectionType] is a [str] too and takes the same path);
    [environ] is [os.environ]; [connect] stands for the constructor of
    [DatabaseConnection], which opens the engine and reflects the schema
    and may raise. *)
Definition PromptLaneClient_init
    (environ : gmap string string)
    (connect : string → result DatabaseConnection)
    (connection_type : string)
    (base_url api_key db_connection_string : option string)
    (api_version : string) : result PromptLaneClient :=
  result_bind (ConnectionType_of_value (str_lower connection_type)) (λ connection_type,
  result_bind
    (match connection_type with
     | ConnectionType_API | ConnectionType_MIXED =>
         let base_url := or_environ environ base_url "PROMPTLANE_API_URL" in
         let api_key := or_environ environ api_key "PROMPTLANE_API_KEY" in
         if not_str base_url || not_str api_key then
           Raise (Exn ValueError
             "For API or mixed connection types, base_url and api_key must be provided either as parameters or as environment variables PROMPTLANE_API_URL and PROMPTLANE_API_KEY")
         else
           Ok (Some (APIConnection_init (default EmptyString base_url)
                       (default EmptyString api_key) api_version))
     | ConnectionType_DATABASE => Ok None
     end) (λ api,
  result_bind
    (match connection_type with
     | ConnectionType_DATABASE | ConnectionType_MIXED =>
         let db_connection_string :=
           or_environ environ db_connection_string "PROMPTLANE_DB_CONNECTION" in
         if not_str db_connection_string then
           Raise (Exn ValueError
             "For database or mixed connection types, db_connection_string must be provided either as a parameter or as the environment variable PROMPTLANE_DB_CONNECTION")
         else
           result_bind (connect (default EmptyString db_connection_string))
             (λ conn, Ok (Some conn))
     | ConnectionType_API => Ok None
     end) (λ db,
  _init_resources connection_type api db))).

End Client.

(* ===================================================================== *)
(** * 8. Concrete worlds                                                  *)
(* ===================================================================== *)

Module Examples.

Definition zero_uuid : canonical_uuid :=
  let z := (X0, X0, X0, X0) in CanonicalUuid (z, z) z z z (z, z, z).

Definition canon (s : string) : canonical_uuid := default zero_uuid (canonical_parse s).

Definition id_root : canonical_uuid :=
  Eval vm_compute in canon "00000000-0000-0000-0000-00000000000a".
Definition id_child : canonical_uuid :=
  Eval vm_compute in canon "00000000-0000-0000-0000-00000000000b".
Definition id_project : canonical_uuid :=
  Eval vm_compute in canon "00000000-0000-0000-0000-0000000000f0".
Definition id_fresh : canonical_uuid :=
  Eval vm_compute in canon "00000000-0000-0000-0000-00000000000c".

Definition prompt_columns : list string :=
  ["id"; "created_at"; "updated_at"; "created_by"; "updated_by"; "name"; "key";
   "description"; "system_prompt"; "user_prompt"; "is_active"; "version";
   "project_id"; "parent_id"].

Definition prompt_row (id : canonical_uuid) (key : string) (parent : pyval)
  : gmap string pyval :=
  list_to_map
    [("id", PStr (canonical_text id)); ("created_at", PNone); ("updated_at", PNone);
     ("created_by", PNone); ("updated_by", PNone); ("name", PStr key);
     ("key", PStr key); ("description", PNone); ("system_prompt", PStr "sys");
     ("user_prompt", PStr "usr"); ("is_active", PBool true); ("version", PInt 1);
     ("project_id", PStr (canonical_text id_project)); ("parent_id", parent)].

Definition row_root : gmap string pyval := prompt_row id_root "welcome" PNone.
Definition row_child : gmap string pyval :=
  prompt_row id_child "welcome-v2" (PStr (canonical_text id_root)).

Definition prompts_table : Table :=
  {| t_columns := prompt_columns;
     t_defaults := {["version" := PInt 1]};
     t_rows := [row_root; row_child] |}.

Definition ok_response : Response :=
  {| status_code := 200; reason := "OK"; text := "{}"; json_body := Some (PDict []) |}.

Definition world0 : World :=
  {| w_tables := {["prompts" := prompts_table]};
     w_http := λ _, Ok ok_response;
     w_uuid4 := λ _, id_fresh;
     w_uuid4_calls := 0 |}.

Definition the_db : DatabaseConnection := {| connection_string := "postgresql://db" |}.
Definition the_api : APIConnection := APIConnection_init "https://api.example/" "k" "v1".

Definition db_only (c : resource_class) : Resource :=
  {| r_class := c; db := Some the_db; api := None; mixed_mode := false |}.
Definition api_only (c : resource_class) : Resource :=
  {| r_class := c; db := None; api := Some the_api; mixed_mode := false |}.
Definition mixed (c : resource_class) : Resource :=
  {| r_class := c; db := Some the_db; api := Some the_api; mixed_mode := true |}.

(** The identifiers of the models a call returned. *)
Definition returned_ids (r : result pyobj) : list pyval :=
  match r with
  | Ok (OModels ms) => (λ m, default PNone (m_fields m !! "id")) <$> ms
  | Ok (OModel m) => [default PNone (m_fields m !! "id")]
  | _ => []
  end.

(** Keyword arguments that [PromptCreate] accepts. *)
Definition version_kwargs : gmap string pyval :=
  list_to_map
    [("name", PStr "welcome"); ("key", PStr "welcome-v3");
     ("system_prompt", PStr "sys"); ("user_prompt", PStr "usr");
     ("is_active", PBool true); ("project_id", PUuid id_project)].

(** Keyword arguments that [ProjectUpdate] accepts. *)
Definition update_kwargs : gmap string pyval := {["description" := PStr "x"]}.

(** A 500 response with a JSON object as body, and a 304 response. *)
Definition error_response : Response :=
  {| status_code := 500; reason := "Internal Server Error";
     text := "{...}"; json_body := Some (PDict [("detail", PStr "boom")]) |}.

Definition not_modified_response : Response :=
  {| status_code := 304; reason := "Not Modified"; text := "{}";
     json_body := Some (PDict []) |}.

Definition outcome {A} (x : result A * World * list event) : result A := x.1.1.

Definition model_of (r : result Model) : Model :=
  match r with
  | Ok m => m
  | Raise _ => {| m_class := Prompt; m_fields := ∅; m_fields_set := ∅ |}
  end.


(** The models the concrete runs below build or return. *)
Definition update_data : Model :=
  model_of (pydantic_call ProjectUpdate update_kwargs).

Definition version_data : Model :=
  model_of (pydantic_call PromptCreate version_kwargs).

Definition root_prompt : Model :=
  model_of (pydantic_call Prompt row_root).

Definition child_prompt : Model :=
  model_of (pydantic_call Prompt row_child).


Definition rename : Model :=
  {| m_class := PromptUpdate; m_fields := {["name" := PStr "n"]};
     m_fields_set := {["name"]} |}.

End Examples.


(* ===================================================================== *)
(** * 9. Properties                                                       *)
(* ===================================================================== *)

Section Vocabulary.
Context `{Hpy : PyLib} `{Hpd : !Pydantic}.

(** A computation whose events all belong to one backend. *)
Definition logs_only (b : backend) {A} (m : M A) : Prop :=
  ∀ w, Forall (λ e, event_backend e = b) (m w).2.

(** The first event of the run is the entry into backend method [c]. *)
Definition enters (c : call) {A} (m : M A) (w : World) : Prop :=
  ∃ rest, (m w).2 = Call c :: rest.

(** The run enters backend method [c] first and produces no event of the
    other backend. *)
Definition uses_db (c : call) {A} (m : M A) (w : World) : Prop :=
  enters c m w ∧ call_backend c = DB ∧ touches_api (m w).2 = false.

Definition uses_api (c : call) {A} (m : M A) (w : World) : Prop :=
  enters c m w ∧ call_backend c = API ∧ touches_db (m w).2 = false.

(** Keyword arguments a dispatcher may forward to [db.list] and to
    [api.list]: none of them names a positional parameter. *)
Definition db_list_kwargs (kw : gmap string pyval) : bool :=
  kwargs_clear ["self"; "resource_name"; "model_class"] kw.

Definition api_list_kwargs (kw : gmap string pyval) : bool :=
  kwargs_clear ["self"; "resource_path"; "model_class"] kw.

(** The kind an exception has after [api_write_only] re-raised it. *)
Definition retagged (c : exn_class) : exn_class :=
  if bool_decide (c ∈ [AuthenticationError; ValidationError; NotFoundError])
  then c else APIError.

(** The model a write method builds from its keyword arguments, when it
    builds one. *)
Definition write_data (m : write_method) (self : Resource) (kwargs : gmap string pyval)
  : result unit :=
  match m with
  | W_create =>
      result_bind (call_model_class (create_model_class_of (r_class self)) kwargs)
        (λ _, Ok tt)
  | W_update =>
      result_bind (call_model_class (update_model_class_of (r_class self)) kwargs)
        (λ _, Ok tt)
  | _ => Ok tt
  end.

Definition select_rows (t : Table) (wheres : list cond) : list (gmap string pyval) :=
  List.filter (λ r, forallb (λ c, eval_cond c r) wheres) (t_rows t).

(** The world after the rows of a table were replaced. *)
Definition with_rows (w : World) (tbl : string) (t : Table)
    (rows : list (gmap string pyval)) : World :=
  {| w_tables :=
       <[tbl := {| t_columns := t_columns t; t_defaults := t_defaults t;
                   t_rows := rows |}]> (w_tables w);
     w_http := w_http w; w_uuid4 := w_uuid4 w; w_uuid4_calls := w_uuid4_calls w |}.

(** The world after one call of [uuid.uuid4()]. *)
Definition tick (w : World) : World :=
  {| w_tables := w_tables w; w_http := w_http w;
     w_uuid4 := w_uuid4 w; w_uuid4_calls := S (w_uuid4_calls w) |}.

(** The rows of a table after an UPDATE. *)
Definition updated_rows (t : Table) (c : cond) (values : gmap string pyval)
  : list (gmap string pyval) :=
  (λ r, if eval_cond c r then values ∪ r else r) <$> t_rows t.

(** The condition the three lookups are expected to use for an input: the
    [id] column against the parsed UUID, or else the [key] column against
    the text itself. *)
Definition id_or_key_condition (id_or_key : string) : cond :=
  match uuid_UUID id_or_key with
  | Some u => ColEq "id" (PUuid u)
  | None => ColEq "key" (PStr id_or_key)
  end.

(** The column that condition needs. *)
Definition id_or_key_column (id_or_key : string) : string :=
  match uuid_UUID id_or_key with
  | Some _ => "id"
  | None => "key"
  end.

(** The statements of a log. *)
Definition sql_of (log : list event) : list stmt :=
  omap (λ e, match e with Sql s => Some s | _ => None end) log.


(** The create model after [data.parent_id = parent.id]. *)
Definition with_parent (data : Model) (parent_id : pyval) : Model :=
  {| m_class := m_class data;
     m_fields := <["parent_id" := parent_id]> (m_fields data);
     m_fields_set := {["parent_id"]} ∪ m_fields_set data |}.

End Vocabulary.

Section FurtherVocabulary.
Context `{Hpy : PyLib} `{Hpd : !Pydantic}.

(** The requests of a log. *)
Definition http_of (log : list event) : list HttpRequest :=
  omap (λ e, match e with Http r => Some r | _ => None end) log.

(** The body [request] hands to the session for the [data] it is given. *)
Definition json_of (data : option payload) : option payload :=
  match data with
  | Some (DataModel m) =>
      if derives_BaseModel (m_class m)
      then Some (DataDict (model_dict_exclude_unset m))
      else data
  | _ => data
  end.

(** The request [request] sends. *)
Definition request_of (self : APIConnection) (method path : string)
    (data : option payload) (params : option (gmap string pyval)) : HttpRequest :=
  {| rq_method := method; rq_url := _build_url self path;
     rq_json := json_of data; rq_params := params |}.

(** The computation leaves the part [f] of the world as it was, however
    it ends. *)
Definition preserves {X} (f : World → X) {A} (m : M A) : Prop :=
  ∀ w, f (m w).1.2 = f w.

(** The table named [other], when the world has one. *)
Definition table_of (other : string) (w : World) : option Table := w_tables w !! other.

(** What [_get_table] raises for a name that is no table. *)
Definition table_not_found {A} (resource_name : string) : result A :=
  Raise (Exn ValueError ("Table " +:+ resource_name +:+ " not found in database schema")).

(** The row satisfies every filter whose name is a column of the table. *)
Definition satisfies_filters (t : Table) (filters : gmap string pyval)
    (row : gmap string pyval) : Prop :=
  map_Forall (λ k v, has_column t k = true → eval_cond (ColEq k v) row = true) filters.

#[export] Instance satisfies_filters_dec t filters row :
  Decision (satisfies_filters t filters row).
Proof. unfold satisfies_filters. apply _. Defined.

(** The five dispatchers of a client. *)
Definition dispatchers (c : PromptLaneClient) : list Resource :=
  [projects c; prompts c; teams c; users c; activities c].

(** The modes that open a database connection, and those that open an
    API connection. *)
Definition opens_database (t : ConnectionType) : bool :=
  match t with
  | ConnectionType_API => false
  | _ => true
  end.

Definition opens_api (t : ConnectionType) : bool :=
  match t with
  | ConnectionType_DATABASE => false
  | _ => true
  end.

(** A dispatcher of class [cls] on the connections [d] and [a]. *)
Definition dispatcher_on (cls : resource_class) (d : option DatabaseConnection)
    (a : option APIConnection) : Resource :=
  {| r_class := cls; db := d; api := a; mixed_mode := conn_truthy d && conn_truthy a |}.


(** [n] slashes. *)
Fixpoint slashes (n : nat) : string :=
  match n with
  | O => EmptyString
  | S n => String "/" (slashes n)
  end.

(** Every filter is named after a field of the model class, or is the
    [force_api] flag that [ResourceMixin.list] forwards.  None of these
    names is an attribute of the column collection itself, so for them
    [has_column] is what [hasattr(table.c, name)] tests. *)
Definition filters_name_fields (mc : model_class) (filters : gmap string pyval) : Prop :=
  map_Forall (λ k _, k = "force_api" ∨ is_Some (find_field mc k)) filters.

End FurtherVocabulary.

Section MonadFacts.
Context `{Hpy : PyLib}.

Lemma logs_only_ret b {A} (a : A) : logs_only b (mret a).
Proof. intros w. constructor. Qed.

Lemma logs_only_raise b {A} (e : exn) : logs_only b (raise e : M A).
Proof. intros w. constructor. Qed.

Lemma logs_only_lift b {A} (r : result A) : logs_only b (lift r).
Proof. intros w. constructor. Qed.

Lemma logs_only_get_world b : logs_only b get_world.
Proof. intros w. constructor. Qed.

Lemma logs_only_put_world b w' : logs_only b (put_world w').
Proof. intros w. constructor. Qed.

Lemma logs_only_emit b e : event_backend e = b → logs_only b (emit e).
Proof. intros He w. simpl. by repeat constructor. Qed.

Lemma logs_only_bind b {A B} (m : M A) (f : A → M B) :
  logs_only b m → (∀ a, logs_only b (f a)) → logs_only b (m ≫= f).
Proof.
  intros Hm Hf w. unfold mbind, M_bind, bind.
  specialize (Hm w). destruct (m w) as [[[a|e] w1] l1]; simpl in *; [|done].
  specialize (Hf a w1). destruct (f a w1) as [[r w2] l2]; simpl in *.
  by apply Forall_app.
Qed.

Lemma logs_only_try_except b {A} (m : M A) (h : exn → M A) :
  logs_only b m → (∀ e, logs_only b (h e)) → logs_only b (try_except m h).
Proof.
  intros Hm Hh w. unfold try_except.
  specialize (Hm w). destruct (m w) as [[[a|e] w1] l1]; simpl in *; [done|].
  specialize (Hh e w1). destruct (h e w1) as [[r w2] l2]; simpl in *.
  by apply Forall_app.
Qed.

Lemma logs_only_transaction b {A} (m : M A) :
  logs_only b m → logs_only b (transaction m).
Proof.
  intros Hm w. unfold transaction.
  specialize (Hm w). by destruct (m w) as [[[a|e] w1] l1].
Qed.

Lemma logs_only_bind_kwargs b fname pos kw : logs_only b (bind_kwargs fname pos kw).
Proof. intros w. unfold bind_kwargs. destruct (kwargs_clear _ _); constructor. Qed.

(** No event of the other backend occurs in such a log. *)
Lemma logs_only_db_no_api {A} (m : M A) w :
  logs_only DB m → touches_api (m w).2 = false.
Proof.
  intros Hm. specialize (Hm w). unfold touches_api.
  induction Hm as [|e l He _ IH]; [done|].
  simpl. rewrite IH. unfold is_api. by rewrite He.
Qed.

Lemma logs_only_api_no_db {A} (m : M A) w :
  logs_only API m → touches_db (m w).2 = false.
Proof.
  intros Hm. specialize (Hm w). unfold touches_db.
  induction Hm as [|e l He _ IH]; [done|].
  simpl. rewrite IH. unfold is_db. by rewrite He.
Qed.

(** The log of [emit e;; k] starts with [e]. *)
Lemma emit_bind_log {A} (e : event) (k : M A) w :
  ((emit e;; k) w).2 = e :: (k w).2.
Proof.
  unfold mbind, M_bind, bind, emit. by destruct (k w) as [[r w2] l2].
Qed.

Lemma lift_ok_bind {A B} (a : A) (f : A → M B) w : (lift (Ok a) ≫= f) w = f a w.
Proof.
  unfold mbind, M_bind, bind, lift. by destruct (f a w) as [[r w2] l2].
Qed.

End MonadFacts.

Create HintDb logs discriminated.
#[export] Hint Resolve logs_only_ret logs_only_raise logs_only_lift logs_only_get_world
  logs_only_put_world logs_only_bind_kwargs : logs.
#[export] Hint Resolve logs_only_bind logs_only_try_except logs_only_transaction : logs.
#[export] Hint Extern 1 (logs_only _ (emit _)) => (apply logs_only_emit; reflexivity) : logs.

Ltac solve_logs :=
  repeat first
    [ progress intros
    | solve [ auto with logs ]
    | apply logs_only_bind
    | apply logs_only_try_except
    | apply logs_only_transaction
    | match goal with
      | |- logs_only _ (match ?x with _ => _ end) => destruct x
      | |- logs_only _ (let _ := _ in _) => cbv zeta
      end ].

Section BackendLogs.
Context `{Hpy : PyLib} `{Hpd : !Pydantic}.

Lemma session_request_api rq : logs_only API (session_request rq).
Proof. intros w. simpl. by repeat constructor. Qed.

Lemma request_api self method path mc data params :
  logs_only API (request self method path mc data params).
Proof. unfold request. solve_logs. apply session_request_api. Qed.

Hint Resolve request_api : logs.

Lemma APIConnection_list_api self path mc params :
  logs_only API (APIConnection_list self path mc params).
Proof. unfold APIConnection_list. solve_logs. Qed.

Lemma APIConnection_get_api self path id mc :
  logs_only API (APIConnection_get self path id mc).
Proof. unfold APIConnection_get. solve_logs. Qed.

Lemma APIConnection_create_api self path data mc :
  logs_only API (APIConnection_create self path data mc).
Proof. unfold APIConnection_create. solve_logs. Qed.

Lemma APIConnection_update_api self path id data mc :
  logs_only API (APIConnection_update self path id data mc).
Proof. unfold APIConnection_update. solve_logs. Qed.

Lemma APIConnection_delete_api self args :
  logs_only API (APIConnection_delete self args).
Proof. unfold APIConnection_delete. solve_logs. Qed.

Lemma uuid4_db : logs_only DB uuid4.
Proof. intros w. constructor. Qed.

Lemma conn_execute_db s : logs_only DB (conn_execute s).
Proof.
  unfold conn_execute, engine_table, set_rows, engine_error.
  destruct s; solve_logs.
Qed.

Lemma _get_table_db self name : logs_only DB (_get_table self name).
Proof. unfold _get_table. solve_logs. Qed.

Lemma column_db t name : logs_only DB (column t name).
Proof. unfold column. solve_logs. Qed.

Hint Resolve uuid4_db conn_execute_db _get_table_db column_db : logs.

Lemma DatabaseConnection_list_db self name mc filters :
  logs_only DB (DatabaseConnection_list self name mc filters).
Proof. unfold DatabaseConnection_list. solve_logs. Qed.

Lemma DatabaseConnection_get_db self name id mc :
  logs_only DB (DatabaseConnection_get self name id mc).
Proof. unfold DatabaseConnection_get. solve_logs. Qed.

Lemma DatabaseConnection_create_db self name data mc :
  logs_only DB (DatabaseConnection_create self name data mc).
Proof. unfold DatabaseConnection_create. solve_logs. Qed.

Lemma DatabaseConnection_update_db self name id data mc :
  logs_only DB (DatabaseConnection_update self name id data mc).
Proof. unfold DatabaseConnection_update. solve_logs. Qed.

Lemma DatabaseConnection_delete_db self name id :
  logs_only DB (DatabaseConnection_delete self name id).
Proof. unfold DatabaseConnection_delete. solve_logs. Qed.

Lemma DatabaseConnection_get_team_members_db self team_id :
  logs_only DB (DatabaseConnection_get_team_members self team_id).
Proof. unfold DatabaseConnection_get_team_members. solve_logs. Qed.

Lemma DatabaseConnection_get_user_teams_db self user_id :
  logs_only DB (DatabaseConnection_get_user_teams self user_id).
Proof. unfold DatabaseConnection_get_user_teams. solve_logs. Qed.

End BackendLogs.

#[export] Hint Resolve APIConnection_list_api APIConnection_get_api APIConnection_create_api
  APIConnection_update_api APIConnection_delete_api
  DatabaseConnection_list_db DatabaseConnection_get_db DatabaseConnection_create_db
  DatabaseConnection_update_db DatabaseConnection_delete_db
  DatabaseConnection_get_team_members_db DatabaseConnection_get_user_teams_db : logs.

Section Strings.

Lemma string_app_assoc (a b c : string) : (a +:+ b) +:+ c = a +:+ b +:+ c.
Proof.
  induction a as [|x a IH]; [done|].
  cbv [String.append]; fold String.append. by f_equal.
Qed.

Lemma string_app_nil_r (a : string) : a +:+ EmptyString = a.
Proof.
  induction a as [|x a IH]; [done|].
  cbv [String.append]; fold String.append. by f_equal.
Qed.

Lemma carries_middle (a s b : string) : carries (a +:+ s +:+ b) s.
Proof. by exists a, b. Qed.

Lemma carries_end (a s : string) : carries (a +:+ s) s.
Proof. exists a, EmptyString. by rewrite string_app_nil_r. Qed.

Lemma carries_app_l (a t s : string) : carries t s → carries (a +:+ t) s.
Proof.
  intros (pre & post & ->). exists (a +:+ pre), post. by rewrite string_app_assoc.
Qed.

End Strings.

Section WrapperProperties.
Context `{Hpy : PyLib} `{Hpd : !Pydantic}.

(** C9. When the wrapped write call raises, [api_write_only] raises too:
    an authentication, validation or not-found failure is re-raised as a
    failure of the same kind, every other exception as a generic API
    failure, and the new message carries the operation name and the
    original message.  The wrapper never turns an exception into a normal
    return; the world and the log are those of the failed call. *)
Theorem api_write_only_retags {A} (name : string) (self : Resource) (method : M A)
    (w w1 : World) (e : exn) (l : list event) :
  conn_truthy (api self) = true →
  method w = (Raise e, w1, l) →
  ∃ msg,
    api_write_only name self method w = (Raise (Exn (retagged (exn_cls e)) msg), w1, l)
    ∧ carries msg name
    ∧ carries msg (exn_str e).
Proof.
  intros Hapi Hm. unfold api_write_only. rewrite Hapi. simpl.
  unfold try_except. rewrite Hm.
  destruct e as [c s].
  destruct c; simpl; rewrite app_nil_r;
    (eexists; split; [reflexivity|]; split;
     [apply carries_middle | do 2 apply carries_app_l; apply carries_end]).
Qed.

End WrapperProperties.

Section Enters.
Context `{Hpy : PyLib}.

Lemma enters_emit_bind c {A} (k : M A) w : enters c (emit (Call c);; k) w.
Proof. exists (k w).2. apply emit_bind_log. Qed.

Lemma enters_bind_l c {A B} (m : M A) (f : A → M B) w :
  enters c m w → enters c (m ≫= f) w.
Proof.
  intros [rest Hm]. unfold enters, mbind, M_bind, bind.
  destruct (m w) as [[[a|e] w1] l1]; simpl in *; subst; [|by eexists].
  destruct (f a w1) as [[r w2] l2]. by eexists.
Qed.

Lemma enters_bind_r c {A B} (m : M A) (f : A → M B) w a :
  m w = (Ok a, w, []) → enters c (f a) w → enters c (m ≫= f) w.
Proof.
  intros Hm [rest Hf]. unfold enters, mbind, M_bind, bind. rewrite Hm.
  destruct (f a w) as [[r w2] l2]. simpl in *. by eexists.
Qed.

Lemma enters_try_except c {A} (m : M A) (h : exn → M A) w :
  enters c m w → enters c (try_except m h) w.
Proof.
  intros [rest Hm]. unfold enters, try_except.
  destruct (m w) as [[[a|e] w1] l1]; simpl in *; subst; [by eexists|].
  destruct (h e w1) as [[r w2] l2]. by eexists.
Qed.

Lemma bind_kwargs_ok fname pos (kw : gmap string pyval) w :
  kwargs_clear pos kw = true →
  bind_kwargs fname pos kw w = (Ok tt, w, []).
Proof. intros Hk. unfold bind_kwargs. by rewrite Hk. Qed.

End Enters.

Section WriteThrough.
Context `{Hpy : PyLib} `{Hpd : !Pydantic}.

Lemma self_api_logs b self : logs_only b (self_api self).
Proof. unfold self_api. solve_logs. Qed.

Lemma self_db_logs b self : logs_only b (self_db self).
Proof. unfold self_db. solve_logs. Qed.

Lemma api_write_only_logs b {A} name self (method : M A) :
  logs_only b method → logs_only b (api_write_only name self method).
Proof. intros Hm. unfold api_write_only. solve_logs. Qed.

Hint Resolve self_api_logs self_db_logs api_write_only_logs : logs.

(** No write method of the write-through resources produces a database
    event, whatever the connections are. *)
Lemma write_call_api_only m self a1 a2 a3 kwargs :
  logs_only API (write_call m self a1 a2 a3 kwargs).
Proof.
  destruct m; simpl;
    unfold WriteThruAPIResourceMixin_create, WriteThruAPIResourceMixin_update,
      WriteThruAPIResourceMixin_delete, Teams_add_member,
      Teams_remove_member, Teams_update_member_role, Users_invite, Users_activate,
      Users_deactivate, Users_change_password;
    solve_logs.
Qed.

Lemma write_call_never_db m self a1 a2 a3 kwargs w :
  touches_db (write_call m self a1 a2 a3 kwargs w).2 = false.
Proof. apply logs_only_api_no_db, write_call_api_only. Qed.

(** Without an API connection every write method raises [ValueError]
    before anything else happens. *)
Lemma write_call_requires_api m self a1 a2 a3 kwargs w :
  api self = None →
  ∃ msg, write_call m self a1 a2 a3 kwargs w = (Raise (Exn ValueError msg), w, []).
Proof.
  intros Hapi.
  destruct m; simpl;
    unfold WriteThruAPIResourceMixin_create, WriteThruAPIResourceMixin_update,
      WriteThruAPIResourceMixin_delete, Teams_add_member,
      Teams_remove_member, Teams_update_member_role, Users_invite, Users_activate,
      Users_deactivate, Users_change_password, api_write_only;
    rewrite Hapi; simpl; by eexists.
Qed.

Lemma api_write_only_enters c {A} name self conn (method : M A) w :
  api self = Some conn → enters c method w → enters c (api_write_only name self method) w.
Proof.
  intros Hapi Hm. unfold api_write_only. rewrite Hapi. simpl.
  by apply enters_try_except.
Qed.

Lemma self_api_some self conn w : api self = Some conn → self_api self w = (Ok conn, w, []).
Proof. intros Hapi. unfold self_api. by rewrite Hapi. Qed.

Lemma self_db_some self conn w : db self = Some conn → self_db self w = (Ok conn, w, []).
Proof. intros Hdb. unfold self_db. by rewrite Hdb. Qed.

(** With an API connection, every write method other than [remove_member]
    enters the API backend as soon as its keyword arguments are accepted
    by the model it builds. *)
Lemma write_call_enters_api m self conn a1 a2 a3 kwargs w :
  api self = Some conn →
  m ≠ W_remove_member →
  write_data m self kwargs = Ok tt →
  ∃ c, enters c (write_call m self a1 a2 a3 kwargs) w ∧ call_backend c = API.
Proof.
  intros Hapi Hm Hdata.
  destruct m; simpl in *; try done;
    unfold WriteThruAPIResourceMixin_create, WriteThruAPIResourceMixin_update,
      WriteThruAPIResourceMixin_delete, Teams_add_member,
      Teams_update_member_role, Users_invite, Users_activate,
      Users_deactivate, Users_change_password;
    try (destruct (call_model_class _ kwargs) as [data|e] eqn:Hd; [|done]);
    eexists; (split; [|shelve]);
    (eapply api_write_only_enters; [done|]); cbv zeta;
    try (eapply enters_bind_r; [reflexivity|]);
    (eapply enters_bind_r; [by apply self_api_some|]);
    first [ apply enters_emit_bind | apply enters_bind_l; apply enters_emit_bind ].
  Unshelve. all: done.
Qed.

End WriteThrough.

Section Routing.
Context `{Hpy : PyLib} `{Hpd : !Pydantic}.

Lemma ResourceBase_init_ok cls d a self :
  ResourceBase_init cls d a = Ok self →
  self = {| r_class := cls; db := d; api := a;
            mixed_mode := conn_truthy d && conn_truthy a |}.
Proof.
  unfold ResourceBase_init. destruct (negb _ && negb _); [done|]. by intros [= <-].
Qed.

(** Entry events of the backend methods. *)
Lemma DatabaseConnection_list_enters self name mc kw w :
  db_list_kwargs kw = true →
  enters (DbList name kw) (DatabaseConnection_list self name mc kw) w.
Proof.
  intros Hk. unfold DatabaseConnection_list.
  eapply enters_bind_r; [by apply bind_kwargs_ok|]. apply enters_emit_bind.
Qed.

Lemma DatabaseConnection_get_enters self name id mc w :
  enters (DbGet name id) (DatabaseConnection_get self name id mc) w.
Proof. apply enters_emit_bind. Qed.

Lemma DatabaseConnection_get_team_members_enters self id w :
  enters (DbGetTeamMembers id) (DatabaseConnection_get_team_members self id) w.
Proof. apply enters_emit_bind. Qed.

Lemma DatabaseConnection_get_user_teams_enters self id w :
  enters (DbGetUserTeams id) (DatabaseConnection_get_user_teams self id) w.
Proof. apply enters_emit_bind. Qed.

Lemma APIConnection_list_enters self path mc kw w :
  api_list_kwargs kw = true →
  enters (ApiList path kw) (APIConnection_list self path mc kw) w.
Proof.
  intros Hk. unfold APIConnection_list.
  eapply enters_bind_r; [by apply bind_kwargs_ok|]. apply enters_emit_bind.
Qed.

Lemma APIConnection_get_enters self path id mc w :
  enters (ApiGet path id) (APIConnection_get self path id mc) w.
Proof. apply enters_emit_bind. Qed.

Lemma APIConnection_create_enters self path data mc w :
  enters (ApiCreate path data) (APIConnection_create self path data mc) w.
Proof. apply enters_emit_bind. Qed.

Lemma APIConnection_update_enters self path id data mc w :
  enters (ApiUpdate path id data) (APIConnection_update self path id data mc) w.
Proof. apply enters_emit_bind. Qed.

Lemma APIConnection_delete_enters self path id w :
  enters (ApiDelete path id) (APIConnection_delete self [path; id]) w.
Proof. apply enters_emit_bind. Qed.

Lemma kwargs_clear_empty pos : kwargs_clear pos (∅ : gmap string pyval) = true.
Proof.
  unfold kwargs_clear. induction pos as [|p pos IH]; [done|].
  simpl. by rewrite lookup_empty.
Qed.

End Routing.

#[export] Hint Resolve self_api_logs self_db_logs api_write_only_logs : logs.

Section MixinRouting.
Context `{Hpy : PyLib} `{Hpd : !Pydantic}.

Lemma ResourceMixin_list_db self conn kwargs w :
  db self = Some conn →
  mixed_mode self && force_api kwargs = false →
  db_list_kwargs kwargs = true →
  uses_db (DbList (resource_name_of (r_class self)) kwargs) (ResourceMixin_list self kwargs) w.
Proof.
  intros Hdb Hc Hk. unfold uses_db, ResourceMixin_list. rewrite Hdb, Hc. simpl.
  split; [|split; [done|]].
  - eapply enters_bind_r; [by apply self_db_some|].
    apply enters_bind_l. by apply DatabaseConnection_list_enters.
  - apply logs_only_db_no_api. solve_logs.
Qed.

Lemma ResourceMixin_get_db self conn id_or_key kwargs w :
  db self = Some conn →
  mixed_mode self && force_api kwargs = false →
  uses_db (DbGet (resource_name_of (r_class self)) (py_str id_or_key))
    (ResourceMixin_get self id_or_key kwargs) w.
Proof.
  intros Hdb Hc. unfold uses_db, ResourceMixin_get. rewrite Hdb, Hc. simpl.
  split; [|split; [done|]].
  - eapply enters_bind_r; [by apply self_db_some|].
    apply enters_bind_l. apply DatabaseConnection_get_enters.
  - apply logs_only_db_no_api. solve_logs.
Qed.

Lemma ResourceMixin_list_api self conn kwargs w :
  api self = Some conn →
  conn_truthy (db self) && negb (mixed_mode self && force_api kwargs) = false →
  api_list_kwargs kwargs = true →
  uses_api (ApiList (resource_name_of (r_class self)) kwargs) (ResourceMixin_list self kwargs) w.
Proof.
  intros Hapi Hc Hk. unfold uses_api, ResourceMixin_list. rewrite Hc.
  split; [|split; [done|]].
  - eapply enters_bind_r; [by apply self_api_some|].
    by apply APIConnection_list_enters.
  - apply logs_only_api_no_db. solve_logs.
Qed.

Lemma ResourceMixin_get_api self conn id_or_key kwargs w :
  api self = Some conn →
  conn_truthy (db self) && negb (mixed_mode self && force_api kwargs) = false →
  uses_api (ApiGet (resource_name_of (r_class self)) (py_str id_or_key))
    (ResourceMixin_get self id_or_key kwargs) w.
Proof.
  intros Hapi Hc. unfold uses_api, ResourceMixin_get. rewrite Hc.
  split; [|split; [done|]].
  - eapply enters_bind_r; [by apply self_api_some|].
    apply APIConnection_get_enters.
  - apply logs_only_api_no_db. solve_logs.
Qed.

Lemma ResourceMixin_create_api self conn kwargs data w :
  api self = Some conn →
  mixed_mode self || negb (conn_truthy (db self)) = true →
  call_model_class (create_model_class_of (r_class self)) kwargs = Ok data →
  uses_api (ApiCreate (resource_name_of (r_class self)) (DataModel data))
    (ResourceMixin_create self kwargs) w.
Proof.
  intros Hapi Hc Hd. unfold uses_api, ResourceMixin_create. rewrite Hc, Hd.
  split; [|split; [done|]].
  - eapply enters_bind_r; [reflexivity|].
    eapply enters_bind_r; [by apply self_api_some|].
    apply APIConnection_create_enters.
  - apply logs_only_api_no_db. solve_logs.
Qed.

Lemma ResourceMixin_update_api self conn id_or_key kwargs data w :
  api self = Some conn →
  mixed_mode self || negb (conn_truthy (db self)) = true →
  call_model_class (update_model_class_of (r_class self)) kwargs = Ok data →
  uses_api (ApiUpdate (resource_name_of (r_class self)) (py_str id_or_key) (DataModel data))
    (ResourceMixin_update self id_or_key kwargs) w.
Proof.
  intros Hapi Hc Hd. unfold uses_api, ResourceMixin_update. rewrite Hc, Hd.
  split; [|split; [done|]].
  - eapply enters_bind_r; [reflexivity|].
    eapply enters_bind_r; [by apply self_api_some|].
    apply APIConnection_update_enters.
  - apply logs_only_api_no_db. solve_logs.
Qed.

Lemma ResourceMixin_delete_api self conn id_or_key kwargs w :
  api self = Some conn →
  mixed_mode self || negb (conn_truthy (db self)) = true →
  uses_api (ApiDelete (resource_name_of (r_class self)) (py_str id_or_key))
    (ResourceMixin_delete self id_or_key kwargs) w.
Proof.
  intros Hapi Hc. unfold uses_api, ResourceMixin_delete. rewrite Hc.
  split; [|split; [done|]].
  - eapply enters_bind_r; [by apply self_api_some|].
    apply APIConnection_delete_enters.
  - apply logs_only_api_no_db. solve_logs.
Qed.

(** A model class that is [None] cannot be called: nothing is delegated. *)
Lemma ResourceMixin_create_no_model self kwargs w :
  create_model_class_of (r_class self) = None →
  ∃ msg, ResourceMixin_create self kwargs w = (Raise (Exn TypeError msg), w, []).
Proof. intros Hn. unfold ResourceMixin_create. rewrite Hn. by eexists. Qed.

Lemma ResourceMixin_update_no_model self id_or_key kwargs w :
  update_model_class_of (r_class self) = None →
  ∃ msg, ResourceMixin_update self id_or_key kwargs w = (Raise (Exn TypeError msg), w, []).
Proof. intros Hn. unfold ResourceMixin_update. rewrite Hn. by eexists. Qed.

End MixinRouting.

Section ExtensionRouting.
Context `{Hpy : PyLib} `{Hpd : !Pydantic}.

Lemma kwargs_clear_insert pos k v (kw : gmap string pyval) :
  k ∉ pos → kwargs_clear pos (<[k := v]> kw) = kwargs_clear pos kw.
Proof.
  unfold kwargs_clear. induction pos as [|p pos IH]; intros Hk; [done|].
  simpl. rewrite lookup_insert_ne; [|set_solver]. f_equal. apply IH. set_solver.
Qed.

Lemma db_list_kwargs_singleton k v :
  k ∉ ["self"; "resource_name"; "model_class"] →
  db_list_kwargs ({[k := v]} : gmap string pyval) = true.
Proof.
  intros Hk. unfold db_list_kwargs. rewrite <- insert_empty.
  rewrite kwargs_clear_insert; [|done]. apply kwargs_clear_empty.
Qed.

Lemma Projects_get_prompts_api self conn project_id w :
  api self = Some conn →
  conn_truthy (db self) && negb (mixed_mode self) = false →
  uses_api
    (ApiList (resource_name_of (r_class self) +:+ "/" +:+ py_str project_id +:+ "/prompts") ∅)
    (Projects_get_prompts self project_id) w.
Proof.
  intros Hapi Hc. unfold uses_api, Projects_get_prompts. rewrite Hc.
  split; [|split; [done|]].
  - eapply enters_bind_r; [by apply self_api_some|].
    apply APIConnection_list_enters, kwargs_clear_empty.
  - apply logs_only_api_no_db. solve_logs.
Qed.

Lemma Projects_get_prompts_db self conn project_id w :
  db self = Some conn →
  mixed_mode self = false →
  uses_db (DbList "prompts" {["project_id" := PStr (py_str project_id)]})
    (Projects_get_prompts self project_id) w.
Proof.
  intros Hdb Hc. unfold uses_db, Projects_get_prompts. rewrite Hdb, Hc. simpl.
  split; [|split; [done|]].
  - eapply enters_bind_r; [by apply self_db_some|].
    apply enters_bind_l, DatabaseConnection_list_enters, db_list_kwargs_singleton.
    rewrite !not_elem_of_cons. repeat split; try done. apply not_elem_of_nil.
  - apply logs_only_db_no_api. solve_logs.
Qed.

Lemma Prompts_get_versions_api self conn id_or_key w :
  api self = Some conn →
  conn_truthy (db self) && negb (mixed_mode self) = false →
  uses_api
    (ApiList (resource_name_of (r_class self) +:+ "/" +:+ py_str id_or_key +:+ "/versions") ∅)
    (Prompts_get_versions self id_or_key) w.
Proof.
  intros Hapi Hc. unfold uses_api, Prompts_get_versions. rewrite Hc.
  split; [|split; [done|]].
  - eapply enters_bind_r; [by apply self_api_some|].
    apply APIConnection_list_enters, kwargs_clear_empty.
  - apply logs_only_api_no_db. solve_logs.
Qed.

Lemma Prompts_get_versions_db self conn id_or_key w :
  db self = Some conn →
  mixed_mode self = false →
  uses_db (DbGet (resource_name_of (r_class self)) (py_str id_or_key))
    (Prompts_get_versions self id_or_key) w.
Proof.
  intros Hdb Hc. unfold uses_db, Prompts_get_versions. rewrite Hdb, Hc. simpl.
  split; [|split; [done|]].
  - eapply enters_bind_r; [by apply self_db_some|].
    apply enters_bind_l, DatabaseConnection_get_enters.
  - apply logs_only_db_no_api. solve_logs.
Qed.

Lemma Activities_list_for_user_api self conn user_id kwargs w :
  api self = Some conn →
  conn_truthy (db self) && negb (mixed_mode self) = false →
  api_list_kwargs kwargs = true →
  uses_api (ApiList (resource_name_of (r_class self) +:+ "?user_id=" +:+ py_str user_id) kwargs)
    (Activities_list_for_user self user_id kwargs) w.
Proof.
  intros Hapi Hc Hk. unfold uses_api, Activities_list_for_user. rewrite Hc.
  split; [|split; [done|]].
  - eapply enters_bind_r; [by apply self_api_some|].
    by apply APIConnection_list_enters.
  - apply logs_only_api_no_db. solve_logs.
Qed.

Lemma Activities_list_for_user_db self conn user_id kwargs w :
  db self = Some conn →
  mixed_mode self = false →
  kwargs !! "user_id" = None →
  db_list_kwargs kwargs = true →
  uses_db (DbList (resource_name_of (r_class self)) (<["user_id" := PStr (py_str user_id)]> kwargs))
    (Activities_list_for_user self user_id kwargs) w.
Proof.
  intros Hdb Hc Hu Hk. unfold uses_db, Activities_list_for_user. rewrite Hdb, Hc. simpl.
  split; [|split; [done|]].
  - eapply enters_bind_r; [by apply self_db_some|].
    eapply enters_bind_r; [unfold with_user_id; by rewrite Hu|].
    apply enters_bind_l, DatabaseConnection_list_enters.
    unfold db_list_kwargs. rewrite kwargs_clear_insert; [done|].
    rewrite !not_elem_of_cons. repeat split; try done. apply not_elem_of_nil.
  - apply logs_only_db_no_api. unfold with_user_id. solve_logs.
Qed.

Lemma Teams_get_members_api self conn team_id w :
  api self = Some conn →
  conn_truthy (db self) && negb (mixed_mode self) = false →
  uses_api (ApiList (resource_name_of (r_class self) +:+ "/" +:+ py_str team_id +:+ "/members") ∅)
    (Teams_get_members self team_id) w.
Proof.
  intros Hapi Hc. unfold uses_api, Teams_get_members. rewrite Hc.
  split; [|split; [done|]].
  - apply enters_try_except.
    eapply enters_bind_r; [by apply self_api_some|].
    apply APIConnection_list_enters, kwargs_clear_empty.
  - apply logs_only_api_no_db. solve_logs.
Qed.

Lemma Teams_get_members_db self conn team_id w :
  db self = Some conn →
  mixed_mode self = false →
  uses_db (DbGetTeamMembers (py_str team_id)) (Teams_get_members self team_id) w.
Proof.
  intros Hdb Hc. unfold uses_db, Teams_get_members. rewrite Hdb, Hc. simpl.
  split; [|split; [done|]].
  - apply enters_try_except.
    eapply enters_bind_r; [by apply self_db_some|].
    apply enters_bind_l, DatabaseConnection_get_team_members_enters.
  - apply logs_only_db_no_api. solve_logs.
Qed.

Lemma Users_get_teams_api self conn user_id w :
  api self = Some conn →
  conn_truthy (db self) && negb (mixed_mode self) = false →
  uses_api (ApiList (resource_name_of (r_class self) +:+ "/" +:+ py_str user_id +:+ "/teams") ∅)
    (Users_get_teams self user_id) w.
Proof.
  intros Hapi Hc. unfold uses_api, Users_get_teams. rewrite Hc.
  split; [|split; [done|]].
  - apply enters_try_except.
    eapply enters_bind_r; [by apply self_api_some|].
    apply APIConnection_list_enters, kwargs_clear_empty.
  - apply logs_only_api_no_db. solve_logs.
Qed.

Lemma Users_get_teams_db self conn user_id w :
  db self = Some conn →
  mixed_mode self = false →
  uses_db (DbGetUserTeams (py_str user_id)) (Users_get_teams self user_id) w.
Proof.
  intros Hdb Hc. unfold uses_db, Users_get_teams. rewrite Hdb, Hc. simpl.
  split; [|split; [done|]].
  - apply enters_try_except.
    eapply enters_bind_r; [by apply self_db_some|].
    apply enters_bind_l, DatabaseConnection_get_user_teams_enters.
  - apply logs_only_db_no_api. solve_logs.
Qed.

End ExtensionRouting.

(** Apply a routing lemma to the dispatcher record in the goal. *)
Ltac on_self lem :=
  match goal with
  | |- context [ {| r_class := ?c; db := ?d; api := ?a; mixed_mode := ?m |} ] =>
      eapply (lem {| r_class := c; db := d; api := a; mixed_mode := m |})
  end.

Section DispatchClaims.
Context `{Hpy : PyLib} `{Hpd : !Pydantic}.

(** C1, at the input where the code departs from it.  With an API
    connection present, [Teams.remove_member] does not reach the API
    backend: it calls [self.api.delete] with the path as the only
    positional argument, [delete] requires two, Python raises [TypeError]
    while binding them, and the decorator re-raises that as a generic API
    failure.  The world is unchanged and no backend event is logged. *)
Theorem remove_member_never_enters_api (self : Resource) (conn : APIConnection)
    (team_id user_id : pyval) (w : World) :
  api self = Some conn →
  Teams_remove_member self team_id user_id w =
    (Raise (Exn APIError
       "Unexpected error during remove_member: delete() missing 1 required positional argument: 'resource_id'"),
     w, []).
Proof.
  intros Hapi. unfold Teams_remove_member, api_write_only, self_api.
  by rewrite Hapi.
Qed.


(** C6, at the inputs where the code departs from it.  The package
    documents mixed mode as reading from the database, and with both
    connections present [list] and [get] of the standard resources
    (without [force_api]) do enter the database backend.  The
    resource-specific reads [Project.get_prompts], [Prompt.get_versions],
    [Team.get_members], [User.get_teams] and [Activity.list_for_user] do
    not: each tests [self.db and not self.mixed_mode], so with both
    connections present it enters the API backend and produces no
    database event.  The five reads enter the database backend only when
    the dispatcher was constructed with a database connection and no API
    connection.  (Keyword arguments forwarded to the backend must not
    name one of its positional parameters.) *)
Theorem extension_reads_dispatch (dbc : DatabaseConnection) (apic : APIConnection)
    (arg : pyval) (kwargs : gmap string pyval) (w : World) :
  let id := py_str arg in
  (∀ cls self, standard cls = true →
     ResourceBase_init cls (Some dbc) (Some apic) = Ok self →
     force_api kwargs = false →
     (db_list_kwargs kwargs = true →
        uses_db (DbList (resource_name_of cls) kwargs) (ResourceMixin_list self kwargs) w)
     ∧ uses_db (DbGet (resource_name_of cls) id) (ResourceMixin_get self arg kwargs) w)
  ∧ (∀ self, ResourceBase_init Projects (Some dbc) (Some apic) = Ok self →
     uses_api (ApiList ("projects/" +:+ id +:+ "/prompts") ∅) (Projects_get_prompts self arg) w)
  ∧ (∀ self, ResourceBase_init Prompts (Some dbc) (Some apic) = Ok self →
     uses_api (ApiList ("prompts/" +:+ id +:+ "/versions") ∅) (Prompts_get_versions self arg) w)
  ∧ (∀ self, ResourceBase_init Teams (Some dbc) (Some apic) = Ok self →
     uses_api (ApiList ("teams/" +:+ id +:+ "/members") ∅) (Teams_get_members self arg) w)
  ∧ (∀ self, ResourceBase_init Users (Some dbc) (Some apic) = Ok self →
     uses_api (ApiList ("users/" +:+ id +:+ "/teams") ∅) (Users_get_teams self arg) w)
  ∧ (∀ self, ResourceBase_init Activities (Some dbc) (Some apic) = Ok self →
     api_list_kwargs kwargs = true →
     uses_api (ApiList ("activities?user_id=" +:+ id) kwargs)
       (Activities_list_for_user self arg kwargs) w)
  ∧ (∀ self, ResourceBase_init Projects (Some dbc) None = Ok self →
     uses_db (DbList "prompts" {["project_id" := PStr id]}) (Projects_get_prompts self arg) w)
  ∧ (∀ self, ResourceBase_init Prompts (Some dbc) None = Ok self →
     uses_db (DbGet "prompts" id) (Prompts_get_versions self arg) w)
  ∧ (∀ self, ResourceBase_init Teams (Some dbc) None = Ok self →
     uses_db (DbGetTeamMembers id) (Teams_get_members self arg) w)
  ∧ (∀ self, ResourceBase_init Users (Some dbc) None = Ok self →
     uses_db (DbGetUserTeams id) (Users_get_teams self arg) w)
  ∧ (∀ self, ResourceBase_init Activities (Some dbc) None = Ok self →
     kwargs !! "user_id" = None → db_list_kwargs kwargs = true →
     uses_db (DbList "activities" (<["user_id" := PStr id]> kwargs))
       (Activities_list_for_user self arg kwargs) w).
Proof.
  intros id. subst id. split_and!.
  - intros cls self _ ->%ResourceBase_init_ok Hf. split.
    + intros Hk. on_self ResourceMixin_list_db; simpl; [done|by rewrite Hf|done].
    + on_self ResourceMixin_get_db; simpl; [done|by rewrite Hf].
  - intros self ->%ResourceBase_init_ok. by on_self Projects_get_prompts_api.
  - intros self ->%ResourceBase_init_ok. by on_self Prompts_get_versions_api.
  - intros self ->%ResourceBase_init_ok. by on_self Teams_get_members_api.
  - intros self ->%ResourceBase_init_ok. by on_self Users_get_teams_api.
  - intros self ->%ResourceBase_init_ok Hk.
    by on_self Activities_list_for_user_api.
  - intros self ->%ResourceBase_init_ok. by on_self Projects_get_prompts_db.
  - intros self ->%ResourceBase_init_ok. by on_self Prompts_get_versions_db.
  - intros self ->%ResourceBase_init_ok. by on_self Teams_get_members_db.
  - intros self ->%ResourceBase_init_ok. by on_self Users_get_teams_db.
  - intros self ->%ResourceBase_init_ok Hu Hk.
    by on_self Activities_list_for_user_db.
Qed.

(** C10.  The [force_api] override of [list] and [get] on a standard
    resource takes effect in mixed mode only.  A dispatcher constructed
    with a database connection and no API connection enters the database
    backend for [list] and [get] whatever keyword arguments are passed,
    [force_api=True] included; a dispatcher constructed with both
    connections enters the API backend when the keyword [force_api] is
    passed with a true value, and the database backend when the keyword is
    not passed or is passed with a false value.  (Keyword arguments
    forwarded by [list] must not name a positional parameter of the
    backend method, which Python rejects before the method is entered.) *)
Theorem force_api_only_in_mixed_mode (cls : resource_class)
    (dbc : DatabaseConnection) (apic : APIConnection)
    (id_or_key : pyval) (kwargs : gmap string pyval) (w : World) :
  standard cls = true →
  let name := resource_name_of cls in
  let item_id := py_str id_or_key in
  (∀ self, ResourceBase_init cls (Some dbc) None = Ok self →
     (db_list_kwargs kwargs = true →
        uses_db (DbList name kwargs) (ResourceMixin_list self kwargs) w)
     ∧ uses_db (DbGet name item_id) (ResourceMixin_get self id_or_key kwargs) w)
  ∧ (∀ self v, ResourceBase_init cls (Some dbc) (Some apic) = Ok self →
     kwargs !! "force_api" = Some v →
     py_truthy v = true →
     (api_list_kwargs kwargs = true →
        uses_api (ApiList name kwargs) (ResourceMixin_list self kwargs) w)
     ∧ uses_api (ApiGet name item_id) (ResourceMixin_get self id_or_key kwargs) w)
  ∧ (∀ self, ResourceBase_init cls (Some dbc) (Some apic) = Ok self →
     (kwargs !! "force_api" = None
      ∨ ∃ v, kwargs !! "force_api" = Some v ∧ py_truthy v = false) →
     (db_list_kwargs kwargs = true →
        uses_db (DbList name kwargs) (ResourceMixin_list self kwargs) w)
     ∧ uses_db (DbGet name item_id) (ResourceMixin_get self id_or_key kwargs) w).
Proof.
  intros _ name item_id. subst name item_id. split_and!.
  - intros self ->%ResourceBase_init_ok. split.
    + intros Hk. by on_self ResourceMixin_list_db.
    + by on_self ResourceMixin_get_db.
  - intros self v ->%ResourceBase_init_ok Hv Ht.
    assert (force_api kwargs = true) as Hf by (unfold force_api; by rewrite Hv).
    split.
    + intros Hk. on_self ResourceMixin_list_api; simpl; [done|by rewrite Hf|done].
    + on_self ResourceMixin_get_api; simpl; [done|by rewrite Hf].
  - intros self ->%ResourceBase_init_ok Hflag.
    assert (force_api kwargs = false) as Hf.
    { unfold force_api. by destruct Hflag as [->|(v & -> & Hv)]. }
    split.
    + intros Hk. on_self ResourceMixin_list_db; simpl; [done|by rewrite Hf|done].
    + on_self ResourceMixin_get_db; simpl; [done|by rewrite Hf].
Qed.

End DispatchClaims.

Section RunFacts.
Context `{Hpy : PyLib} `{Hpd : !Pydantic}.

(** Running a sequence whose first part is known. *)
Lemma bind_ok {A B} (m : M A) (f : A → M B) w a w1 l1 :
  m w = (Ok a, w1, l1) →
  (m ≫= f) w = ((f a w1).1, l1 ++ (f a w1).2).
Proof.
  intros Hm. unfold mbind, M_bind, bind. rewrite Hm.
  by destruct (f a w1) as [[r w2] l2].
Qed.

Lemma bind_raise {A B} (m : M A) (f : A → M B) w e w1 l1 :
  m w = (Raise e, w1, l1) → (m ≫= f) w = (Raise e, w1, l1).
Proof. intros Hm. unfold mbind, M_bind, bind. by rewrite Hm. Qed.

Lemma emit_run e w : emit e w = (Ok tt, w, [e]).
Proof. done. Qed.

Lemma _get_table_run self name t w :
  w_tables w !! name = Some t → _get_table self name w = (Ok t, w, []).
Proof. intros Ht. unfold _get_table, mbind, M_bind, bind, get_world. by rewrite Ht. Qed.

Lemma column_run t name w :
  has_column t name = true → column t name w = (Ok tt, w, []).
Proof. intros Hc. unfold column. by rewrite Hc. Qed.

Lemma engine_table_run tbl t w :
  w_tables w !! tbl = Some t → engine_table tbl w = (Ok t, w, []).
Proof. intros Ht. unfold engine_table, mbind, M_bind, bind, get_world. by rewrite Ht. Qed.

Lemma conn_execute_select tbl wheres t w :
  w_tables w !! tbl = Some t →
  conn_execute (Select tbl wheres) w = (Ok (select_rows t wheres), w, [Sql (Select tbl wheres)]).
Proof.
  intros Ht. unfold conn_execute.
  erewrite bind_ok; [|apply emit_run]. cbv beta iota.
  erewrite bind_ok; [|by apply engine_table_run]. done.
Qed.

Lemma set_rows_run tbl t rows w : set_rows tbl t rows w = (Ok tt, with_rows w tbl t rows, []).
Proof. done. Qed.

Lemma conn_execute_update tbl c values t w :
  w_tables w !! tbl = Some t →
  known_columns t values = true →
  conn_execute (UpdateStmt tbl c values) w =
    (Ok (List.filter (eval_cond c) (t_rows t)),
     with_rows w tbl t ((λ r, if eval_cond c r then values ∪ r else r) <$> t_rows t),
     [Sql (UpdateStmt tbl c values)]).
Proof.
  intros Ht Hk. unfold conn_execute.
  erewrite bind_ok; [|apply emit_run]. cbv beta iota.
  erewrite bind_ok; [|by apply engine_table_run]. cbv beta iota. rewrite Hk.
  erewrite bind_ok; [|apply set_rows_run]. done.
Qed.

Lemma conn_execute_update_unknown tbl c values t w :
  w_tables w !! tbl = Some t →
  known_columns t values = false →
  ∃ e, conn_execute (UpdateStmt tbl c values) w = (Raise e, w, [Sql (UpdateStmt tbl c values)]).
Proof.
  intros Ht Hk. unfold conn_execute.
  erewrite bind_ok; [|apply emit_run]. cbv beta iota.
  erewrite bind_ok; [|by apply engine_table_run]. cbv beta iota. rewrite Hk.
  by eexists.
Qed.

Lemma conn_execute_delete tbl c t w :
  w_tables w !! tbl = Some t →
  conn_execute (DeleteStmt tbl c) w =
    (Ok (List.filter (eval_cond c) (t_rows t)),
     with_rows w tbl t (List.filter (λ r, negb (eval_cond c r)) (t_rows t)),
     [Sql (DeleteStmt tbl c)]).
Proof.
  intros Ht. unfold conn_execute.
  erewrite bind_ok; [|apply emit_run]. cbv beta iota.
  erewrite bind_ok; [|by apply engine_table_run]. cbv beta iota.
  erewrite bind_ok; [|apply set_rows_run]. done.
Qed.

Lemma conn_execute_insert tbl values t w :
  w_tables w !! tbl = Some t →
  known_columns t values = true →
  conn_execute (Insert tbl values) w =
    (Ok [new_row t values],
     with_rows w tbl t (t_rows t ++ [new_row t values]),
     [Sql (Insert tbl values)]).
Proof.
  intros Ht Hk. unfold conn_execute.
  erewrite bind_ok; [|apply emit_run]. cbv beta iota.
  erewrite bind_ok; [|by apply engine_table_run]. cbv beta iota. rewrite Hk.
  erewrite bind_ok; [|apply set_rows_run]. done.
Qed.

Lemma with_rows_lookup w tbl t rows :
  w_tables (with_rows w tbl t rows) !! tbl =
    Some {| t_columns := t_columns t; t_defaults := t_defaults t; t_rows := rows |}.
Proof. simpl. apply lookup_insert_eq. Qed.

Lemma transaction_ok {A} (m : M A) w a w1 l1 :
  m w = (Ok a, w1, l1) → transaction m w = (Ok a, w1, l1).
Proof. intros Hm. unfold transaction. by rewrite Hm. Qed.

End RunFacts.

Section DatabaseRuns.
Context `{Hpy : PyLib} `{Hpd : !Pydantic}.

Lemma lookup_condition_run (t : Table) (s : string) w :
  has_column t (id_or_key_column s) = true →
  (match uuid_UUID s with
   | Some uuid_obj => column t "id";; mret (ColEq "id" (PUuid uuid_obj))
   | None => column t "key";; mret (ColEq "key" (PStr s))
   end) w = (Ok (id_or_key_condition s), w, []).
Proof.
  unfold id_or_key_column, id_or_key_condition. intros Hc.
  destruct (uuid_UUID s); (erewrite bind_ok; [|by apply column_run]); done.
Qed.

Lemma DatabaseConnection_get_run self name s mc t w :
  w_tables w !! name = Some t →
  has_column t (id_or_key_column s) = true →
  DatabaseConnection_get self name s mc w =
    (match head (select_rows t [id_or_key_condition s]) with
     | None => Ok None
     | Some row => result_bind (_row_to_model row mc) (λ m, Ok (Some m))
     end, w,
     [Call (DbGet name s); Sql (Select name [id_or_key_condition s])]).
Proof.
  intros Ht Hc. unfold DatabaseConnection_get.
  erewrite bind_ok; [|apply emit_run]. cbv beta iota.
  erewrite bind_ok; [|by apply _get_table_run]. cbv beta iota.
  assert ((match uuid_UUID s with
           | Some uuid_obj =>
               column t "id";; mret (Select name [ColEq "id" (PUuid uuid_obj)])
           | None => column t "key";; mret (Select name [ColEq "key" (PStr s)])
           end) w = (Ok (Select name [id_or_key_condition s]), w, [])) as Hq.
  { revert Hc. unfold id_or_key_column, id_or_key_condition.
    destruct (uuid_UUID s); intros Hc; (erewrite bind_ok; [|by apply column_run]); done. }
  erewrite bind_ok; [|exact Hq]. cbv beta iota.
  erewrite bind_ok; [|by apply conn_execute_select]. cbv beta iota.
  destruct (head (select_rows t [id_or_key_condition s])) as [row|]; [|done].
  unfold mbind, M_bind, bind, lift, mret, M_ret, ret.
  by destruct (_row_to_model row mc).
Qed.

Lemma DatabaseConnection_delete_run self name s t w :
  w_tables w !! name = Some t →
  has_column t (id_or_key_column s) = true →
  DatabaseConnection_delete self name s w =
    (Ok (0 <? length (List.filter (eval_cond (id_or_key_condition s)) (t_rows t)))%nat,
     with_rows w name t
       (List.filter (λ r, negb (eval_cond (id_or_key_condition s) r)) (t_rows t)),
     [Call (DbDelete name s); Sql (DeleteStmt name (id_or_key_condition s))]).
Proof.
  intros Ht Hc. unfold DatabaseConnection_delete.
  erewrite bind_ok; [|apply emit_run]. cbv beta iota.
  erewrite bind_ok; [|by apply _get_table_run]. cbv beta iota.
  erewrite bind_ok; [|by apply lookup_condition_run]. cbv beta iota.
  erewrite bind_ok; [|by apply transaction_ok, conn_execute_delete]. done.
Qed.

Lemma DatabaseConnection_update_run self name s data mc t w :
  w_tables w !! name = Some t →
  has_column t (id_or_key_column s) = true →
  known_columns t (_model_to_dict data) = true →
  let c := id_or_key_condition s in
  let rows := updated_rows t c (_model_to_dict data) in
  DatabaseConnection_update self name s data mc w =
    (result_bind (dict_of_fetched (head (List.filter (λ r, forallb (λ c, eval_cond c r) [c]) rows)))
       (λ row, _row_to_model row mc),
     with_rows w name t rows,
     [Call (DbUpdate name s data); Sql (UpdateStmt name c (_model_to_dict data));
      Sql (Select name [c])]).
Proof.
  intros Ht Hc Hk c rows. unfold DatabaseConnection_update.
  erewrite bind_ok; [|apply emit_run]. cbv beta iota.
  erewrite bind_ok; [|by apply _get_table_run]. cbv beta iota zeta.
  erewrite bind_ok; [|by apply lookup_condition_run]. cbv beta iota.
  erewrite bind_ok; cycle 1.
  { apply transaction_ok.
    erewrite bind_ok; [|by apply conn_execute_update]. cbv beta iota.
    erewrite bind_ok; [|apply conn_execute_select, with_rows_lookup]. done. }
  cbv beta iota. unfold select_rows. simpl t_rows. fold c. fold rows.
  unfold mbind, M_bind, bind, lift.
  destruct (dict_of_fetched _) as [row|e]; simpl; [|done].
  by destruct (_row_to_model row mc).
Qed.

Lemma DatabaseConnection_update_unknown self name s data mc t w :
  w_tables w !! name = Some t →
  has_column t (id_or_key_column s) = true →
  known_columns t (_model_to_dict data) = false →
  ∃ e, DatabaseConnection_update self name s data mc w =
    (Raise e, w,
     [Call (DbUpdate name s data);
      Sql (UpdateStmt name (id_or_key_condition s) (_model_to_dict data))]).
Proof.
  intros Ht Hc Hk. unfold DatabaseConnection_update.
  erewrite bind_ok; [|apply emit_run]. cbv beta iota.
  erewrite bind_ok; [|by apply _get_table_run]. cbv beta iota zeta.
  erewrite bind_ok; [|by apply lookup_condition_run]. cbv beta iota.
  destruct (conn_execute_update_unknown name (id_or_key_condition s) _ t w Ht Hk) as [e He].
  exists e. erewrite bind_raise; [done|].
  unfold transaction. erewrite bind_raise; [|exact He]. by destruct w.
Qed.

End DatabaseRuns.

Section DatabaseClaims.
Context `{Hpy : PyLib} `{Hpd : !Pydantic}.

Lemma filter_nil_inv {A} (P : A → bool) (l : list A) :
  List.filter P l = [] → Forall (λ x, P x = false) l.
Proof.
  induction l as [|x l IH]; simpl; [constructor|].
  destruct (P x) eqn:HP; [done|]. intros Hl. constructor; auto.
Qed.

Lemma updated_rows_no_match (t : Table) c values :
  List.filter (eval_cond c) (t_rows t) = [] → updated_rows t c values = t_rows t.
Proof.
  intros Hn%filter_nil_inv. unfold updated_rows.
  induction (t_rows t) as [|r l IH]; [done|].
  apply Forall_cons in Hn as [Hr Hl]. rewrite fmap_cons, Hr. f_equal. by apply IH.
Qed.

Lemma filter_single_cond c (l : list (gmap string pyval)) :
  List.filter (λ r, forallb (λ c, eval_cond c r) [c]) l = List.filter (eval_cond c) l.
Proof. apply List.filter_ext. intros r. simpl. apply andb_true_r. Qed.

(** C3.  For every input string given to [get], [update] or [delete] of
    the database backend, on a table that has the column the lookup needs:
    when the string parses as a UUID, every statement the method executes
    compares the [id] column with that UUID; when parsing fails, every
    statement compares the [key] column with the string itself.  The
    parse is attempted first; the key comparison is used on failure only. *)
Theorem db_lookup_condition (self : DatabaseConnection) (name s : string)
    (data : Model) (mc : model_class) (t : Table) (w : World) :
  w_tables w !! name = Some t →
  has_column t (id_or_key_column s) = true →
  let c := id_or_key_condition s in
  (∀ u, uuid_UUID s = Some u → c = ColEq "id" (PUuid u))
  ∧ (uuid_UUID s = None → c = ColEq "key" (PStr s))
  ∧ sql_of (DatabaseConnection_get self name s mc w).2 = [Select name [c]]
  ∧ (∃ rest,
       sql_of (DatabaseConnection_update self name s data mc w).2 =
         UpdateStmt name c (_model_to_dict data) :: rest
       ∧ Forall (λ q, q = Select name [c]) rest)
  ∧ sql_of (DatabaseConnection_delete self name s w).2 = [DeleteStmt name c].
Proof.
  intros Ht Hc c. subst c. split_and!.
  - intros u Hu. unfold id_or_key_condition. by rewrite Hu.
  - intros Hu. unfold id_or_key_condition. by rewrite Hu.
  - by erewrite DatabaseConnection_get_run.
  - destruct (known_columns t (_model_to_dict data)) eqn:Hk.
    + erewrite DatabaseConnection_update_run by done. simpl.
      eexists. split; [done|]. by repeat constructor.
    + destruct (DatabaseConnection_update_unknown self name s data mc t w Ht Hc Hk)
        as [e ->]. simpl. eexists. split; [done|]. constructor.
  - by erewrite DatabaseConnection_delete_run.
Qed.

(** A lookup that matches no row: [get] returns [None]. *)
Lemma db_get_missing_row (self : DatabaseConnection) (name s : string)
    (mc : model_class) (t : Table) (w : World) :
  w_tables w !! name = Some t →
  has_column t (id_or_key_column s) = true →
  List.filter (eval_cond (id_or_key_condition s)) (t_rows t) = [] →
  (DatabaseConnection_get self name s mc w).1 = (Ok None, w).
Proof.
  intros Ht Hc Hn. erewrite DatabaseConnection_get_run by done. simpl.
  unfold select_rows. by rewrite filter_single_cond, Hn.
Qed.

(** A lookup that matches no row: [delete] returns [False]. *)
Lemma db_delete_missing_row (self : DatabaseConnection) (name s : string)
    (t : Table) (w : World) :
  w_tables w !! name = Some t →
  has_column t (id_or_key_column s) = true →
  List.filter (eval_cond (id_or_key_condition s)) (t_rows t) = [] →
  (DatabaseConnection_delete self name s w).1.1 = Ok false.
Proof.
  intros Ht Hc Hn. erewrite DatabaseConnection_delete_run by done. simpl.
  by rewrite Hn.
Qed.

(** C7, at the operation where the code departs from it.  When the id or
    key matches no row, [update] raises: it fetches the updated row,
    receives [None] and passes it to [dict], which raises [TypeError].
    ([get] and [delete] return [None] and [False], see
    [db_get_missing_row] and [db_delete_missing_row].) *)
Theorem db_update_missing_row_raises (self : DatabaseConnection) (name s : string)
    (data : Model) (mc : model_class) (t : Table) (w : World) :
  w_tables w !! name = Some t →
  has_column t (id_or_key_column s) = true →
  known_columns t (_model_to_dict data) = true →
  List.filter (eval_cond (id_or_key_condition s)) (t_rows t) = [] →
  (DatabaseConnection_update self name s data mc w).1.1 =
    Raise (Exn TypeError "'NoneType' object is not iterable").
Proof.
  intros Ht Hc Hk Hn. erewrite DatabaseConnection_update_run by done. cbv zeta.
  by rewrite (updated_rows_no_match _ _ _ Hn), filter_single_cond, Hn.
Qed.

End DatabaseClaims.

Section StatusMapping.
Context `{Hpy : PyLib} `{Hpd : !Pydantic}.

Lemma result_mapM_raise {A B} (f : A → result B) (l : list A) e :
  result_mapM f l = Raise e → ∃ a, a ∈ l ∧ f a = Raise e.
Proof.
  induction l as [|a l IH]; simpl; [done|].
  destruct (f a) as [b|e'] eqn:Hfa; simpl.
  - destruct (result_mapM f l) as [bs|e'']; simpl; [done|].
    intros [= ->]. destruct IH as (a' & Ha' & Hf); [done|].
    exists a'. split; [by right|done].
  - intros [= ->]. exists a. split; [by left|done].
Qed.

Lemma instantiate_raise c item e :
  instantiate c item = Raise e → isinstance e APIError = false.
Proof.
  unfold instantiate, pydantic_call.
  destruct item; try (by intros [= <-]).
  destruct c as [mc|]; [|by intros [= <-]].
  destruct (pydantic_init mc _); [|done]. by intros [= <-].
Qed.

(** C4, amended.  For a response whose body is a JSON object or is not
    JSON at all, with [detail] the error detail read from it:
    status 401 or 403 raises an authentication failure, 404 a not-found
    error, 422 a validation failure, 429 a rate-limit failure, each with
    the detail (or a default text) as message; every other status from 400
    to 599 raises a generic API failure whose message carries the status
    code and the detail (the reason phrase when there is no detail).  A
    status outside 400 to 599 never raises a failure of the API family. *)
Theorem handle_response_status_mapping (response : Response)
    (cls : option class_ref) (detail : pyval) :
  error_detail_of response = Ok detail →
  let s := status_code response in
  let message default := py_str (py_or detail (PStr default)) in
  (s = 401 ∨ s = 403 →
     _handle_response response cls =
       Raise (Exn AuthenticationError (message "Authentication failed")))
  ∧ (s = 404 →
     _handle_response response cls =
       Raise (Exn NotFoundError (message "Resource not found")))
  ∧ (s = 422 →
     _handle_response response cls =
       Raise (Exn ValidationError (message "Validation error")))
  ∧ (s = 429 →
     _handle_response response cls =
       Raise (Exn RateLimitError (message "Rate limit exceeded")))
  ∧ (400 ≤ s < 600 → s ∉ [401; 403; 404; 422; 429] →
     _handle_response response cls =
       Raise (Exn APIError ("API error: " +:+ pretty s +:+ " - " +:+ message (reason response))))
  ∧ (¬ (400 ≤ s < 600) →
     ∀ e, _handle_response response cls = Raise e → isinstance e APIError = false).
Proof.
  intros Hd s message. subst s message.
  unfold _handle_response, raise_for_status. rewrite Hd. simpl.
  split_and!.
  - intros [Hs|Hs]; by rewrite Hs.
  - intros Hs. by rewrite Hs.
  - intros Hs. by rewrite Hs.
  - intros Hs. by rewrite Hs.
  - intros [Hlo Hhi] Hno.
    rewrite !not_elem_of_cons in Hno.
    destruct Hno as (H1 & H2 & H3 & H4 & H5 & _).
    assert ((400 <=? status_code response) && (status_code response <? 600) = true) as ->
      by (apply andb_true_iff; split; [by apply Z.leb_le|by apply Z.ltb_lt]).
    repeat match goal with
           | |- context [?a =? ?b] =>
               destruct (Z.eqb_spec a b) as [Heq|_]; [congruence|]
           end.
    done.
  - intros Hout e.
    assert ((400 <=? status_code response) && (status_code response <? 600) = false) as ->.
    { apply not_true_is_false. intros [Hlo%Z.leb_le Hhi%Z.ltb_lt]%andb_true_iff. lia. }
    destruct (json_body response) as [data|]; [|by intros [= <-]].
    destruct cls as [c|]; [|by destruct data].
    destruct data; try done.
    + destruct (result_mapM (instantiate c) l) as [ms|e'] eqn:Hm; [done|].
      simpl. intros [= ->].
      apply result_mapM_raise in Hm as (a & _ & Ha). by eapply instantiate_raise.
    + destruct (instantiate c (PDict d)) as [m|e'] eqn:Hm; [done|].
      simpl. intros [= ->]. by eapply instantiate_raise.
Qed.

End StatusMapping.

Section Versions.
Context `{Hpy : PyLib} `{Hpd : !Pydantic}.

Lemma DatabaseConnection_list_run self name mc filters t w :
  w_tables w !! name = Some t →
  db_list_kwargs filters = true →
  let wheres :=
    (λ kv, ColEq kv.1 kv.2) <$>
      List.filter (λ kv, has_column t kv.1) (map_to_list filters) in
  DatabaseConnection_list self name mc filters w =
    (result_mapM (λ row, _row_to_model row mc) (select_rows t wheres), w,
     [Call (DbList name filters); Sql (Select name wheres)]).
Proof.
  intros Ht Hk wheres. unfold DatabaseConnection_list.
  erewrite bind_ok; [|by apply bind_kwargs_ok]. cbv beta iota.
  erewrite bind_ok; [|apply emit_run]. cbv beta iota.
  erewrite bind_ok; [|by apply _get_table_run]. cbv beta iota zeta.
  erewrite bind_ok; [|by apply conn_execute_select]. done.
Qed.

Lemma DatabaseConnection_list_by_column self name mc col v t w :
  w_tables w !! name = Some t →
  col ∉ ["self"; "resource_name"; "model_class"] →
  has_column t col = true →
  DatabaseConnection_list self name mc {[col := v]} w =
    (result_mapM (λ row, _row_to_model row mc)
       (List.filter (eval_cond (ColEq col v)) (t_rows t)), w,
     [Call (DbList name {[col := v]}); Sql (Select name [ColEq col v])]).
Proof.
  intros Ht Hcol Hc.
  erewrite DatabaseConnection_list_run; [|done|by apply db_list_kwargs_singleton].
  cbv zeta. rewrite map_to_list_singleton. simpl. rewrite Hc. simpl.
  unfold select_rows. by rewrite filter_single_cond.
Qed.

(** A row without parent reference is not selected by a comparison of
    [parent_id] with a value other than [None]. *)
Lemma null_parent_not_selected (root_id : pyval) (r : gmap string pyval) :
  root_id ≠ PNone →
  cell r "parent_id" = PNone →
  eval_cond (ColEq "parent_id" root_id) r = false.
Proof.
  intros Hroot Hcell. unfold eval_cond, cell in *.
  destruct (r !! "parent_id") as [c|]; [|done]. simpl in Hcell. subst c.
  by destruct root_id.
Qed.

(** C5, amended.  Under database mode, [get_versions] on an existing
    prompt returns the prompts whose parent reference equals the lineage
    root id, that is the prompt's parent reference when it has one and its
    own id otherwise, in table order.  A prompt without parent reference,
    such as the lineage root, is not among them. *)
Theorem get_versions_lists_children_of_root (self : Resource) (conn : DatabaseConnection)
    (id_or_key : pyval) (t : Table) (w : World)
    (row : gmap string pyval) (prompt : Model) (parent_id id : pyval) :
  ResourceBase_init Prompts (Some conn) None = Ok self →
  w_tables w !! "prompts" = Some t →
  has_column t (id_or_key_column (py_str id_or_key)) = true →
  has_column t "parent_id" = true →
  head (List.filter (eval_cond (id_or_key_condition (py_str id_or_key))) (t_rows t))
    = Some row →
  _row_to_model row Prompt = Ok prompt →
  m_fields prompt !! "parent_id" = Some parent_id →
  m_fields prompt !! "id" = Some id →
  let root_id := py_or parent_id id in
  let versions := List.filter (eval_cond (ColEq "parent_id" root_id)) (t_rows t) in
  (Prompts_get_versions self id_or_key w).1 =
    (result_bind (result_mapM (λ r, _row_to_model r Prompt) versions)
       (λ ms, Ok (OModels ms)), w)
  ∧ (root_id ≠ PNone →
     ∀ r, r ∈ t_rows t → cell r "parent_id" = PNone → r ∉ versions).
Proof.
  intros ->%ResourceBase_init_ok Ht Hc Hp Hrow Hm Hpar Hid root_id versions.
  split.
  - unfold Prompts_get_versions, _get_id_from_arg. simpl.
    erewrite bind_ok; [|by apply self_db_some]. cbv beta iota.
    erewrite bind_ok; cycle 1.
    { erewrite DatabaseConnection_get_run by done.
      unfold select_rows. rewrite filter_single_cond, Hrow, Hm. done. }
    cbv beta iota. unfold attr_of_fetched, model_getattr. rewrite Hpar, Hid.
    rewrite lift_ok_bind.
    assert ((if py_truthy parent_id then mret parent_id else lift (Ok id)) w
            = (Ok root_id, w, [])) as Hroot.
    { unfold root_id, py_or. by destruct (py_truthy parent_id). }
    erewrite bind_ok; [|exact Hroot]. cbv beta iota.
    fold root_id.
    pose proof (DatabaseConnection_list_by_column conn "prompts" Prompt
                  "parent_id" root_id t w Ht) as Hl.
    fold versions in Hl.
    assert ("parent_id" ∉ ["self"; "resource_name"; "model_class"]) as Hname.
    { rewrite !not_elem_of_cons. repeat split; try done. apply not_elem_of_nil. }
    specialize (Hl Hname Hp).
    destruct (result_mapM _ versions) as [ms|e].
    + erewrite bind_ok; [|exact Hl]. done.
    + erewrite bind_raise; [|exact Hl]. done.
  - intros Hroot r Hr Hcell Hin.
    apply list_elem_of_In, List.filter_In in Hin as [_ Hsel].
    by rewrite null_parent_not_selected in Hsel.
Qed.

End Versions.

Section CreateVersion.
Context `{Hpy : PyLib} `{Hpd : !Pydantic}.

Lemma known_columns_elem (t : Table) (values : gmap string pyval) k x :
  known_columns t values = true → values !! k = Some x → has_column t k = true.
Proof.
  unfold known_columns, has_column. intros Hk Hv.
  rewrite forallb_forall in Hk.
  apply (Hk (k, x)). apply list_elem_of_In. by apply elem_of_map_to_list.
Qed.

Lemma new_row_lookup (t : Table) (values : gmap string pyval) k :
  has_column t k = true → new_row t values !! k = Some (stored_cell t values k).
Proof.
  unfold has_column, new_row. intros Hk%bool_decide_eq_true.
  induction (t_columns t) as [|c cols IH]; [by apply elem_of_nil in Hk|].
  simpl. destruct (decide (c = k)) as [->|Hne].
  - by rewrite lookup_insert_eq.
  - rewrite lookup_insert_ne; [|done]. apply IH.
    apply elem_of_cons in Hk as [->|Hk]; done.
Qed.

Lemma DatabaseConnection_create_run self name data mc t w :
  w_tables w !! name = Some t →
  _model_to_dict data !! "id" = None →
  let new_id := PStr (uuid_str (w_uuid4 w (w_uuid4_calls w))) in
  let values := <["id" := new_id]> (_model_to_dict data) in
  known_columns t values = true →
  List.filter (eval_cond (ColEq "id" new_id)) (t_rows t) = [] →
  DatabaseConnection_create self name data mc w =
    (_row_to_model (new_row t values) mc,
     with_rows (tick w) name t (t_rows t ++ [new_row t values]),
     [Call (DbCreate name data); Sql (Insert name values);
      Sql (Select name [ColEq "id" new_id])]).
Proof.
  intros Ht Hnone new_id values Hk Hfresh. unfold DatabaseConnection_create.
  erewrite bind_ok; [|apply emit_run]. cbv beta iota.
  erewrite bind_ok; [|by apply _get_table_run]. cbv beta iota zeta.
  rewrite Hnone.
  assert (has_column t "id" = true) as Hid.
  { eapply known_columns_elem; [exact Hk|]. apply lookup_insert_eq. }
  assert (cell values "id" = new_id) as Hcell.
  { unfold cell, values. by rewrite lookup_insert_eq. }
  assert (stored_cell t values "id" = new_id) as Hstored.
  { unfold stored_cell, values. by rewrite lookup_insert_eq. }
  assert (eval_cond (ColEq "id" new_id) (new_row t values) = true) as Hsel.
  { unfold eval_cond. rewrite new_row_lookup, Hstored by done.
    unfold new_id, sql_eq. simpl. apply String.eqb_refl. }
  erewrite bind_ok; cycle 1.
  { erewrite bind_ok; [|reflexivity]. reflexivity. }
  cbv beta iota. fold (tick w). simpl fst. simpl snd. fold new_id. fold values.
  erewrite bind_ok; cycle 1.
  { apply transaction_ok.
    erewrite bind_ok; [|by apply (conn_execute_insert name values t (tick w))].
    cbv beta iota.
    erewrite bind_ok; [|by apply column_run]. cbv beta iota.
    erewrite bind_ok; [|apply conn_execute_select, with_rows_lookup]. cbv beta iota.
    unfold select_rows. simpl t_rows.
    rewrite Hcell, filter_single_cond, List.filter_app, Hfresh.
    cbn [List.filter app]. rewrite Hsel. reflexivity. }
  cbv beta iota. simpl.
  by destruct (_row_to_model (new_row t values) mc).
Qed.

Lemma model_to_dict_with_parent (data : Model) (pid : uuid) :
  _model_to_dict (with_parent data (PUuid pid)) !! "parent_id"
    = Some (PStr (uuid_str pid)).
Proof.
  unfold _model_to_dict, model_dict_exclude_unset, with_parent. simpl.
  rewrite lookup_fmap.
  erewrite (map_lookup_filter_Some_2 _ _ "parent_id" (PUuid pid)); [done|..].
  - apply lookup_insert_eq.
  - simpl. set_solver.
Qed.

Lemma model_to_dict_no_id (data : Model) (v : pyval) :
  m_fields data !! "id" = None →
  _model_to_dict (with_parent data v) !! "id" = None.
Proof.
  intros Hid. unfold _model_to_dict, model_dict_exclude_unset, with_parent. simpl.
  rewrite lookup_fmap, map_lookup_filter.
  rewrite lookup_insert_ne by done. by rewrite Hid.
Qed.

End CreateVersion.

Section CreateVersionClaim.
Context `{Hpy : PyLib} `{Hpd : !Pydantic}.

Lemma pydantic_call_ok mc kw m : pydantic_call mc kw = Ok m → pydantic_init mc kw = inr m.
Proof. unfold pydantic_call. destruct (pydantic_init mc kw); by intros [= <-]. Qed.



End CreateVersionClaim.

(* ===================================================================== *)
(** * 9a. Further properties of the API backend                           *)
(* ===================================================================== *)

Section Urls.
Context `{Hpy : PyLib} `{Hpd : !Pydantic}.

Lemma prefix_split (p s : string) : String.prefix p s = true → ∃ r, s = p +:+ r.
Proof.
  revert s. induction p as [|a p IH]; intros s Hp.
  - by exists s.
  - destruct s as [|b s]; [done|]. simpl in Hp.
    destruct (Ascii.ascii_dec a b) as [->|]; [|done].
    destruct (IH s Hp) as [r ->]. by exists r.
Qed.

Lemma rstrip_slash_app_slash (b : string) : rstrip_slash (b +:+ "/") = rstrip_slash b.
Proof.
  induction b as [|c b IH]; [done|].
  cbv [String.append]; fold String.append. simpl. by rewrite IH.
Qed.

Lemma string_app_slash_nonempty (s : string) : s +:+ "/" ≠ EmptyString.
Proof. by destruct s. Qed.

Lemma rstrip_slash_no_trailing (b s : string) : rstrip_slash b ≠ s +:+ "/".
Proof.
  revert s. induction b as [|c b IH]; intros s.
  - simpl. intros Heq. by eapply string_app_slash_nonempty.
  - simpl. destruct (rstrip_slash b) as [|d r] eqn:Hr.
    + destruct (Ascii.eqb c "/") eqn:Hc.
      * intros Heq. by eapply string_app_slash_nonempty.
      * destruct s as [|x s]; cbv [String.append]; fold String.append.
        -- intros [= ->]. by rewrite Ascii.eqb_refl in Hc.
        -- intros [= _ Heq]. by eapply string_app_slash_nonempty.
    + destruct s as [|x s]; cbv [String.append]; fold String.append; [done|].
      intros [= _ Heq]. by eapply IH.
Qed.

Lemma prefix_app (a r : string) : String.prefix a (a +:+ r) = true.
Proof.
  induction a as [|c a IH]; [by destruct r|].
  cbv [String.append]; fold String.append. simpl.
  by destruct (Ascii.ascii_dec c c).
Qed.

Lemma lstrip_slash_slashes (path : string) :
  ∃ n, path = slashes n +:+ lstrip_slash path.
Proof.
  induction path as [|c r [n IH]]; [by exists 0%nat|].
  simpl. destruct (Ascii.eqb c "/") eqn:Hc.
  - apply Ascii.eqb_eq in Hc as ->. exists (S n). simpl.
    cbv [String.append]; fold String.append. by rewrite <- IH.
  - by exists 0%nat.
Qed.

Lemma lstrip_slash_no_leading (path r : string) : lstrip_slash path ≠ String "/" r.
Proof.
  induction path as [|c p IH]; [done|].
  simpl. destruct (Ascii.eqb c "/") eqn:Hc; [done|].
  intros [= -> _]. by rewrite Ascii.eqb_refl in Hc.
Qed.

(** X1.  The URL [_build_url] returns for a path.  Let [p] be the path
    without its leading slashes (the path is some slashes followed by
    [p], and [p] starts with none).  When [p] starts with the version
    segment [api_version/], the URL is [base_url/p]: the version segment
    is not added to a path that already carries it.  When [p] does not
    start with it, the URL is [base_url/api_version/p]. *)
Theorem build_url_is_versioned (self : APIConnection) (path : string) :
  let p := lstrip_slash path in
  let version := api_version self +:+ "/" in
  (∃ n, path = slashes n +:+ p)
  ∧ (∀ r, p ≠ String "/" r)
  ∧ ((∃ rest, p = version +:+ rest) →
     _build_url self path = base_url self +:+ "/" +:+ p)
  ∧ ((∀ rest, p ≠ version +:+ rest) →
     _build_url self path = base_url self +:+ "/" +:+ version +:+ p).
Proof.
  intros p version. subst p version. split_and!.
  - apply lstrip_slash_slashes.
  - intros r. apply lstrip_slash_no_leading.
  - intros [rest Hrest]. unfold _build_url.
    assert (String.prefix (api_version self +:+ "/") (lstrip_slash path) = true) as ->
      by (rewrite Hrest; apply prefix_app).
    done.
  - intros Hno. unfold _build_url.
    destruct (String.prefix (api_version self +:+ "/") (lstrip_slash path)) eqn:Hp.
    + apply prefix_split in Hp as [r Hr]. by destruct (Hno r).
    + by rewrite string_app_assoc.
Qed.

Lemma rstrip_slash_slashes (b : string) : ∃ n, b = rstrip_slash b +:+ slashes n.
Proof.
  induction b as [|c b [n IH]]; [by exists 0%nat|].
  simpl. destruct (rstrip_slash b) as [|d r] eqn:Hr.
  - destruct (Ascii.eqb c "/") eqn:Hc.
    + apply Ascii.eqb_eq in Hc as ->. exists (S n). simpl. by rewrite IH at 1.
    + exists n. cbv [String.append]; fold String.append. by rewrite IH at 1.
  - exists n. cbv [String.append]; fold String.append.
    cbv [String.append] in IH; fold String.append in IH. by rewrite IH at 1.
Qed.

(** X2.  [APIConnection.__init__] stores the base URL without its
    trailing slashes: the base URL given is the stored one followed by
    some slashes, and the stored one does not end in a slash.  The key
    and the version are stored as given.  Hence a base URL given with one
    more trailing slash yields the same URLs. *)
Theorem base_url_trailing_slash_is_dropped (b key version : string) :
  let self := APIConnection_init b key version in
  (∃ n, b = base_url self +:+ slashes n)
  ∧ (∀ s, base_url self ≠ s +:+ "/")
  ∧ api_key self = key
  ∧ api_version self = version
  ∧ (∀ path, _build_url (APIConnection_init (b +:+ "/") key version) path
             = _build_url self path).
Proof.
  intros self. subst self. split_and!.
  - apply rstrip_slash_slashes.
  - intros s. apply rstrip_slash_no_trailing.
  - done.
  - done.
  - intros path. unfold _build_url, APIConnection_init. simpl.
    by rewrite rstrip_slash_app_slash.
Qed.

End Urls.

Section Requests.
Context `{Hpy : PyLib} `{Hpd : !Pydantic}.

Lemma request_run self method path mc data params w :
  request self method path mc data params w =
    (result_bind (w_http w (request_of self method path data params))
       (λ response, _handle_response response mc),
     w, [Http (request_of self method path data params)]).
Proof.
  unfold request, request_of, json_of, mbind, M_bind, bind, session_request, lift.
  by destruct (w_http w _) as [resp|e].
Qed.

Lemma run_eta {A} (x : result A * World * list event) : x = (x.1.1, x.1.2, x.2).
Proof. by destruct x as [[r w] l]. Qed.

Lemma emit_bind_run {A} (e : event) (k : M A) w :
  (emit e;; k) w = ((k w).1, e :: (k w).2).
Proof. unfold mbind, M_bind, bind, emit. by destruct (k w) as [[r w2] l2]. Qed.

Lemma APIConnection_get_run self path id mc w :
  APIConnection_get self path id mc w =
    (result_bind (w_http w (request_of self "GET" (path +:+ "/" +:+ id) None None))
       (λ response, _handle_response response (Some mc)),
     w, [Call (ApiGet path id);
         Http (request_of self "GET" (path +:+ "/" +:+ id) None None)]).
Proof. unfold APIConnection_get. by rewrite emit_bind_run, request_run. Qed.

Lemma APIConnection_create_run self path data mc w :
  APIConnection_create self path data mc w =
    (result_bind (w_http w (request_of self "POST" path (Some data) None))
       (λ response, _handle_response response (Some mc)),
     w, [Call (ApiCreate path data);
         Http (request_of self "POST" path (Some data) None)]).
Proof. unfold APIConnection_create. by rewrite emit_bind_run, request_run. Qed.

Lemma APIConnection_update_run self path id data mc w :
  APIConnection_update self path id data mc w =
    (result_bind
       (w_http w (request_of self "PUT" (path +:+ "/" +:+ id) (Some data) None))
       (λ response, _handle_response response (Some mc)),
     w, [Call (ApiUpdate path id data);
         Http (request_of self "PUT" (path +:+ "/" +:+ id) (Some data) None)]).
Proof. unfold APIConnection_update. by rewrite emit_bind_run, request_run. Qed.

Lemma APIConnection_delete_run self path id w :
  APIConnection_delete self [path; id] w =
    (result_bind
       (result_bind (w_http w (request_of self "DELETE" (path +:+ "/" +:+ id) None None))
          (λ response, _handle_response response None))
       (λ _, Ok (OVal (PBool true))),
     w, [Call (ApiDelete path id);
         Http (request_of self "DELETE" (path +:+ "/" +:+ id) None None)]).
Proof.
  unfold APIConnection_delete. rewrite emit_bind_run.
  destruct (result_bind (w_http w _) _) as [o|e] eqn:Hr.
  - erewrite bind_ok; [|by rewrite request_run, Hr]. done.
  - erewrite bind_raise; [|by rewrite request_run, Hr]. done.
Qed.

Lemma APIConnection_list_run self path mc params w :
  api_list_kwargs params = true →
  APIConnection_list self path mc params w =
    (result_bind (w_http w (request_of self "GET" path None (Some params)))
       (λ response, _handle_response response (Some mc)),
     w, [Call (ApiList path params);
         Http (request_of self "GET" path None (Some params))]).
Proof.
  intros Hk. unfold APIConnection_list.
  erewrite bind_ok; [|by apply bind_kwargs_ok]. cbv beta iota.
  by rewrite emit_bind_run, request_run.
Qed.

Lemma APIConnection_list_bad_kwargs self path mc params w :
  api_list_kwargs params = false →
  (APIConnection_list self path mc params w).2 = [].
Proof.
  intros Hk. unfold APIConnection_list, bind_kwargs.
  unfold api_list_kwargs in Hk. by rewrite Hk.
Qed.

(** X3.  Each method of the API backend hands exactly one request to the
    HTTP session, whatever the service answers: [list] a GET on the
    resource path, with the keyword arguments as query parameters; [get]
    a GET, [update] a PUT and [delete] a DELETE on [path/id]; [create] a
    POST on the resource path.  ([list] sends nothing when a keyword
    argument names one of its positional parameters, which Python rejects
    at the call.) *)
Theorem api_method_is_one_request (self : APIConnection) (path id : string)
    (data : payload) (mc : class_ref) (params : gmap string pyval) (w : World) :
  let sent (log : list event) :=
    (λ rq, (rq_method rq, rq_url rq, rq_params rq)) <$> http_of log in
  sent (APIConnection_list self path mc params w).2 =
    (if api_list_kwargs params
     then [("GET", _build_url self path, Some params)] else [])
  ∧ sent (APIConnection_get self path id mc w).2 =
      [("GET", _build_url self (path +:+ "/" +:+ id), None)]
  ∧ sent (APIConnection_create self path data mc w).2 =
      [("POST", _build_url self path, None)]
  ∧ sent (APIConnection_update self path id data mc w).2 =
      [("PUT", _build_url self (path +:+ "/" +:+ id), None)]
  ∧ sent (APIConnection_delete self [path; id] w).2 =
      [("DELETE", _build_url self (path +:+ "/" +:+ id), None)].
Proof.
  intros sent. subst sent. split_and!.
  - destruct (api_list_kwargs params) eqn:Hk.
    + by rewrite APIConnection_list_run.
    + by rewrite APIConnection_list_bad_kwargs.
  - by rewrite APIConnection_get_run.
  - by rewrite APIConnection_create_run.
  - by rewrite APIConnection_update_run.
  - by rewrite APIConnection_delete_run.
Qed.

Lemma create_class_not_BaseModel cls mc :
  create_model_class_of cls = Some mc → derives_BaseModel mc = false.
Proof. destruct cls; simpl; by intros [= <-]. Qed.

Lemma update_class_not_BaseModel cls mc :
  update_model_class_of cls = Some mc → derives_BaseModel mc = false.
Proof. destruct cls; simpl; by intros [= <-]. Qed.

Lemma call_model_class_class c kwargs data :
  call_model_class c kwargs = Ok data → c = Some (m_class data).
Proof.
  destruct c as [mc|]; [|done]. simpl. intros Hd%pydantic_call_ok.
  by rewrite (pydantic_init_class _ _ _ Hd).
Qed.

(** X4.  [request] turns a model into a dict only when it is an instance
    of the package's own [BaseModel].  The create and update models derive
    from [BaseCreateModel] and [BaseUpdateModel], so the model that
    [create] and [update] of a dispatcher build from the keyword arguments
    reaches the HTTP session as the model object itself, whereas a
    [Project], [Prompt], [Team], [User] or [Activity] given to the API
    backend is sent as its dict of explicitly set fields. *)
Theorem create_and_update_models_are_sent_unconverted (self : Resource)
    (conn : APIConnection) (id_or_key : pyval) (kwargs : gmap string pyval)
    (data : Model) (w : World) :
  api self = Some conn →
  mixed_mode self || negb (conn_truthy (db self)) = true →
  (call_model_class (create_model_class_of (r_class self)) kwargs = Ok data →
     rq_json <$> http_of (ResourceMixin_create self kwargs w).2 = [Some (DataModel data)])
  ∧ (call_model_class (update_model_class_of (r_class self)) kwargs = Ok data →
     rq_json <$> http_of (ResourceMixin_update self id_or_key kwargs w).2
       = [Some (DataModel data)])
  ∧ (∀ path mc m, derives_BaseModel (m_class m) = true →
     rq_json <$> http_of (APIConnection_create conn path (DataModel m) mc w).2
       = [Some (DataDict (model_dict_exclude_unset m))]).
Proof.
  intros Hapi Hmode. split_and!.
  - intros Hd. unfold ResourceMixin_create. rewrite Hd, lift_ok_bind, Hmode.
    erewrite bind_ok; [|by apply self_api_some]. cbv beta iota.
    rewrite APIConnection_create_run. simpl.
    apply call_model_class_class, create_class_not_BaseModel in Hd. by rewrite Hd.
  - intros Hd. unfold ResourceMixin_update. rewrite Hd, lift_ok_bind, Hmode.
    erewrite bind_ok; [|by apply self_api_some]. cbv beta iota.
    rewrite APIConnection_update_run. simpl.
    apply call_model_class_class, update_class_not_BaseModel in Hd. by rewrite Hd.
  - intros path mc m Hm. rewrite APIConnection_create_run. simpl. by rewrite Hm.
Qed.

Lemma raise_for_status_ok (response : Response) :
  ¬ (400 ≤ status_code response < 600) → raise_for_status response = Ok tt.
Proof.
  intros Hout. unfold raise_for_status.
  destruct ((400 <=? status_code response) && (status_code response <? 600)) eqn:Hs;
    [|done].
  apply andb_true_iff in Hs as [Hlo%Z.leb_le Hhi%Z.ltb_lt]. lia.
Qed.

Lemma raise_for_status_error (response : Response) :
  400 ≤ status_code response < 600 → ∃ e, raise_for_status response = Raise e.
Proof.
  intros [Hlo Hhi]. unfold raise_for_status.
  assert ((400 <=? status_code response) && (status_code response <? 600) = true) as ->
    by (apply andb_true_iff; split; [by apply Z.leb_le|by apply Z.ltb_lt]).
  by eexists.
Qed.

(** X5.  [delete] of the API backend decodes the body of the response
    although it returns none of it: when the service answers with a status
    outside 400 to 599, the call returns [True] if the body is JSON, and
    raises the decoding error if it is not (an empty body, as in a 204
    answer, is not JSON). *)
Theorem api_delete_decodes_the_body (self : APIConnection) (path id : string)
    (response : Response) (w : World) :
  w_http w (request_of self "DELETE" (path +:+ "/" +:+ id) None None) = Ok response →
  ¬ (400 ≤ status_code response < 600) →
  (is_Some (json_body response) →
     (APIConnection_delete self [path; id] w).1.1 = Ok (OVal (PBool true)))
  ∧ (json_body response = None →
     ∃ msg, (APIConnection_delete self [path; id] w).1.1
              = Raise (Exn JSONDecodeError msg)).
Proof.
  intros Hresp Hout. rewrite APIConnection_delete_run, Hresp. simpl.
  unfold _handle_response. rewrite raise_for_status_ok by done. split.
  - by intros [data ->].
  - intros ->. by eexists.
Qed.

(** X6.  [add_member], [update_member_role] and [change_password] pass
    [typing.Dict] where the API backend expects a model class.  When the
    service accepts the request and answers with a JSON object, the
    backend calls [Dict] on its items, which raises [TypeError]; the
    decorator re-raises it as a generic API failure.  The request has been
    sent by then. *)
Theorem dict_as_model_class_fails_on_object_answers (self : Resource)
    (conn : APIConnection) (a1 a2 a3 : pyval) (response : Response)
    (d : list (string * pyval)) (w : World) :
  api self = Some conn →
  (∀ rq, w_http w rq = Ok response) →
  ¬ (400 ≤ status_code response < 600) →
  json_body response = Some (PDict d) →
  let failure name :=
    Raise (Exn APIError
             ("Unexpected error during " +:+ name +:+
              ": Type Dict cannot be instantiated; use dict() instead")) in
  let run := Teams_add_member self a1 a2 a3 w in
  let run' := Teams_update_member_role self a1 a2 a3 w in
  let run'' := Users_change_password self a1 a2 a3 w in
  (run.1.1 = failure "add_member" ∧ length (http_of run.2) = 1%nat)
  ∧ (run'.1.1 = failure "update_member_role" ∧ length (http_of run'.2) = 1%nat)
  ∧ (run''.1.1 = failure "change_password" ∧ length (http_of run''.2) = 1%nat).
Proof.
  intros Hapi Hresp Hout Hbody failure run run' run''.
  subst failure run run' run''.
  assert (∀ rq, result_bind (w_http w rq) (λ r, _handle_response r (Some TypingDict))
                = Raise (Exn TypeError
                           "Type Dict cannot be instantiated; use dict() instead")) as Hh.
  { intros rq. rewrite Hresp. simpl. unfold _handle_response.
    by rewrite raise_for_status_ok, Hbody. }
  unfold Teams_add_member, Teams_update_member_role, Users_change_password,
    api_write_only, try_except.
  rewrite Hapi. simpl.
  split_and!.
  - erewrite bind_ok; [|by apply self_api_some]. cbv beta iota.
    rewrite APIConnection_create_run, Hh. done.
  - erewrite bind_ok; [|by apply self_api_some]. cbv beta iota.
    rewrite APIConnection_create_run, Hh. done.
  - erewrite bind_ok; [|by apply self_api_some]. cbv beta iota.
    rewrite APIConnection_update_run, Hh. done.
  - erewrite bind_ok; [|by apply self_api_some]. cbv beta iota.
    rewrite APIConnection_update_run, Hh. done.
  - erewrite bind_ok; [|by apply self_api_some]. cbv beta iota.
    erewrite bind_raise; [|by rewrite APIConnection_create_run, Hh]. done.
  - erewrite bind_ok; [|by apply self_api_some]. cbv beta iota.
    erewrite bind_raise; [|by rewrite APIConnection_create_run, Hh]. done.
Qed.

(** X7.  An error response (status 400 to 599) whose body is JSON but not
    an object is not mapped to any error of the API family:
    [_handle_response] calls [.get] on the decoded value and raises
    [AttributeError], whatever the status is. *)
Theorem error_body_that_is_no_object (response : Response)
    (cls : option class_ref) (body : pyval) :
  400 ≤ status_code response < 600 →
  json_body response = Some body →
  (∀ d, body ≠ PDict d) →
  ∃ msg, _handle_response response cls = Raise (Exn AttributeError msg)
         ∧ isinstance (Exn AttributeError msg) APIError = false.
Proof.
  intros Hs Hbody Hno. unfold _handle_response, error_detail_of.
  destruct (raise_for_status_error response Hs) as [e ->]. rewrite Hbody.
  destruct body; try (by eexists). by destruct (Hno d).
Qed.

End Requests.

Section ErrorKinds.
Context `{Hpy : PyLib} `{Hpd : !Pydantic}.

Lemma try_except_raises {A} (m : M A) (h : exn → M A) w e :
  (try_except m h w).1.1 = Raise e → ∃ e0 w1, (h e0 w1).1.1 = Raise e.
Proof.
  unfold try_except. destruct (m w) as [[[a|e0] w1] l1]; simpl; [done|].
  intros He. exists e0, w1. by destruct (h e0 w1) as [[r w2] l2].
Qed.

Lemma api_write_only_raises {A} name self (method : M A) w e :
  (api_write_only name self method w).1.1 = Raise e →
  (api self = None ∧ exn_cls e = ValueError)
  ∨ (is_Some (api self)
     ∧ exn_cls e ∈ [AuthenticationError; ValidationError; NotFoundError; APIError]).
Proof.
  unfold api_write_only. destruct (api self) as [conn|]; simpl.
  - intros (e0 & w1 & He)%try_except_raises. right. split; [done|].
    revert He.
    repeat match goal with
           | |- context [if ?c then _ else _] => destruct c
           end; simpl; intros [= <-]; simpl; rewrite !elem_of_cons; naive_solver.
  - intros [= <-]. by left.
Qed.

(** X8.  Whatever goes wrong inside a write method of the write-through
    resources, its caller sees one of five kinds of exception:
    [ValueError], exactly when the dispatcher has no API connection, and
    otherwise an authentication, validation, not-found or generic API
    failure.  A rate-limit failure, a validation failure of the keyword
    arguments and every error of Python itself surface as the generic
    API failure. *)
Theorem write_methods_raise_five_kinds (m : write_method) (self : Resource)
    (a1 a2 a3 : pyval) (kwargs : gmap string pyval) (w : World) (e : exn) :
  (write_call m self a1 a2 a3 kwargs w).1.1 = Raise e →
  exn_cls e ∈ [ValueError; AuthenticationError; ValidationError; NotFoundError; APIError]
  ∧ (exn_cls e = ValueError ↔ api self = None).
Proof.
  intros He.
  assert ((api self = None ∧ exn_cls e = ValueError)
          ∨ (is_Some (api self)
             ∧ exn_cls e ∈ [AuthenticationError; ValidationError; NotFoundError; APIError]))
    as Hcases.
  { destruct m; simpl in He; by eapply api_write_only_raises. }
  destruct Hcases as [[Hnone ->]|[[conn Hsome] Hin]].
  - split; [|done]. rewrite elem_of_cons. by left.
  - split; [rewrite elem_of_cons; by right|]. rewrite Hsome. split; [|done].
    intros Hv. rewrite Hv, !elem_of_cons, elem_of_nil in Hin.
    destruct Hin as [Hc|[Hc|[Hc|[Hc|[]]]]]; discriminate Hc.
Qed.

(** X9.  [get_members] and [get_teams] catch every exception of the
    backend they read from: the caller sees a not-found failure when the
    backend raised one, and a generic API failure in every other case. *)
Theorem member_reads_raise_two_kinds (self : Resource) (arg : pyval) (w : World)
    (e : exn) :
  (Teams_get_members self arg w).1.1 = Raise e
  ∨ (Users_get_teams self arg w).1.1 = Raise e →
  exn_cls e = NotFoundError ∨ exn_cls e = APIError.
Proof.
  unfold Teams_get_members, Users_get_teams.
  intros [(e0 & w1 & He)%try_except_raises|(e0 & w1 & He)%try_except_raises];
    revert He; destruct (isinstance e0 NotFoundError); simpl; intros [= <-]; auto.
Qed.

Lemma handle_response_authentication (response : Response) cls detail :
  status_code response = 401 ∨ status_code response = 403 →
  error_detail_of response = Ok detail →
  _handle_response response cls =
    Raise (Exn AuthenticationError (py_str (py_or detail (PStr "Authentication failed")))).
Proof.
  intros Hs Hd. unfold _handle_response, raise_for_status. rewrite Hd.
  by destruct Hs as [-> | ->].
Qed.

Lemma handle_response_not_found (response : Response) cls detail :
  status_code response = 404 →
  error_detail_of response = Ok detail →
  _handle_response response cls =
    Raise (Exn NotFoundError (py_str (py_or detail (PStr "Resource not found")))).
Proof.
  intros Hs Hd. unfold _handle_response, raise_for_status. rewrite Hd.
  by rewrite Hs.
Qed.

(** X10.  An authentication failure keeps its kind in the decorated write
    methods but loses it in [get_members] and [get_teams]: when the
    service answers 401 or 403, [activate] raises an authentication
    failure, whereas the two reads, which re-raise everything but a
    not-found failure as generic, raise [APIError] itself. *)
Theorem member_reads_hide_authentication_failures (self : Resource)
    (conn : APIConnection) (arg : pyval) (response : Response) (detail : pyval)
    (w : World) :
  api self = Some conn →
  conn_truthy (db self) && negb (mixed_mode self) = false →
  (∀ rq, w_http w rq = Ok response) →
  status_code response = 401 ∨ status_code response = 403 →
  error_detail_of response = Ok detail →
  let reason := py_str (py_or detail (PStr "Authentication failed")) in
  (Teams_get_members self arg w).1.1 =
    Raise (Exn APIError
             ("Error retrieving members for team " +:+ py_str arg +:+ ": " +:+ reason))
  ∧ (Users_get_teams self arg w).1.1 =
    Raise (Exn APIError
             ("Error retrieving teams for user " +:+ py_str arg +:+ ": " +:+ reason))
  ∧ (Users_activate self arg w).1.1 =
    Raise (Exn AuthenticationError
             ("Failed to authenticate when performing activate: " +:+ reason)).
Proof.
  intros Hapi Hmode Hresp Hs Hd reason. subst reason.
  pose proof (λ cls, handle_response_authentication response cls detail Hs Hd) as Hh.
  split_and!.
  - unfold Teams_get_members, try_except, _get_id_from_arg. rewrite Hmode.
    erewrite bind_ok; [|by apply self_api_some]. cbv beta iota.
    rewrite APIConnection_list_run by apply kwargs_clear_empty.
    rewrite Hresp. simpl. by rewrite Hh.
  - unfold Users_get_teams, try_except, _get_id_from_arg. rewrite Hmode.
    erewrite bind_ok; [|by apply self_api_some]. cbv beta iota.
    rewrite APIConnection_list_run by apply kwargs_clear_empty.
    rewrite Hresp. simpl. by rewrite Hh.
  - unfold Users_activate, api_write_only, try_except. rewrite Hapi. simpl.
    erewrite bind_ok; [|by apply self_api_some]. cbv beta iota.
    rewrite APIConnection_create_run, Hresp. simpl. by rewrite Hh.
Qed.

End ErrorKinds.

Section PureModes.
Context `{Hpy : PyLib} `{Hpd : !Pydantic}.

Lemma DatabaseConnection_create_enters self name data mc w :
  enters (DbCreate name data) (DatabaseConnection_create self name data mc) w.
Proof. apply enters_emit_bind. Qed.

Lemma DatabaseConnection_update_enters self name id data mc w :
  enters (DbUpdate name id data) (DatabaseConnection_update self name id data mc) w.
Proof. apply enters_emit_bind. Qed.

Lemma DatabaseConnection_delete_enters self name id w :
  enters (DbDelete name id) (DatabaseConnection_delete self name id) w.
Proof. apply enters_emit_bind. Qed.

Lemma ResourceMixin_create_db self conn kwargs data w :
  db self = Some conn →
  mixed_mode self = false →
  call_model_class (create_model_class_of (r_class self)) kwargs = Ok data →
  uses_db (DbCreate (resource_name_of (r_class self)) data) (ResourceMixin_create self kwargs) w.
Proof.
  intros Hdb Hc Hd. unfold uses_db, ResourceMixin_create. rewrite Hdb, Hc, Hd. simpl.
  split; [|split; [done|]].
  - eapply enters_bind_r; [reflexivity|].
    eapply enters_bind_r; [by apply self_db_some|].
    apply enters_bind_l, DatabaseConnection_create_enters.
  - apply logs_only_db_no_api. solve_logs.
Qed.

Lemma ResourceMixin_update_db self conn id_or_key kwargs data w :
  db self = Some conn →
  mixed_mode self = false →
  call_model_class (update_model_class_of (r_class self)) kwargs = Ok data →
  uses_db (DbUpdate (resource_name_of (r_class self)) (py_str id_or_key) data)
    (ResourceMixin_update self id_or_key kwargs) w.
Proof.
  intros Hdb Hc Hd. unfold uses_db, ResourceMixin_update. rewrite Hdb, Hc, Hd. simpl.
  split; [|split; [done|]].
  - eapply enters_bind_r; [reflexivity|].
    eapply enters_bind_r; [by apply self_db_some|].
    apply enters_bind_l, DatabaseConnection_update_enters.
  - apply logs_only_db_no_api. solve_logs.
Qed.

Lemma ResourceMixin_delete_db self conn id_or_key kwargs w :
  db self = Some conn →
  mixed_mode self = false →
  uses_db (DbDelete (resource_name_of (r_class self)) (py_str id_or_key))
    (ResourceMixin_delete self id_or_key kwargs) w.
Proof.
  intros Hdb Hc. unfold uses_db, ResourceMixin_delete. rewrite Hdb, Hc. simpl.
  split; [|split; [done|]].
  - eapply enters_bind_r; [by apply self_db_some|].
    apply enters_bind_l, DatabaseConnection_delete_enters.
  - apply logs_only_db_no_api. solve_logs.
Qed.

(** X11.  A dispatcher of a standard resource constructed with a database
    connection only sends all five operations to the database backend and
    produces no API event: [list], [get] and [delete] always, [create]
    and [update] whenever the keyword arguments are accepted by the create
    or update model.  (Keyword arguments forwarded by [list] must not name
    a positional parameter of the backend method.) *)
Theorem database_only_standard_dispatch (cls : resource_class)
    (dbc : DatabaseConnection) (self : Resource)
    (id_or_key : pyval) (kwargs : gmap string pyval) (w : World) :
  standard cls = true →
  ResourceBase_init cls (Some dbc) None = Ok self →
  let name := resource_name_of cls in
  let item_id := py_str id_or_key in
  (db_list_kwargs kwargs = true →
     uses_db (DbList name kwargs) (ResourceMixin_list self kwargs) w)
  ∧ uses_db (DbGet name item_id) (ResourceMixin_get self id_or_key kwargs) w
  ∧ (∀ data, call_model_class (create_model_class_of cls) kwargs = Ok data →
     uses_db (DbCreate name data) (ResourceMixin_create self kwargs) w)
  ∧ (∀ data, call_model_class (update_model_class_of cls) kwargs = Ok data →
     uses_db (DbUpdate name item_id data) (ResourceMixin_update self id_or_key kwargs) w)
  ∧ uses_db (DbDelete name item_id) (ResourceMixin_delete self id_or_key kwargs) w.
Proof.
  intros _ ->%ResourceBase_init_ok name item_id. subst name item_id.
  split_and!.
  - intros Hk. by on_self ResourceMixin_list_db.
  - by on_self ResourceMixin_get_db.
  - intros data Hd. by on_self ResourceMixin_create_db.
  - intros data Hd. by on_self ResourceMixin_update_db.
  - by on_self ResourceMixin_delete_db.
Qed.

(** X12.  A dispatcher of a standard resource constructed with an API
    connection only sends all five operations to the API backend and
    produces no database event, whatever [force_api] is: [list], [get]
    and [delete] always, [create] and [update] whenever the keyword
    arguments are accepted by the create or update model.  (Keyword
    arguments forwarded by [list] must not name a positional parameter of
    the backend method.) *)
Theorem api_only_standard_dispatch (cls : resource_class)
    (apic : APIConnection) (self : Resource)
    (id_or_key : pyval) (kwargs : gmap string pyval) (w : World) :
  standard cls = true →
  ResourceBase_init cls None (Some apic) = Ok self →
  let name := resource_name_of cls in
  let item_id := py_str id_or_key in
  (api_list_kwargs kwargs = true →
     uses_api (ApiList name kwargs) (ResourceMixin_list self kwargs) w)
  ∧ uses_api (ApiGet name item_id) (ResourceMixin_get self id_or_key kwargs) w
  ∧ (∀ data, call_model_class (create_model_class_of cls) kwargs = Ok data →
     uses_api (ApiCreate name (DataModel data)) (ResourceMixin_create self kwargs) w)
  ∧ (∀ data, call_model_class (update_model_class_of cls) kwargs = Ok data →
     uses_api (ApiUpdate name item_id (DataModel data))
       (ResourceMixin_update self id_or_key kwargs) w)
  ∧ uses_api (ApiDelete name item_id) (ResourceMixin_delete self id_or_key kwargs) w.
Proof.
  intros _ ->%ResourceBase_init_ok name item_id. subst name item_id.
  split_and!.
  - intros Hk. by on_self ResourceMixin_list_api.
  - by on_self ResourceMixin_get_api.
  - intros data Hd. by on_self ResourceMixin_create_api.
  - intros data Hd. by on_self ResourceMixin_update_api.
  - by on_self ResourceMixin_delete_api.
Qed.

End PureModes.

(* ===================================================================== *)
(** * 9b. Further properties of the database backend                      *)
(* ===================================================================== *)

Section Frames.
Context `{Hpy : PyLib} `{Hpd : !Pydantic}.

Lemma preserves_ret {X} (f : World → X) {A} (a : A) : preserves f (mret a).
Proof. by intros w. Qed.

Lemma preserves_raise {X} (f : World → X) {A} (e : exn) : preserves f (raise e : M A).
Proof. by intros w. Qed.

Lemma preserves_lift {X} (f : World → X) {A} (r : result A) : preserves f (lift r).
Proof. by intros w. Qed.

Lemma preserves_emit {X} (f : World → X) (e : event) : preserves f (emit e).
Proof. by intros w. Qed.

Lemma preserves_get_world {X} (f : World → X) : preserves f get_world.
Proof. by intros w. Qed.

Lemma preserves_bind {X} (f : World → X) {A B} (m : M A) (k : A → M B) :
  preserves f m → (∀ a, preserves f (k a)) → preserves f (m ≫= k).
Proof.
  intros Hm Hk w. unfold mbind, M_bind, bind.
  specialize (Hm w). destruct (m w) as [[[a|e] w1] l1]; simpl in *; [|done].
  specialize (Hk a w1). destruct (k a w1) as [[r w2] l2]; simpl in *. congruence.
Qed.

Lemma preserves_bind_post {X} (f : World → X) {A B} (m : M A) (k : A → M B)
    (P : A → Prop) :
  preserves f m →
  (∀ w, match (m w).1.1 with Ok a => P a | Raise _ => True end) →
  (∀ a, P a → preserves f (k a)) →
  preserves f (m ≫= k).
Proof.
  intros Hm HP Hk w. unfold mbind, M_bind, bind.
  specialize (Hm w). specialize (HP w).
  destruct (m w) as [[[a|e] w1] l1]; simpl in *; [|done].
  specialize (Hk a HP w1). destruct (k a w1) as [[r w2] l2]; simpl in *. congruence.
Qed.

Lemma preserves_try_except {X} (f : World → X) {A} (m : M A) (h : exn → M A) :
  preserves f m → (∀ e, preserves f (h e)) → preserves f (try_except m h).
Proof.
  intros Hm Hh w. unfold try_except.
  specialize (Hm w). destruct (m w) as [[[a|e] w1] l1]; simpl in *; [done|].
  specialize (Hh e w1). destruct (h e w1) as [[r w2] l2]; simpl in *. congruence.
Qed.

Lemma preserves_bind_kwargs {X} (f : World → X) fname pos (kw : gmap string pyval) :
  preserves f (bind_kwargs fname pos kw).
Proof. intros w. unfold bind_kwargs. by destruct (kwargs_clear _ _). Qed.

Lemma preserves_session_request {X} (f : World → X) rq : preserves f (session_request rq).
Proof. by intros w. Qed.

Lemma preserves_self_db {X} (f : World → X) self : preserves f (self_db self).
Proof. intros w. unfold self_db. by destruct (db self). Qed.

Lemma preserves_self_api {X} (f : World → X) self : preserves f (self_api self).
Proof. intros w. unfold self_api. by destruct (api self). Qed.

Lemma preserves_transaction_table other {A} (m : M A) :
  preserves (table_of other) m → preserves (table_of other) (transaction m).
Proof.
  intros Hm w. unfold transaction.
  specialize (Hm w). by destruct (m w) as [[[a|e] w1] l1].
Qed.

Lemma preserves_uuid4_table other : preserves (table_of other) uuid4.
Proof. by intros w. Qed.

Lemma preserves_set_rows other tbl t rows :
  tbl ≠ other → preserves (table_of other) (set_rows tbl t rows).
Proof. intros Hne w. unfold table_of. simpl. by rewrite lookup_insert_ne. Qed.

End Frames.

Create HintDb frames discriminated.
#[export] Hint Resolve preserves_ret preserves_raise preserves_lift preserves_emit
  preserves_get_world preserves_bind_kwargs preserves_session_request
  preserves_self_db preserves_self_api preserves_uuid4_table : frames.

Ltac solve_preserves :=
  repeat first
    [ progress intros
    | solve [ auto with frames ]
    | apply preserves_bind
    | apply preserves_try_except
    | apply preserves_transaction_table
    | match goal with
      | |- preserves _ (match ?x with _ => _ end) => destruct x
      | |- preserves _ (if ?x then _ else _) => destruct x
      | |- preserves _ (let _ := _ in _) => cbv zeta
      end ].

Section ReadOnly.
Context `{Hpy : PyLib} `{Hpd : !Pydantic}.

Lemma preserves_engine_table {X} (f : World → X) tbl : preserves f (engine_table tbl).
Proof. unfold engine_table, engine_error. solve_preserves. Qed.

Lemma preserves__get_table {X} (f : World → X) self name : preserves f (_get_table self name).
Proof. unfold _get_table. solve_preserves. Qed.

Lemma preserves_column {X} (f : World → X) t name : preserves f (column t name).
Proof. unfold column. solve_preserves. Qed.

Hint Resolve preserves_engine_table preserves__get_table preserves_column : frames.

Lemma preserves_select {X} (f : World → X) tbl wheres :
  preserves f (conn_execute (Select tbl wheres)).
Proof. unfold conn_execute. solve_preserves. Qed.

Lemma preserves_team_members_join {X} (f : World → X) team_id :
  preserves f (conn_execute (TeamMembersJoin team_id)).
Proof. unfold conn_execute. solve_preserves. Qed.

Lemma preserves_user_teams_join {X} (f : World → X) user_id :
  preserves f (conn_execute (UserTeamsJoin user_id)).
Proof. unfold conn_execute. solve_preserves. Qed.

Hint Resolve preserves_select preserves_team_members_join preserves_user_teams_join
  : frames.

Lemma preserves_request {X} (f : World → X) self method path mc data params :
  preserves f (request self method path mc data params).
Proof. unfold request. solve_preserves. Qed.

Hint Resolve preserves_request : frames.

Lemma preserves_APIConnection_list {X} (f : World → X) self path mc params :
  preserves f (APIConnection_list self path mc params).
Proof. unfold APIConnection_list. solve_preserves. Qed.

Lemma preserves_APIConnection_get {X} (f : World → X) self path id mc :
  preserves f (APIConnection_get self path id mc).
Proof. unfold APIConnection_get. solve_preserves. Qed.

Lemma preserves_DatabaseConnection_list {X} (f : World → X) self name mc filters :
  preserves f (DatabaseConnection_list self name mc filters).
Proof. unfold DatabaseConnection_list. solve_preserves. Qed.

Lemma preserves_DatabaseConnection_get {X} (f : World → X) self name id mc :
  preserves f (DatabaseConnection_get self name id mc).
Proof.
  unfold DatabaseConnection_get.
  apply preserves_bind; [solve_preserves|intros _].
  apply preserves_bind; [solve_preserves|intros t].
  apply (preserves_bind_post f _ _ (λ q, ∃ c, q = Select name [c])).
  - solve_preserves.
  - intros w. destruct (uuid_UUID id) as [u|];
      unfold mbind, M_bind, bind, column;
      destruct (has_column t _); simpl; try done; by eexists.
  - intros q [c ->]. solve_preserves.
Qed.

Lemma preserves_DatabaseConnection_get_team_members {X} (f : World → X) self id :
  preserves f (DatabaseConnection_get_team_members self id).
Proof. unfold DatabaseConnection_get_team_members. solve_preserves. Qed.

Lemma preserves_DatabaseConnection_get_user_teams {X} (f : World → X) self id :
  preserves f (DatabaseConnection_get_user_teams self id).
Proof. unfold DatabaseConnection_get_user_teams. solve_preserves. Qed.

Hint Resolve preserves_APIConnection_list preserves_APIConnection_get
  preserves_DatabaseConnection_list preserves_DatabaseConnection_get
  preserves_DatabaseConnection_get_team_members
  preserves_DatabaseConnection_get_user_teams : frames.

Lemma preserves_ResourceMixin_list {X} (f : World → X) self kwargs :
  preserves f (ResourceMixin_list self kwargs).
Proof. unfold ResourceMixin_list. solve_preserves. Qed.

Lemma preserves_ResourceMixin_get {X} (f : World → X) self arg kwargs :
  preserves f (ResourceMixin_get self arg kwargs).
Proof. unfold ResourceMixin_get. solve_preserves. Qed.

Lemma preserves_Projects_get_prompts {X} (f : World → X) self arg :
  preserves f (Projects_get_prompts self arg).
Proof. unfold Projects_get_prompts. solve_preserves. Qed.

Lemma preserves_Prompts_get_versions {X} (f : World → X) self arg :
  preserves f (Prompts_get_versions self arg).
Proof. unfold Prompts_get_versions. solve_preserves. Qed.

Lemma preserves_Teams_get_members {X} (f : World → X) self arg :
  preserves f (Teams_get_members self arg).
Proof. unfold Teams_get_members. solve_preserves. Qed.

Lemma preserves_Users_get_teams {X} (f : World → X) self arg :
  preserves f (Users_get_teams self arg).
Proof. unfold Users_get_teams. solve_preserves. Qed.

Lemma preserves_Activities_list_for_user {X} (f : World → X) self arg kwargs :
  preserves f (Activities_list_for_user self arg kwargs).
Proof. unfold Activities_list_for_user, with_user_id. solve_preserves. Qed.

(** X13.  The read operations of a dispatcher change nothing: after
    [list], [get], [get_prompts], [get_versions], [get_members],
    [get_teams] or [list_for_user], in any mode and whether the call
    returns or raises, every table has the rows it had and no UUID has
    been drawn. *)
Theorem reads_change_nothing (self : Resource) (arg : pyval)
    (kwargs : gmap string pyval) (w : World) :
  (ResourceMixin_list self kwargs w).1.2 = w
  ∧ (ResourceMixin_get self arg kwargs w).1.2 = w
  ∧ (Projects_get_prompts self arg w).1.2 = w
  ∧ (Prompts_get_versions self arg w).1.2 = w
  ∧ (Teams_get_members self arg w).1.2 = w
  ∧ (Users_get_teams self arg w).1.2 = w
  ∧ (Activities_list_for_user self arg kwargs w).1.2 = w.
Proof.
  split_and!.
  - apply (preserves_ResourceMixin_list (λ w, w)).
  - apply (preserves_ResourceMixin_get (λ w, w)).
  - apply (preserves_Projects_get_prompts (λ w, w)).
  - apply (preserves_Prompts_get_versions (λ w, w)).
  - apply (preserves_Teams_get_members (λ w, w)).
  - apply (preserves_Users_get_teams (λ w, w)).
  - apply (preserves_Activities_list_for_user (λ w, w)).
Qed.

End ReadOnly.

Section OtherTables.
Context `{Hpy : PyLib} `{Hpd : !Pydantic}.

Hint Resolve preserves_engine_table preserves__get_table preserves_column : frames.
Hint Extern 1 (preserves (table_of _) (set_rows _ _ _)) =>
  (apply preserves_set_rows; assumption) : frames.

Lemma preserves_insert_other other tbl values :
  tbl ≠ other → preserves (table_of other) (conn_execute (Insert tbl values)).
Proof.
  intros Hne. unfold conn_execute, engine_error. solve_preserves.
Qed.

Lemma preserves_update_other other tbl c values :
  tbl ≠ other → preserves (table_of other) (conn_execute (UpdateStmt tbl c values)).
Proof.
  intros Hne. unfold conn_execute, engine_error. solve_preserves.
Qed.

Lemma preserves_delete_other other tbl c :
  tbl ≠ other → preserves (table_of other) (conn_execute (DeleteStmt tbl c)).
Proof.
  intros Hne. unfold conn_execute. solve_preserves.
Qed.

Hint Resolve preserves_select : frames.
Hint Extern 1 (preserves (table_of _) (conn_execute (Insert _ _))) =>
  (apply preserves_insert_other; assumption) : frames.
Hint Extern 1 (preserves (table_of _) (conn_execute (UpdateStmt _ _ _))) =>
  (apply preserves_update_other; assumption) : frames.
Hint Extern 1 (preserves (table_of _) (conn_execute (DeleteStmt _ _))) =>
  (apply preserves_delete_other; assumption) : frames.

(** X14.  [create], [update] and [delete] of the database backend write
    to the table of the resource they are called for and to no other:
    every other table has the same columns and rows afterwards, whether
    the call returns or raises. *)
Theorem db_writes_touch_one_table (self : DatabaseConnection) (name other s : string)
    (data : Model) (mc : model_class) (w : World) :
  name ≠ other →
  w_tables (DatabaseConnection_create self name data mc w).1.2 !! other
    = w_tables w !! other
  ∧ w_tables (DatabaseConnection_update self name s data mc w).1.2 !! other
    = w_tables w !! other
  ∧ w_tables (DatabaseConnection_delete self name s w).1.2 !! other
    = w_tables w !! other.
Proof.
  intros Hne. split_and!.
  - assert (preserves (table_of other) (DatabaseConnection_create self name data mc))
      as Hp; [|apply Hp].
    unfold DatabaseConnection_create. solve_preserves.
  - assert (preserves (table_of other) (DatabaseConnection_update self name s data mc))
      as Hp; [|apply Hp].
    unfold DatabaseConnection_update. solve_preserves.
  - assert (preserves (table_of other) (DatabaseConnection_delete self name s))
      as Hp; [|apply Hp].
    unfold DatabaseConnection_delete. solve_preserves.
Qed.

End OtherTables.

Section UnknownTable.
Context `{Hpy : PyLib} `{Hpd : !Pydantic}.

Lemma _get_table_missing self name w :
  w_tables w !! name = None →
  _get_table self name w = (table_not_found name, w, []).
Proof. intros Ht. unfold _get_table, mbind, M_bind, bind, get_world. by rewrite Ht. Qed.

(** X15.  Called for a resource name that is no table of the schema, each
    of [list], [get], [create], [update] and [delete] of the database
    backend raises [ValueError] naming the table, before any statement is
    executed: the log holds the entry into the method only, no UUID is
    drawn and the world is unchanged. *)
Theorem db_unknown_table_raises_value_error (self : DatabaseConnection)
    (name s : string) (data : Model) (mc : model_class)
    (filters : gmap string pyval) (w : World) :
  w_tables w !! name = None →
  DatabaseConnection_list self name mc filters w =
    (if db_list_kwargs filters
     then (table_not_found name, w, [Call (DbList name filters)])
     else (Raise (Exn TypeError "list() got multiple values for an argument"), w, []))
  ∧ DatabaseConnection_get self name s mc w =
      (table_not_found name, w, [Call (DbGet name s)])
  ∧ DatabaseConnection_create self name data mc w =
      (table_not_found name, w, [Call (DbCreate name data)])
  ∧ DatabaseConnection_update self name s data mc w =
      (table_not_found name, w, [Call (DbUpdate name s data)])
  ∧ DatabaseConnection_delete self name s w =
      (table_not_found name, w, [Call (DbDelete name s)]).
Proof.
  intros Ht. split_and!.
  - unfold DatabaseConnection_list. destruct (db_list_kwargs filters) eqn:Hk.
    + erewrite bind_ok; [|by apply bind_kwargs_ok]. cbv beta iota.
      rewrite emit_bind_run.
      erewrite bind_raise; [|by apply _get_table_missing]. done.
    + unfold bind_kwargs. unfold db_list_kwargs in Hk. by rewrite Hk.
  - unfold DatabaseConnection_get. rewrite emit_bind_run.
    erewrite bind_raise; [|by apply _get_table_missing]. done.
  - unfold DatabaseConnection_create. rewrite emit_bind_run.
    erewrite bind_raise; [|by apply _get_table_missing]. done.
  - unfold DatabaseConnection_update. rewrite emit_bind_run.
    erewrite bind_raise; [|by apply _get_table_missing]. done.
  - unfold DatabaseConnection_delete. rewrite emit_bind_run.
    erewrite bind_raise; [|by apply _get_table_missing]. done.
Qed.

End UnknownTable.

Section ListFilters.
Context `{Hpy : PyLib} `{Hpd : !Pydantic}.

Lemma wheres_satisfied (t : Table) (filters : gmap string pyval) (r : gmap string pyval) :
  forallb (λ c, eval_cond c r)
    ((λ kv, ColEq kv.1 kv.2) <$>
       List.filter (λ kv : string * pyval, has_column t kv.1) (map_to_list filters))
  = bool_decide (satisfies_filters t filters r).
Proof.
  apply Bool.eq_iff_eq_true. rewrite bool_decide_eq_true.
  unfold satisfies_filters. rewrite map_Forall_to_list.
  induction (map_to_list filters) as [|[k v] l IH]; simpl.
  - split; [constructor|done].
  - rewrite Forall_cons. simpl. destruct (has_column t k) eqn:Hk; simpl.
    + rewrite andb_true_iff, IH. split.
      * intros [He Hl]. by split.
      * intros [He Hl]. split; [by apply He|done].
    + rewrite IH. split.
      * intros Hl. by split.
      * by intros [_ Hl].
Qed.

(** X16.  [list] of the database backend, called with filters that are
    named after fields of the model class (or [force_api], which
    [ResourceMixin.list] forwards), returns, in table order, the rows
    that satisfy every filter whose name is a column of the table, and
    leaves the world as it is.  Such a filter that names no column of the
    table does not restrict the result: it is dropped without notice.
    (Filters named after an attribute of the column collection itself,
    such as [keys], are not covered: for them [hasattr(table.c, name)]
    holds although the table has no such column.) *)
Theorem db_list_selects_by_known_columns (self : DatabaseConnection) (name : string)
    (mc : model_class) (filters : gmap string pyval) (t : Table) (w : World) :
  w_tables w !! name = Some t →
  db_list_kwargs filters = true →
  filters_name_fields mc filters →
  (DatabaseConnection_list self name mc filters w).1 =
    (result_mapM (λ row, _row_to_model row mc)
       (List.filter (λ r, bool_decide (satisfies_filters t filters r)) (t_rows t)), w)
  ∧ (∀ k v r, k = "force_api" ∨ is_Some (find_field mc k) →
       has_column t k = false → filters !! k = None →
       satisfies_filters t (<[k := v]> filters) r ↔ satisfies_filters t filters r).
Proof.
  intros Ht Hk _. split.
  - erewrite DatabaseConnection_list_run by done. cbv zeta. simpl. unfold select_rows.
    do 2 f_equal. apply List.filter_ext. intros r. apply wheres_satisfied.
  - intros k v r _ Hcol Hnone. unfold satisfies_filters.
    rewrite map_Forall_insert by done. rewrite Hcol. split.
    + by intros [_ Hm].
    + intros Hm. by split.
Qed.

End ListFilters.

Section RoundTrips.
Context `{Hpy : PyLib} `{Hpd : !Pydantic}.

Lemma eval_cond_uuid_text col u (r : gmap string pyval) :
  eval_cond (ColEq col (PUuid u)) r = eval_cond (ColEq col (PStr (uuid_str u))) r.
Proof. done. Qed.

Lemma id_or_key_condition_uuid u : id_or_key_condition (uuid_str u) = ColEq "id" (PUuid u).
Proof. unfold id_or_key_condition. by rewrite uuid_UUID_str. Qed.

Lemma id_or_key_column_uuid u : id_or_key_column (uuid_str u) = "id".
Proof. unfold id_or_key_column. by rewrite uuid_UUID_str. Qed.

Lemma id_or_key_condition_column s :
  ∃ v, id_or_key_condition s = ColEq (id_or_key_column s) v.
Proof.
  unfold id_or_key_condition, id_or_key_column. destruct (uuid_UUID s); by eexists.
Qed.

Lemma new_row_matches_its_id (t : Table) (values : gmap string pyval) s :
  has_column t "id" = true →
  values !! "id" = Some (PStr s) →
  eval_cond (ColEq "id" (PStr s)) (new_row t values) = true.
Proof.
  intros Hid Hv. unfold eval_cond. rewrite new_row_lookup by done.
  unfold stored_cell. rewrite Hv. unfold sql_eq. simpl. apply String.eqb_refl.
Qed.

(** X17.  [create] followed by [get]: when [create] of the database
    backend is given a model without id, generates one and returns a
    model, then [get] with the text of the generated id, run in the world
    [create] left, returns that same model; and if the model class
    declares [id] as a UUID, the id of the model is the generated one.
    (Premises: the table exists and has the columns of the values, and no
    row has the generated id yet.) *)
Theorem db_create_then_get (self : DatabaseConnection) (name : string)
    (data : Model) (mc : model_class) (t : Table) (w : World) (m : Model) :
  w_tables w !! name = Some t →
  _model_to_dict data !! "id" = None →
  let fresh := w_uuid4 w (w_uuid4_calls w) in
  let values := <["id" := PStr (uuid_str fresh)]> (_model_to_dict data) in
  known_columns t values = true →
  List.filter (eval_cond (ColEq "id" (PStr (uuid_str fresh)))) (t_rows t) = [] →
  let created := DatabaseConnection_create self name data mc w in
  created.1.1 = Ok m →
  (DatabaseConnection_get self name (uuid_str fresh) mc created.1.2).1.1 = Ok (Some m)
  ∧ (uuid_field mc "id" = true → m_fields m !! "id" = Some (PUuid fresh)).
Proof.
  intros Ht Hnone fresh values Hk Hfresh created Hm. subst created.
  rewrite (DatabaseConnection_create_run self name data mc t w Ht Hnone Hk Hfresh)
    in Hm |- *.
  fold fresh in Hm |- *. fold values in Hm |- *. simpl in Hm. cbn [fst snd].
  assert (has_column t "id" = true) as Hid.
  { eapply known_columns_elem; [exact Hk|]. apply lookup_insert_eq. }
  assert (values !! "id" = Some (PStr (uuid_str fresh))) as Hv
    by apply lookup_insert_eq.
  split.
  - erewrite DatabaseConnection_get_run;
      [|apply with_rows_lookup|by rewrite id_or_key_column_uuid].
    cbn [fst snd]. rewrite id_or_key_condition_uuid.
    unfold select_rows. simpl t_rows.
    rewrite filter_single_cond.
    rewrite (List.filter_ext _ _ (eval_cond_uuid_text "id" fresh)).
    rewrite List.filter_app, Hfresh. cbn [List.filter app].
    rewrite new_row_matches_its_id by done. simpl. by rewrite Hm.
  - intros Hu. apply (pydantic_init_uuid mc (new_row t values)).
    + by apply pydantic_call_ok.
    + done.
    + rewrite new_row_lookup by done. unfold stored_cell. by rewrite Hv.
Qed.

Lemma filter_filter_neg {A} (P : A → bool) (l : list A) :
  List.filter P (List.filter (λ x, negb (P x)) l) = [].
Proof.
  induction l as [|x l IH]; [done|]. simpl.
  destruct (P x) eqn:HP; simpl; [done|]. by rewrite HP.
Qed.

Lemma filter_nonempty_iff {A} (P : A → bool) (l : list A) :
  (0 <? length (List.filter P l))%nat = true ↔ ∃ x, x ∈ l ∧ P x = true.
Proof.
  rewrite Nat.ltb_lt. split.
  - destruct (List.filter P l) as [|x l'] eqn:Hf; simpl; [lia|]. intros _.
    assert (List.In x (List.filter P l)) as Hin by (rewrite Hf; by left).
    apply List.filter_In in Hin as [Hin HP]. exists x. by rewrite list_elem_of_In.
  - intros (x & Hin & HP). rewrite list_elem_of_In in Hin.
    assert (List.In x (List.filter P l)) as Hin' by (by apply List.filter_In).
    destruct (List.filter P l); [done|simpl; lia].
Qed.

(** X18.  [delete] followed by [get]: on a table that has the column the
    lookup needs, [delete] of the database backend returns [True] exactly
    when some row matched the id or key; in the world it leaves, [get]
    with the same id or key returns [None] and a second [delete] returns
    [False]. *)
Theorem db_delete_then_get (self : DatabaseConnection) (name s : string)
    (mc : model_class) (t : Table) (w : World) :
  w_tables w !! name = Some t →
  has_column t (id_or_key_column s) = true →
  let deleted := DatabaseConnection_delete self name s w in
  (deleted.1.1 = Ok true ↔
     ∃ r, r ∈ t_rows t ∧ eval_cond (id_or_key_condition s) r = true)
  ∧ (DatabaseConnection_get self name s mc deleted.1.2).1.1 = Ok None
  ∧ (DatabaseConnection_delete self name s deleted.1.2).1.1 = Ok false.
Proof.
  intros Ht Hc deleted. subst deleted.
  rewrite (DatabaseConnection_delete_run self name s t w Ht Hc). cbn [fst snd].
  split_and!.
  - rewrite <- filter_nonempty_iff. split; [by intros [= ->]|by intros ->].
  - erewrite DatabaseConnection_get_run; [|apply with_rows_lookup|done].
    cbn [fst snd]. unfold select_rows. simpl t_rows.
    by rewrite filter_single_cond, filter_filter_neg.
  - erewrite DatabaseConnection_delete_run; [|apply with_rows_lookup|done].
    simpl. by rewrite filter_filter_neg.
Qed.

Lemma eval_cond_union (values r : gmap string pyval) col v :
  values !! col = None →
  eval_cond (ColEq col v) (values ∪ r) = eval_cond (ColEq col v) r.
Proof. intros Hv. unfold eval_cond. by rewrite lookup_union_r. Qed.

Lemma filter_updated_rows (t : Table) (c : cond) (values : gmap string pyval) :
  (∀ r, eval_cond c (values ∪ r) = eval_cond c r) →
  List.filter (eval_cond c) (updated_rows t c values)
    = (λ r, values ∪ r) <$> List.filter (eval_cond c) (t_rows t).
Proof.
  intros Hsame. unfold updated_rows.
  induction (t_rows t) as [|r l IH]; [done|].
  rewrite fmap_cons. simpl. destruct (eval_cond c r) eqn:Hr.
  - rewrite Hsame, Hr, fmap_cons. by f_equal.
  - by rewrite Hr.
Qed.

Lemma head_updated_rows (t : Table) (s : string) (values row : gmap string pyval) :
  values !! id_or_key_column s = None →
  head (List.filter (eval_cond (id_or_key_condition s)) (t_rows t)) = Some row →
  head (List.filter (eval_cond (id_or_key_condition s))
          (updated_rows t (id_or_key_condition s) values))
    = Some (values ∪ row).
Proof.
  intros Hcol Hrow. rewrite filter_updated_rows.
  - destruct (List.filter _ (t_rows t)) as [|r0 l]; [done|].
    simpl in Hrow. by injection Hrow as ->.
  - intros r. destruct (id_or_key_condition_column s) as [v ->].
    by apply eval_cond_union.
Qed.

(** X19.  [update] followed by [get]: when the id or key matches a row
    and the update model sets at least one field, the column of the
    lookup not among them, [update] of the database backend returns the
    model of the first matching row with the values written over it, and
    [get] with the same id or key, run in the world [update] left,
    returns that same model: what [update] returns is the stored state.
    (An update model with no field set is not covered: the engine rejects
    an UPDATE without values.) *)
Theorem db_update_then_get (self : DatabaseConnection) (name s : string)
    (data : Model) (mc : model_class) (t : Table) (w : World)
    (row : gmap string pyval) :
  w_tables w !! name = Some t →
  has_column t (id_or_key_column s) = true →
  let values := _model_to_dict data in
  values ≠ ∅ →
  known_columns t values = true →
  values !! id_or_key_column s = None →
  head (List.filter (eval_cond (id_or_key_condition s)) (t_rows t)) = Some row →
  let updated := DatabaseConnection_update self name s data mc w in
  updated.1.1 = _row_to_model (values ∪ row) mc
  ∧ (DatabaseConnection_get self name s mc updated.1.2).1.1 =
      result_bind (_row_to_model (values ∪ row) mc) (λ m, Ok (Some m)).
Proof.
  intros Ht Hc values _ Hk Hcol Hrow updated. subst updated.
  rewrite (DatabaseConnection_update_run self name s data mc t w Ht Hc Hk).
  cbv zeta. cbn [fst snd]. fold values.
  pose proof (head_updated_rows t s values row Hcol Hrow) as Hhead.
  split.
  - by rewrite filter_single_cond, Hhead.
  - erewrite DatabaseConnection_get_run; [|apply with_rows_lookup|done].
    cbn [fst snd]. unfold select_rows. simpl t_rows.
    by rewrite filter_single_cond, Hhead.
Qed.

End RoundTrips.

(* ===================================================================== *)
(** * 9c. Further properties of the dispatchers                           *)
(* ===================================================================== *)

Section VersionLineage.
Context `{Hpy : PyLib} `{Hpd : !Pydantic}.

Lemma parent_id_is_no_parameter :
  "parent_id" ∉ ["self"; "resource_name"; "model_class"].
Proof. rewrite !not_elem_of_cons. repeat split; try done. apply not_elem_of_nil. Qed.

Lemma head_filter_app {A} (P : A → bool) (l l' : list A) x :
  head (List.filter P l) = Some x → head (List.filter P (l ++ l')) = Some x.
Proof.
  intros Hx. rewrite List.filter_app. by destruct (List.filter P l).
Qed.

(** [get_versions] on a database-only dispatcher, for a prompt that is
    found. *)
Lemma Prompts_get_versions_run (conn : DatabaseConnection) (id_or_key : pyval)
    (t : Table) (w : World) (row : gmap string pyval) (prompt : Model)
    (parent_id id : pyval) :
  let self := {| r_class := Prompts; db := Some conn; api := None; mixed_mode := false |} in
  w_tables w !! "prompts" = Some t →
  has_column t (id_or_key_column (py_str id_or_key)) = true →
  has_column t "parent_id" = true →
  head (List.filter (eval_cond (id_or_key_condition (py_str id_or_key))) (t_rows t))
    = Some row →
  _row_to_model row Prompt = Ok prompt →
  m_fields prompt !! "parent_id" = Some parent_id →
  m_fields prompt !! "id" = Some id →
  (Prompts_get_versions self id_or_key w).1 =
    (result_bind
       (result_mapM (λ r, _row_to_model r Prompt)
          (List.filter (eval_cond (ColEq "parent_id" (py_or parent_id id))) (t_rows t)))
       (λ ms, Ok (OModels ms)), w).
Proof.
  intros self Ht Hc Hp Hrow Hm Hpar Hid.
  unfold Prompts_get_versions, _get_id_from_arg. simpl.
  erewrite bind_ok; [|by apply self_db_some]. cbv beta iota.
  erewrite bind_ok; cycle 1.
  { erewrite DatabaseConnection_get_run by done.
    unfold select_rows. rewrite filter_single_cond, Hrow, Hm. done. }
  cbv beta iota. unfold attr_of_fetched, model_getattr. rewrite Hpar, Hid.
  rewrite lift_ok_bind.
  assert ((if py_truthy parent_id then mret parent_id else lift (Ok id)) w
          = (Ok (py_or parent_id id), w, [])) as Hroot.
  { unfold py_or. by destruct (py_truthy parent_id). }
  erewrite bind_ok; [|exact Hroot]. cbv beta iota.
  pose proof (DatabaseConnection_list_by_column conn "prompts" Prompt
                "parent_id" (py_or parent_id id) t w Ht
                parent_id_is_no_parameter Hp) as Hl.
  destruct (result_mapM _ _) as [ms|e].
  - erewrite bind_ok; [|exact Hl]. done.
  - erewrite bind_raise; [|exact Hl]. done.
Qed.

(** [create_version] on a database-only dispatcher, for a parent that is
    found. *)
Lemma Prompts_create_version_run (conn : DatabaseConnection) (id_or_key : pyval)
    (kwargs : gmap string pyval) (data : Model) (t : Table) (w : World)
    (prow : gmap string pyval) (parent : Model) (pid : uuid) :
  let self := {| r_class := Prompts; db := Some conn; api := None; mixed_mode := false |} in
  pydantic_call PromptCreate kwargs = Ok data →
  w_tables w !! "prompts" = Some t →
  has_column t (id_or_key_column (py_str id_or_key)) = true →
  head (List.filter (eval_cond (id_or_key_condition (py_str id_or_key))) (t_rows t))
    = Some prow →
  _row_to_model prow Prompt = Ok parent →
  m_fields parent !! "id" = Some (PUuid pid) →
  let values :=
    <["id" := PStr (uuid_str (w_uuid4 w (w_uuid4_calls w)))]>
      (_model_to_dict (with_parent data (PUuid pid))) in
  known_columns t values = true →
  List.filter (eval_cond (ColEq "id" (PStr (uuid_str (w_uuid4 w (w_uuid4_calls w))))))
    (t_rows t) = [] →
  (Prompts_create_version self id_or_key kwargs w).1 =
    (result_bind (_row_to_model (new_row t values) Prompt) (λ m, Ok (OModel m)),
     with_rows (tick w) "prompts" t (t_rows t ++ [new_row t values]))
  ∧ values !! "parent_id" = Some (PStr (uuid_str pid)).
Proof.
  intros self Hdata Ht Hc Hrow Hparent Hpid values Hk Hfresh.
  pose proof (pydantic_call_ok _ _ _ Hdata) as Hinit.
  assert (model_setattr data "parent_id" (PUuid pid) = Ok (with_parent data (PUuid pid)))
    as Hset.
  { unfold model_setattr.
    destruct (find_field (m_class data) "parent_id") eqn:Hf; [done|].
    by rewrite (pydantic_init_class _ _ _ Hinit) in Hf. }
  assert (_model_to_dict (with_parent data (PUuid pid)) !! "id" = None) as Hnoid.
  { apply model_to_dict_no_id. by eapply pydantic_init_declared. }
  split.
  - unfold Prompts_create_version, _get_id_from_arg. simpl. rewrite Hdata.
    rewrite lift_ok_bind.
    erewrite bind_ok; [|by apply self_db_some]. cbv beta iota.
    erewrite bind_ok; cycle 1.
    { erewrite DatabaseConnection_get_run by done.
      unfold select_rows. rewrite filter_single_cond, Hrow, Hparent. done. }
    cbv beta iota. unfold attr_of_fetched, model_getattr. rewrite Hpid.
    rewrite lift_ok_bind, Hset, lift_ok_bind.
    pose proof (DatabaseConnection_create_run conn "prompts"
                  (with_parent data (PUuid pid)) Prompt t w Ht Hnoid Hk Hfresh) as Hcr.
    cbv zeta in Hcr. fold values in Hcr.
    destruct (_row_to_model (new_row t values) Prompt) as [m|e].
    + erewrite bind_ok; [|exact Hcr]. done.
    + erewrite bind_raise; [|exact Hcr]. done.
  - unfold values. rewrite lookup_insert_ne by done. apply model_to_dict_with_parent.
Qed.

Lemma uuid_str_inj (u v : uuid) : uuid_str u = uuid_str v → u = v.
Proof.
  intros Heq. pose proof (uuid_UUID_str u) as Hu. rewrite Heq, uuid_UUID_str in Hu.
  by injection Hu.
Qed.

Lemma new_row_parent_selected (t : Table) (values : gmap string pyval) (pid q : uuid) :
  has_column t "parent_id" = true →
  values !! "parent_id" = Some (PStr (uuid_str pid)) →
  eval_cond (ColEq "parent_id" (PUuid q)) (new_row t values) = bool_decide (pid = q).
Proof.
  intros Hcol Hv. unfold eval_cond. rewrite new_row_lookup by done.
  unfold stored_cell. rewrite Hv. unfold sql_eq. simpl.
  destruct (decide (pid = q)) as [->|Hne].
  - rewrite bool_decide_eq_true_2 by done. apply String.eqb_refl.
  - rewrite bool_decide_eq_false_2 by done. apply String.eqb_neq.
    intros Heq. by apply Hne, uuid_str_inj.
Qed.

(** X20.  [create_version] followed by [get_versions], in database mode,
    for a prompt that has no parent: [get_versions] of that prompt, run in
    the world [create_version] left, reads the rows it read before and,
    after them, the row of the new version.  (Premises as for
    [create_version]: the keyword arguments validate, the table has the
    columns used, the generated id is not taken.) *)
Theorem new_version_is_listed_under_a_root (self : Resource) (conn : DatabaseConnection)
    (id_or_key : pyval) (kwargs : gmap string pyval) (data : Model) (t : Table)
    (w : World) (prow : gmap string pyval) (parent : Model) (pid : uuid)
    (no_parent : pyval) :
  ResourceBase_init Prompts (Some conn) None = Ok self →
  pydantic_call PromptCreate kwargs = Ok data →
  w_tables w !! "prompts" = Some t →
  has_column t (id_or_key_column (py_str id_or_key)) = true →
  head (List.filter (eval_cond (id_or_key_condition (py_str id_or_key))) (t_rows t))
    = Some prow →
  _row_to_model prow Prompt = Ok parent →
  m_fields parent !! "id" = Some (PUuid pid) →
  m_fields parent !! "parent_id" = Some no_parent →
  py_truthy no_parent = false →
  let values :=
    <["id" := PStr (uuid_str (w_uuid4 w (w_uuid4_calls w)))]>
      (_model_to_dict (with_parent data (PUuid pid))) in
  known_columns t values = true →
  List.filter (eval_cond (ColEq "id" (PStr (uuid_str (w_uuid4 w (w_uuid4_calls w))))))
    (t_rows t) = [] →
  let before := List.filter (eval_cond (ColEq "parent_id" (PUuid pid))) (t_rows t) in
  let models rows :=
    result_bind (result_mapM (λ r, _row_to_model r Prompt) rows) (λ ms, Ok (OModels ms)) in
  (Prompts_get_versions self id_or_key w).1.1 = models before
  ∧ (Prompts_get_versions self id_or_key
       (Prompts_create_version self id_or_key kwargs w).1.2).1.1
    = models (before ++ [new_row t values]).
Proof.
  intros ->%ResourceBase_init_ok Hdata Ht Hc Hrow Hparent Hpid Hpar Hroot values Hk
    Hfresh before models.
  destruct (Prompts_create_version_run conn id_or_key kwargs data t w prow parent pid
              Hdata Ht Hc Hrow Hparent Hpid Hk Hfresh) as [Hrun Hvp].
  fold values in Hrun, Hvp.
  assert (has_column t "parent_id" = true) as Hp by (by eapply known_columns_elem).
  assert (py_or no_parent (PUuid pid) = PUuid pid) as Hor
    by (unfold py_or; by rewrite Hroot).
  split.
  - simpl. erewrite Prompts_get_versions_run by done. by rewrite Hor.
  - simpl in Hrun |- *. rewrite Hrun. cbn [fst snd].
    erewrite Prompts_get_versions_run;
      [|apply with_rows_lookup|done|done|by apply head_filter_app|done|done|done].
    cbn [fst snd t_rows]. rewrite Hor, List.filter_app. cbn [List.filter].
    rewrite (new_row_parent_selected t values pid pid Hp Hvp).
    by rewrite bool_decide_eq_true_2.
Qed.

(** X21.  A version of a version is not listed under its parent.  In
    database mode, when [create_version] is called on a prompt that has a
    parent itself, the new row refers to that prompt, whereas
    [get_versions] of that prompt reads the rows that refer to the
    prompt's own parent: run in the world [create_version] left, it
    returns what it returned before, without the new version. *)
Theorem version_of_a_version_is_not_listed (self : Resource) (conn : DatabaseConnection)
    (id_or_key : pyval) (kwargs : gmap string pyval) (data : Model) (t : Table)
    (w : World) (prow : gmap string pyval) (parent : Model) (pid grand : uuid) :
  ResourceBase_init Prompts (Some conn) None = Ok self →
  pydantic_call PromptCreate kwargs = Ok data →
  w_tables w !! "prompts" = Some t →
  has_column t (id_or_key_column (py_str id_or_key)) = true →
  head (List.filter (eval_cond (id_or_key_condition (py_str id_or_key))) (t_rows t))
    = Some prow →
  _row_to_model prow Prompt = Ok parent →
  m_fields parent !! "id" = Some (PUuid pid) →
  m_fields parent !! "parent_id" = Some (PUuid grand) →
  pid ≠ grand →
  let values :=
    <["id" := PStr (uuid_str (w_uuid4 w (w_uuid4_calls w)))]>
      (_model_to_dict (with_parent data (PUuid pid))) in
  known_columns t values = true →
  List.filter (eval_cond (ColEq "id" (PStr (uuid_str (w_uuid4 w (w_uuid4_calls w))))))
    (t_rows t) = [] →
  let after := (Prompts_create_version self id_or_key kwargs w).1.2 in
  w_tables after !! "prompts" =
    Some {| t_columns := t_columns t; t_defaults := t_defaults t;
            t_rows := t_rows t ++ [new_row t values] |}
  ∧ (Prompts_get_versions self id_or_key after).1.1
    = (Prompts_get_versions self id_or_key w).1.1.
Proof.
  intros ->%ResourceBase_init_ok Hdata Ht Hc Hrow Hparent Hpid Hpar Hne values Hk
    Hfresh after. subst after.
  destruct (Prompts_create_version_run conn id_or_key kwargs data t w prow parent pid
              Hdata Ht Hc Hrow Hparent Hpid Hk Hfresh) as [Hrun Hvp].
  fold values in Hrun, Hvp.
  assert (has_column t "parent_id" = true) as Hp by (by eapply known_columns_elem).
  simpl in Hrun |- *. rewrite Hrun. cbn [fst snd].
  split; [apply with_rows_lookup|].
  erewrite Prompts_get_versions_run;
    [|apply with_rows_lookup|done|done|by apply head_filter_app|done|done|done].
  erewrite (Prompts_get_versions_run conn id_or_key t w) by done.
  cbn [fst snd t_rows]. unfold py_or. simpl.
  rewrite List.filter_app. cbn [List.filter].
  rewrite (new_row_parent_selected t values pid grand Hp Hvp).
  rewrite bool_decide_eq_false_2 by done. by rewrite app_nil_r.
Qed.

(** X22.  [create_version] and [get_versions] on a prompt that does not
    exist, in database mode: [db.get] returns [None], the next line reads
    an attribute of it, and the call raises [AttributeError].  Nothing is
    inserted: the world is unchanged and the only statement executed is
    the lookup. *)
Theorem versions_of_a_missing_prompt (self : Resource) (conn : DatabaseConnection)
    (id_or_key : pyval) (kwargs : gmap string pyval) (data : Model) (t : Table)
    (w : World) :
  ResourceBase_init Prompts (Some conn) None = Ok self →
  pydantic_call PromptCreate kwargs = Ok data →
  w_tables w !! "prompts" = Some t →
  has_column t (id_or_key_column (py_str id_or_key)) = true →
  List.filter (eval_cond (id_or_key_condition (py_str id_or_key))) (t_rows t) = [] →
  let lookup :=
    [Call (DbGet "prompts" (py_str id_or_key));
     Sql (Select "prompts" [id_or_key_condition (py_str id_or_key)])] in
  Prompts_create_version self id_or_key kwargs w =
    (Raise (Exn AttributeError "'NoneType' object has no attribute 'id'"), w, lookup)
  ∧ Prompts_get_versions self id_or_key w =
    (Raise (Exn AttributeError "'NoneType' object has no attribute 'parent_id'"),
     w, lookup).
Proof.
  intros ->%ResourceBase_init_ok Hdata Ht Hc Hnone lookup. subst lookup.
  assert (DatabaseConnection_get conn "prompts" (py_str id_or_key) Prompt w =
          (Ok None, w,
           [Call (DbGet "prompts" (py_str id_or_key));
            Sql (Select "prompts" [id_or_key_condition (py_str id_or_key)])])) as Hget.
  { erewrite DatabaseConnection_get_run by done.
    unfold select_rows. by rewrite filter_single_cond, Hnone. }
  split.
  - unfold Prompts_create_version, _get_id_from_arg. simpl. rewrite Hdata.
    rewrite lift_ok_bind.
    erewrite bind_ok; [|by apply self_db_some]. cbv beta iota.
    erewrite bind_ok; [|exact Hget]. done.
  - unfold Prompts_get_versions, _get_id_from_arg. simpl.
    erewrite bind_ok; [|by apply self_db_some]. cbv beta iota.
    erewrite bind_ok; [|exact Hget]. done.
Qed.

End VersionLineage.

Section MissingItems.
Context `{Hpy : PyLib} `{Hpd : !Pydantic}.

(** X23.  [get] of an item that does not exist differs by backend.  A
    dispatcher that reads from the database (database-only, or mixed
    without [force_api]) returns [None] when no row matches, and in mixed
    mode does so without asking the API; a dispatcher with an API
    connection only raises a not-found failure when the service answers
    404. *)
Theorem get_of_a_missing_item (cls : resource_class) (id_or_key : pyval)
    (kwargs : gmap string pyval) (w : World) :
  let name := resource_name_of cls in
  let item_id := py_str id_or_key in
  (∀ self dbc apio t,
     ResourceBase_init cls (Some dbc) apio = Ok self →
     force_api kwargs = false →
     w_tables w !! name = Some t →
     has_column t (id_or_key_column item_id) = true →
     List.filter (eval_cond (id_or_key_condition item_id)) (t_rows t) = [] →
     (ResourceMixin_get self id_or_key kwargs w).1.1 = Ok (OVal PNone)
     ∧ touches_api (ResourceMixin_get self id_or_key kwargs w).2 = false)
  ∧ (∀ self apic response detail,
     ResourceBase_init cls None (Some apic) = Ok self →
     (∀ rq, w_http w rq = Ok response) →
     status_code response = 404 →
     error_detail_of response = Ok detail →
     (ResourceMixin_get self id_or_key kwargs w).1.1 =
       Raise (Exn NotFoundError (py_str (py_or detail (PStr "Resource not found"))))).
Proof.
  intros name item_id. subst name item_id. split.
  - intros self dbc apio t ->%ResourceBase_init_ok Hf Ht Hc Hnone.
    assert (mixed_mode {| r_class := cls; db := Some dbc; api := apio;
                          mixed_mode := conn_truthy (Some dbc) && conn_truthy apio |}
            && force_api kwargs = false) as Hmode
      by (rewrite Hf; apply andb_false_r).
    split.
    + unfold ResourceMixin_get, _get_id_from_arg. rewrite Hmode. simpl.
      erewrite bind_ok; [|by apply self_db_some]. cbv beta iota.
      erewrite bind_ok; cycle 1.
      { erewrite DatabaseConnection_get_run by done.
        unfold select_rows. by rewrite filter_single_cond, Hnone. }
      done.
    + on_self ResourceMixin_get_db; [done|exact Hmode].
  - intros self apic response detail ->%ResourceBase_init_ok Hresp Hs Hd.
    unfold ResourceMixin_get, _get_id_from_arg. simpl.
    erewrite bind_ok; [|by apply self_api_some]. cbv beta iota.
    rewrite APIConnection_get_run, Hresp. simpl.
    by apply handle_response_not_found.
Qed.

End MissingItems.

(* ===================================================================== *)
(** * 9d. Properties of the client facade                                 *)
(* ===================================================================== *)

Section ClientFacade.
Context `{Hpy : PyLib} `{Hpd : !Pydantic}.

Lemma client_init_inv environ connect ct bu ak cs version c :
  PromptLaneClient_init environ connect ct bu ak cs version = Ok c →
  ∃ d a,
    ConnectionType_of_value (str_lower ct) = Ok (connection_type c)
    ∧ conn_truthy d = opens_database (connection_type c)
    ∧ conn_truthy a = opens_api (connection_type c)
    ∧ client_db c = d ∧ client_api c = a
    ∧ projects c = dispatcher_on Projects d a
    ∧ prompts c = dispatcher_on Prompts d a
    ∧ teams c = dispatcher_on Teams d a
    ∧ users c = dispatcher_on Users d a
    ∧ activities c = dispatcher_on Activities d a.
Proof.
  unfold PromptLaneClient_init.
  destruct (ConnectionType_of_value (str_lower ct)) as [t|e] eqn:Ht; simpl; [|done].
  destruct t; simpl.
  - destruct (not_str _ || not_str _); simpl; [done|].
    intros [= <-]. by eexists None, (Some _).
  - destruct (not_str _); simpl; [done|].
    destruct (connect _) as [conn|e]; simpl; [|done].
    intros [= <-]. by eexists (Some _), None.
  - destruct (not_str _ || not_str _); simpl; [done|].
    destruct (not_str _); simpl; [done|].
    destruct (connect _) as [conn|e]; simpl; [|done].
    intros [= <-]. by eexists (Some _), (Some _).
Qed.

(** X24.  A client that was constructed has five dispatchers, one per
    resource class, all on the same connections, and these are the
    connections of its mode: a database connection exactly in the modes
    [database] and [mixed], an API connection exactly in the modes [api]
    and [mixed], and the mixed-mode flag exactly in mode [mixed]. *)
Theorem client_dispatchers_follow_the_mode (environ : gmap string string)
    (connect : string → result DatabaseConnection) (ct : string)
    (bu ak cs : option string) (version : string) (c : PromptLaneClient) :
  PromptLaneClient_init environ connect ct bu ak cs version = Ok c →
  r_class <$> dispatchers c = [Projects; Prompts; Teams; Users; Activities]
  ∧ Forall (λ r, db r = client_db c ∧ api r = client_api c
                 ∧ conn_truthy (db r) = opens_database (connection_type c)
                 ∧ conn_truthy (api r) = opens_api (connection_type c)
                 ∧ mixed_mode r = bool_decide (connection_type c = ConnectionType_MIXED))
      (dispatchers c).
Proof.
  intros (d & a & _ & Hd & Ha & Hcd & Hca & Hp & Hq & Ht & Hu & Hac)%client_init_inv.
  unfold dispatchers. rewrite Hp, Hq, Ht, Hu, Hac, Hcd, Hca. split; [done|].
  assert (conn_truthy d && conn_truthy a
          = bool_decide (connection_type c = ConnectionType_MIXED)) as Hm.
  { rewrite Hd, Ha. by destruct (connection_type c). }
  repeat constructor; simpl; done.
Qed.


Lemma ascii_lower_idemp (c : ascii) : ascii_lower (ascii_lower c) = ascii_lower c.
Proof. by destruct c as [[] [] [] [] [] [] [] []]. Qed.

Lemma str_lower_idemp (s : string) : str_lower (str_lower s) = str_lower s.
Proof.
  induction s as [|c s IH]; [done|]. simpl. by rewrite ascii_lower_idemp, IH.
Qed.

Lemma str_lower_app (a b : string) : str_lower (a +:+ b) = str_lower a +:+ str_lower b.
Proof.
  induction a as [|c a IH]; [done|].
  cbv [String.append]; fold String.append. simpl. by rewrite IH.
Qed.

(** X26.  The connection type is matched without regard to letter case:
    constructing a client with a name and with the lower-case form of that
    name gives the same result, be it a client or the same error.  (Only
    [api], [database] and [mixed], in any case, are accepted; anything
    else raises [ValueError].) *)
Theorem connection_type_ignores_case (environ : gmap string string)
    (connect : string → result DatabaseConnection) (ct : string)
    (bu ak cs : option string) (version : string) :
  PromptLaneClient_init environ connect ct bu ak cs version
    = PromptLaneClient_init environ connect (str_lower ct) bu ak cs version
  ∧ (str_lower ct ∉ ["api"; "database"; "mixed"] →
     ∃ msg, PromptLaneClient_init environ connect ct bu ak cs version
            = Raise (Exn ValueError msg)).
Proof.
  split.
  - unfold PromptLaneClient_init. by rewrite str_lower_idemp.
  - rewrite !not_elem_of_cons. intros (H1 & H2 & H3 & _).
    unfold PromptLaneClient_init, ConnectionType_of_value.
    apply String.eqb_neq in H1, H2, H3. rewrite H1, H2, H3. by eexists.
Qed.

(** X27.  The end-to-end scenario of mixed mode.  On a client constructed
    in mode [mixed], [projects.list] (without [force_api]) enters the
    database backend and produces no API event, and [projects.update]
    with keyword arguments that [ProjectUpdate] accepts enters the API
    backend and produces no database event. *)
Theorem mixed_client_reads_database_writes_api (environ : gmap string string)
    (connect : string → result DatabaseConnection) (ct : string)
    (bu ak cs : option string) (version : string) (c : PromptLaneClient)
    (id_or_key : pyval) (kwargs : gmap string pyval) (w : World) :
  PromptLaneClient_init environ connect ct bu ak cs version = Ok c →
  connection_type c = ConnectionType_MIXED →
  (force_api kwargs = false → db_list_kwargs kwargs = true →
     uses_db (DbList "projects" kwargs) (ResourceMixin_list (projects c) kwargs) w)
  ∧ (∀ data, pydantic_call ProjectUpdate kwargs = Ok data →
     uses_api (ApiUpdate "projects" (py_str id_or_key) (DataModel data))
       (ResourceMixin_update (projects c) id_or_key kwargs) w).
Proof.
  intros (d & a & _ & Hd & Ha & _ & _ & Hp & _)%client_init_inv Hmode.
  rewrite Hmode in Hd, Ha. rewrite Hp.
  destruct d as [dbc|]; [|done]. destruct a as [apic|]; [|done].
  unfold dispatcher_on. split.
  - intros Hf Hk. on_self ResourceMixin_list_db; simpl; [done|by rewrite Hf|done].
  - intros data Hdata. by on_self ResourceMixin_update_api.
Qed.

(** X28.  On a client constructed in mode [database], every write method
    of [teams] and [users] raises [ValueError] at once, leaving the world
    unchanged and the log empty, whereas the reads [teams.get_members]
    and [users.get_teams] enter the database backend. *)
Theorem database_client_cannot_write_teams_or_users (environ : gmap string string)
    (connect : string → result DatabaseConnection) (ct : string)
    (bu ak cs : option string) (version : string) (c : PromptLaneClient)
    (m : write_method) (a1 a2 a3 : pyval) (kwargs : gmap string pyval) (w : World) :
  PromptLaneClient_init environ connect ct bu ak cs version = Ok c →
  connection_type c = ConnectionType_DATABASE →
  (∃ msg, write_call m (teams c) a1 a2 a3 kwargs w = (Raise (Exn ValueError msg), w, []))
  ∧ (∃ msg, write_call m (users c) a1 a2 a3 kwargs w = (Raise (Exn ValueError msg), w, []))
  ∧ uses_db (DbGetTeamMembers (py_str a1)) (Teams_get_members (teams c) a1) w
  ∧ uses_db (DbGetUserTeams (py_str a1)) (Users_get_teams (users c) a1) w.
Proof.
  intros (d & a & _ & Hd & Ha & _ & _ & _ & _ & Ht & Hu & _)%client_init_inv Hmode.
  rewrite Hmode in Hd, Ha. rewrite Ht, Hu.
  destruct d as [dbc|]; [|done]. destruct a as [apic|]; [done|].
  unfold dispatcher_on. split_and!.
  - by apply write_call_requires_api.
  - by apply write_call_requires_api.
  - by on_self Teams_get_members_db.
  - by on_self Users_get_teams_db.
Qed.

End ClientFacade.

Section CommitOrder.
Context `{Hpy : PyLib} `{Hpd : !Pydantic}.

(** X29.  [create] and [update] of the database backend build the model
    they return after the transaction has been committed.  When the row
    read back is rejected by the model class, the call raises the
    validation error, yet the row stays inserted, respectively updated.
    (Premises: the table exists and has the columns used; for [create]
    the model has no id and the generated one is not taken; for [update]
    the id or key matches a row and the update model sets at least one
    field, the column of the lookup not among them.) *)
Theorem db_write_is_committed_before_validation (self : DatabaseConnection)
    (name s : string) (data : Model) (mc : model_class) (t : Table) (w : World)
    (e : exn) :
  w_tables w !! name = Some t →
  (_model_to_dict data !! "id" = None →
   let values :=
     <["id" := PStr (uuid_str (w_uuid4 w (w_uuid4_calls w)))]> (_model_to_dict data) in
   known_columns t values = true →
   List.filter (eval_cond (ColEq "id" (PStr (uuid_str (w_uuid4 w (w_uuid4_calls w))))))
     (t_rows t) = [] →
   _row_to_model (new_row t values) mc = Raise e →
   let run := DatabaseConnection_create self name data mc w in
   run.1.1 = Raise e
   ∧ t_rows <$> (w_tables run.1.2 !! name) = Some (t_rows t ++ [new_row t values]))
  ∧ (∀ row,
     has_column t (id_or_key_column s) = true →
     let values := _model_to_dict data in
     values ≠ ∅ →
     known_columns t values = true →
     values !! id_or_key_column s = None →
     head (List.filter (eval_cond (id_or_key_condition s)) (t_rows t)) = Some row →
     _row_to_model (values ∪ row) mc = Raise e →
     let run := DatabaseConnection_update self name s data mc w in
     run.1.1 = Raise e
     ∧ t_rows <$> (w_tables run.1.2 !! name)
       = Some (updated_rows t (id_or_key_condition s) values)).
Proof.
  intros Ht. split.
  - intros Hnone values Hk Hfresh Hbad run. subst run.
    rewrite (DatabaseConnection_create_run self name data mc t w Ht Hnone Hk Hfresh).
    cbn [fst snd]. fold values. split; [done|]. by rewrite with_rows_lookup.
  - intros row Hc values _ Hk Hcol Hrow Hbad run. subst run.
    rewrite (DatabaseConnection_update_run self name s data mc t w Ht Hc Hk).
    cbv zeta. cbn [fst snd]. fold values.
    rewrite filter_single_cond, (head_updated_rows t s values row Hcol Hrow).
    split; [done|]. by rewrite with_rows_lookup.
Qed.

End CommitOrder.

Section ProjectPrompts.
Context `{Hpy : PyLib} `{Hpd : !Pydantic}.

Lemma filter_all_true {A} (l : list A) : List.filter (λ _, true) l = l.
Proof. induction l as [|x l IH]; [done|]. simpl. by rewrite IH. Qed.

Lemma project_id_is_no_parameter :
  "project_id" ∉ ["self"; "resource_name"; "model_class"].
Proof. rewrite !not_elem_of_cons. repeat split; try done. apply not_elem_of_nil. Qed.

(** X30.  In database mode [get_prompts] returns, in table order, the
    prompts whose [project_id] cell equals the text of the given project
    id, and changes nothing.  (Premise: the table [prompts] exists and has
    the column [project_id]; without that column the filter would be
    dropped and every prompt returned.) *)
Theorem get_prompts_selects_by_project (self : Resource) (conn : DatabaseConnection)
    (project_id : pyval) (t : Table) (w : World) :
  ResourceBase_init Projects (Some conn) None = Ok self →
  w_tables w !! "prompts" = Some t →
  (has_column t "project_id" = true →
   (Projects_get_prompts self project_id w).1 =
     (result_bind
        (result_mapM (λ r, _row_to_model r Prompt)
           (List.filter (eval_cond (ColEq "project_id" (PStr (py_str project_id))))
              (t_rows t)))
        (λ ms, Ok (OModels ms)), w))
  ∧ (has_column t "project_id" = false →
     (Projects_get_prompts self project_id w).1 =
       (result_bind (result_mapM (λ r, _row_to_model r Prompt) (t_rows t))
          (λ ms, Ok (OModels ms)), w)).
Proof.
  intros ->%ResourceBase_init_ok Ht.
  unfold Projects_get_prompts, _get_id_from_arg. simpl.
  split; intros Hcol.
  - erewrite bind_ok; [|by apply self_db_some]. cbv beta iota.
    pose proof (DatabaseConnection_list_by_column conn "prompts" Prompt "project_id"
                  (PStr (py_str project_id)) t w Ht project_id_is_no_parameter Hcol)
      as Hl.
    destruct (result_mapM _ _) as [ms|e].
    + erewrite bind_ok; [|exact Hl]. done.
    + erewrite bind_raise; [|exact Hl]. done.
  - erewrite bind_ok; [|by apply self_db_some]. cbv beta iota.
    pose proof (DatabaseConnection_list_run conn "prompts" Prompt
                  {["project_id" := PStr (py_str project_id)]} t w Ht
                  (db_list_kwargs_singleton _ _ project_id_is_no_parameter)) as Hl.
    cbv zeta in Hl. rewrite map_to_list_singleton in Hl.
    cbn [List.filter fst] in Hl. rewrite Hcol in Hl.
    unfold select_rows in Hl. cbn [fmap list_fmap forallb] in Hl.
    pose proof (filter_all_true (t_rows t)) as Hall.
    rewrite Hall in Hl.
    destruct (result_mapM _ _) as [ms|e].
    + erewrite bind_ok; [|exact Hl]. done.
    + erewrite bind_raise; [|exact Hl]. done.
Qed.

End ProjectPrompts.

(* ===================================================================== *)
(** * 10. The properties on concrete inputs                               *)
(* ===================================================================== *)

Import Examples.

(** C9 on a concrete run: a not-found failure raised inside [delete]. *)
Lemma api_write_only_retags_witness :
  ∃ msg,
    api_write_only "delete" (api_only Users)
      (raise (Exn NotFoundError "no such user") : M pyobj) world0
    = (Raise (Exn NotFoundError msg), world0, [])
    ∧ carries msg "delete" ∧ carries msg "no such user".
Proof.
  apply (api_write_only_retags "delete" (api_only Users)
           (raise (Exn NotFoundError "no such user")) world0 world0
           (Exn NotFoundError "no such user") []); reflexivity.
Defined.

(** C1 on a concrete run, in mixed mode. *)
Lemma remove_member_never_enters_api_witness :
  Teams_remove_member (mixed Teams) (PStr "t1") (PStr "u1") world0 =
    (Raise (Exn APIError
       "Unexpected error during remove_member: delete() missing 1 required positional argument: 'resource_id'"),
     world0, []).
Proof.
  apply (remove_member_never_enters_api (mixed Teams) the_api). reflexivity.
Defined.


(** C6 on a concrete run: [projects.get_prompts] in mixed mode. *)
Lemma extension_reads_dispatch_witness :
  uses_api (ApiList "projects/00000000-0000-0000-0000-0000000000f0/prompts" ∅)
    (Projects_get_prompts (mixed Projects) (PUuid id_project)) world0.
Proof.
  refine (proj1 (proj2
    (extension_reads_dispatch the_db the_api (PUuid id_project) ∅ world0))
      (mixed Projects) _); reflexivity.
Defined.

(** C10 on concrete runs: [force_api=True] on a database-only dispatcher
    and on a mixed one, and a mixed dispatcher without the keyword. *)
Lemma force_api_only_in_mixed_mode_witness :
  uses_db (DbGet "projects" "welcome")
    (ResourceMixin_get (db_only Projects) (PStr "welcome") {["force_api" := PBool true]})
    world0
  ∧ uses_api (ApiGet "projects" "welcome")
      (ResourceMixin_get (mixed Projects) (PStr "welcome") {["force_api" := PBool true]})
      world0
  ∧ uses_db (DbGet "projects" "welcome")
      (ResourceMixin_get (mixed Projects) (PStr "welcome") ∅) world0.
Proof.
  split_and!.
  - refine (proj2 (proj1
      (force_api_only_in_mixed_mode Projects the_db the_api (PStr "welcome")
         {["force_api" := PBool true]} world0 _) (db_only Projects) _)); reflexivity.
  - refine (proj2 (proj1 (proj2
      (force_api_only_in_mixed_mode Projects the_db the_api (PStr "welcome")
         {["force_api" := PBool true]} world0 _)) (mixed Projects) (PBool true) _ _ _));
      reflexivity.
  - refine (proj2 (proj2 (proj2
      (force_api_only_in_mixed_mode Projects the_db the_api (PStr "welcome")
         ∅ world0 _)) (mixed Projects) _ _)); [reflexivity|reflexivity|].
    left. reflexivity.
Defined.

(** C3 on concrete runs: a key and a UUID. *)
Lemma db_lookup_condition_witness :
  sql_of (DatabaseConnection_get the_db "prompts" "welcome" Prompt world0).2
    = [Select "prompts" [ColEq "key" (PStr "welcome")]]
  ∧ sql_of (DatabaseConnection_delete the_db "prompts"
              "00000000-0000-0000-0000-00000000000b" world0).2
    = [DeleteStmt "prompts" (ColEq "id" (PUuid id_child))].
Proof.
  split.
  - refine (proj1 (proj2 (proj2
      (db_lookup_condition the_db "prompts" "welcome" rename Prompt
         prompts_table world0 _ _)))); reflexivity.
  - refine (proj2 (proj2 (proj2 (proj2
      (db_lookup_condition the_db "prompts" "00000000-0000-0000-0000-00000000000b"
         rename Prompt prompts_table world0 _ _))))); reflexivity.
Defined.

(** C7 on a concrete run: [update] with a key that no prompt has. *)
Lemma db_update_missing_row_raises_witness :
  outcome (DatabaseConnection_update the_db "prompts" "no-such-key" rename Prompt world0)
    = Raise (Exn TypeError "'NoneType' object is not iterable").
Proof.
  apply (db_update_missing_row_raises the_db "prompts" "no-such-key" rename Prompt
           prompts_table world0); reflexivity.
Defined.

(** C4 on a concrete response: status 500 with a detail. *)
Lemma handle_response_status_mapping_witness :
  _handle_response error_response None
    = Raise (Exn APIError "API error: 500 - boom").
Proof.
  refine (proj1 (proj2 (proj2 (proj2 (proj2
    (handle_response_status_mapping error_response None (PStr "boom") _))))) _ _).
  - reflexivity.
  - simpl. lia.
  - simpl. rewrite !not_elem_of_cons. repeat split; try done. apply not_elem_of_nil.
Defined.

(** C5 on a concrete run: the versions of the child are the rows whose
    parent is the root, namely the child itself. *)
Lemma get_versions_lists_children_of_root_witness :
  outcome (Prompts_get_versions (db_only Prompts) (PUuid id_child) world0)
    = Ok (OModels [child_prompt]).
Proof.
  unfold outcome.
  rewrite (proj1 (get_versions_lists_children_of_root (Hpy := canonical_pylib)
                    (Hpd := strict_pydantic)
                    (db_only Prompts) the_db
                    (PUuid id_child) prompts_table world0 row_child child_prompt
                    (PUuid id_root) (PUuid id_child)
                    eq_refl eq_refl eq_refl eq_refl eq_refl eq_refl
                    eq_refl eq_refl)).
  reflexivity.
Defined.


(* ===================================================================== *)
(** * 11. Where the specification and the code part                       *)
(* ===================================================================== *)


(** C4 as stated fails: a status outside 2xx that is not among the named
    ones does not always raise a generic API failure.  A 304 response
    passes [raise_for_status] and its body is returned. *)
Lemma status_304_raises_nothing :
  ¬ (∀ response : Response,
       ¬ (200 ≤ status_code response < 300) →
       status_code response ∉ [401; 403; 404; 422; 429] →
       ∃ msg, _handle_response response None = Raise (Exn APIError msg)).
Proof.
  intros Hclaim.
  destruct (Hclaim not_modified_response) as [msg Hmsg].
  - simpl. lia.
  - simpl. rewrite !not_elem_of_cons. repeat split; try done. apply not_elem_of_nil.
  - change (_handle_response not_modified_response None)
      with (Ok (OVal (PDict []))) in Hmsg.
    discriminate Hmsg.
Qed.

(** C5 as stated fails: in database mode [get_versions] on the lineage
    root returns its child only; the root itself is not in the result. *)
Lemma get_versions_omits_the_root :
  returned_ids (outcome (Prompts_get_versions (db_only Prompts) (PUuid id_root) world0))
    = [PUuid id_child]
  ∧ PUuid id_root ∉
      returned_ids (outcome (Prompts_get_versions (db_only Prompts) (PUuid id_root) world0)).
Proof.
  assert (returned_ids
            (outcome (Prompts_get_versions (db_only Prompts) (PUuid id_root) world0))
          = [PUuid id_child]) as Hids by reflexivity.
  split; [exact Hids|].
  rewrite Hids. intros Hin.
  apply elem_of_cons in Hin as [Heq|Hin]; [discriminate Heq|].
  by apply elem_of_nil in Hin.
Qed.

(* ===================================================================== *)
(** * 12. The further properties on concrete inputs                       *)
(* ===================================================================== *)

(** A service that answers 204 with an empty body, one that answers 401,
    one that answers 404, and an error answer whose body is a JSON list. *)
Definition no_content_response : Response :=
  {| status_code := 204; reason := "No Content"; text := EmptyString;
     json_body := None |}.

Definition unauthorized_response : Response :=
  {| status_code := 401; reason := "Unauthorized"; text := "{...}";
     json_body := Some (PDict [("detail", PStr "bad key")]) |}.

Definition not_found_response : Response :=
  {| status_code := 404; reason := "Not Found"; text := "{...}";
     json_body := Some (PDict [("detail", PStr "no such prompt")]) |}.

Definition list_error_response : Response :=
  {| status_code := 500; reason := "Internal Server Error"; text := "[]";
     json_body := Some (PList []) |}.

Definition answering (response : Response) : World :=
  {| w_tables := w_tables world0;
     w_http := λ _, Ok response;
     w_uuid4 := w_uuid4 world0;
     w_uuid4_calls := 0 |}.

(** The prompt [create] returns for the create model of the examples. *)
Definition created_prompt : Model :=
  model_of (outcome (DatabaseConnection_create the_db "prompts" version_data Prompt world0)).

(** The row of the root prompt after it was renamed. *)
Definition renamed_root : Model :=
  model_of (pydantic_call Prompt (_model_to_dict rename ∪ row_root)).

(** The values [create_version] inserts for a version of a prompt. *)
Definition version_values (parent : canonical_uuid) : gmap string pyval :=
  <["id" := PStr (canonical_text id_fresh)]>
    (_model_to_dict (with_parent version_data (PUuid parent))).

(** The environment, the database driver and the client of the examples. *)
Definition the_environ : gmap string string := {["PROMPTLANE_API_KEY" := "k"]}.

Definition the_connect (s : string) : result DatabaseConnection :=
  Ok {| connection_string := s |}.

Definition mixed_client : PromptLaneClient :=
  {| connection_type := ConnectionType_MIXED;
     client_api := Some the_api; client_db := Some the_db;
     projects := mixed Projects; prompts := mixed Prompts; teams := mixed Teams;
     users := mixed Users; activities := mixed Activities |}.

Definition database_client : PromptLaneClient :=
  {| connection_type := ConnectionType_DATABASE;
     client_api := None; client_db := Some the_db;
     projects := db_only Projects; prompts := db_only Prompts; teams := db_only Teams;
     users := db_only Users; activities := db_only Activities |}.

(** The update model of the examples sets a field. *)
Lemma rename_sets_a_field : _model_to_dict rename ≠ ∅.
Proof.
  intros Heq. apply (f_equal (λ m : gmap string pyval, m !! "name")) in Heq.
  change (Some (PStr "n" : pyval) = None) in Heq. discriminate Heq.
Qed.

(** X1 on concrete paths: one that carries the version and one that does
    not. *)
Lemma build_url_is_versioned_witness :
  _build_url the_api "//v1/prompts" = "https://api.example/v1/prompts"
  ∧ _build_url the_api "/prompts" = "https://api.example/v1/prompts".
Proof.
  split.
  - refine (proj1 (proj2 (proj2 (build_url_is_versioned the_api "//v1/prompts"))) _).
    exists "prompts". reflexivity.
  - refine (proj2 (proj2 (proj2 (build_url_is_versioned the_api "/prompts"))) _).
    intros rest. discriminate.
Defined.

(** X2 on a concrete base URL with two trailing slashes. *)
Lemma base_url_trailing_slash_is_dropped_witness :
  ∃ n, "https://api.example//"
       = base_url (APIConnection_init "https://api.example//" "k" "v1") +:+ slashes n.
Proof.
  exact (proj1 (base_url_trailing_slash_is_dropped "https://api.example//" "k" "v1")).
Defined.

(** X4 on a concrete run: [projects.update] in mixed mode sends the
    [ProjectUpdate] object. *)
Lemma create_and_update_models_are_sent_unconverted_witness :
  rq_json <$> http_of
    (ResourceMixin_update (mixed Projects) (PStr "welcome") update_kwargs world0).2
  = [Some (DataModel update_data)].
Proof.
  refine (proj1 (proj2
    (create_and_update_models_are_sent_unconverted (mixed Projects) the_api
       (PStr "welcome") update_kwargs update_data world0 _ _)) _); reflexivity.
Defined.

(** X5 on a concrete run: a 204 answer without body. *)
Lemma api_delete_decodes_the_body_witness :
  ∃ msg, (APIConnection_delete the_api ["projects"; "p1"]
            (answering no_content_response)).1.1
         = Raise (Exn JSONDecodeError msg).
Proof.
  refine (proj2
    (api_delete_decodes_the_body the_api "projects" "p1" no_content_response
       (answering no_content_response) _ _) _).
  - reflexivity.
  - simpl. lia.
  - reflexivity.
Defined.

(** X6 on a concrete run: [add_member] answered with 200 and [{}]. *)
Lemma dict_as_model_class_fails_on_object_answers_witness :
  (Teams_add_member (api_only Teams) (PStr "t1") (PStr "u1") (PStr "admin") world0).1.1
    = Raise (Exn APIError
        "Unexpected error during add_member: Type Dict cannot be instantiated; use dict() instead")
  ∧ length (http_of
      (Teams_add_member (api_only Teams) (PStr "t1") (PStr "u1") (PStr "admin") world0).2)
    = 1%nat.
Proof.
  refine (proj1
    (dict_as_model_class_fails_on_object_answers (api_only Teams) the_api
       (PStr "t1") (PStr "u1") (PStr "admin") ok_response [] world0 _ _ _ _)).
  - reflexivity.
  - intros rq. reflexivity.
  - simpl. lia.
  - reflexivity.
Defined.

(** X7 on a concrete response: status 500 with a JSON list as body. *)
Lemma error_body_that_is_no_object_witness :
  ∃ msg, _handle_response list_error_response None = Raise (Exn AttributeError msg)
         ∧ isinstance (Exn AttributeError msg) APIError = false.
Proof.
  refine (error_body_that_is_no_object list_error_response None (PList []) _ _ _).
  - simpl. lia.
  - reflexivity.
  - intros d. discriminate.
Defined.

(** X8 on a concrete run: [teams.delete] without API connection. *)
Lemma write_methods_raise_five_kinds_witness :
  (write_call W_delete (db_only Teams) (PStr "t1") PNone PNone ∅ world0).1.1
    = Raise (Exn ValueError
        "API connection is required for delete. Please initialize the client with an API connection.")
  ∧ ValueError ∈ [ValueError; AuthenticationError; ValidationError; NotFoundError; APIError].
Proof.
  split; [reflexivity|].
  refine (proj1 (write_methods_raise_five_kinds W_delete (db_only Teams)
            (PStr "t1") PNone PNone ∅ world0
            (Exn ValueError
               "API connection is required for delete. Please initialize the client with an API connection.")
            _)).
  reflexivity.
Defined.

(** X9 on a concrete run: [get_members] on a database without the table
    [users]. *)
Lemma member_reads_raise_two_kinds_witness :
  (Teams_get_members (db_only Teams) (PStr "t1") world0).1.1
    = Raise (Exn APIError "Error retrieving members for team t1: no such table: users")
  ∧ (APIError = NotFoundError ∨ APIError = APIError).
Proof.
  split; [reflexivity|].
  refine (member_reads_raise_two_kinds (db_only Teams) (PStr "t1") world0
            (Exn APIError "Error retrieving members for team t1: no such table: users")
            _).
  left. reflexivity.
Defined.

(** X10 on a concrete run: a 401 answer. *)
Lemma member_reads_hide_authentication_failures_witness :
  (Teams_get_members (api_only Teams) (PStr "t1") (answering unauthorized_response)).1.1
    = Raise (Exn APIError "Error retrieving members for team t1: bad key")
  ∧ (Users_activate (api_only Users) (PStr "t1") (answering unauthorized_response)).1.1
    = Raise (Exn AuthenticationError
               "Failed to authenticate when performing activate: bad key").
Proof.
  pose proof (member_reads_hide_authentication_failures (Hpy := canonical_pylib)
                (Hpd := strict_pydantic) (api_only Teams) the_api (PStr "t1")
                unauthorized_response (PStr "bad key") (answering unauthorized_response)
                eq_refl eq_refl (λ _, eq_refl) (or_introl eq_refl) eq_refl)
    as (Hmembers & _ & _).
  pose proof (member_reads_hide_authentication_failures (Hpy := canonical_pylib)
                (Hpd := strict_pydantic) (api_only Users) the_api (PStr "t1")
                unauthorized_response (PStr "bad key") (answering unauthorized_response)
                eq_refl eq_refl (λ _, eq_refl) (or_introl eq_refl) eq_refl)
    as (_ & _ & Hactivate).
  split; [exact Hmembers|exact Hactivate].
Defined.

(** X11 on a concrete run: [prompts.delete] in database mode. *)
Lemma database_only_standard_dispatch_witness :
  uses_db (DbDelete "prompts" "welcome")
    (ResourceMixin_delete (db_only Prompts) (PStr "welcome") ∅) world0.
Proof.
  refine (proj2 (proj2 (proj2 (proj2
    (database_only_standard_dispatch Prompts the_db (db_only Prompts)
       (PStr "welcome") ∅ world0 _ _))))); reflexivity.
Defined.

(** X12 on a concrete run: [prompts.get] in API mode. *)
Lemma api_only_standard_dispatch_witness :
  uses_api (ApiGet "prompts" "welcome")
    (ResourceMixin_get (api_only Prompts) (PStr "welcome") ∅) world0.
Proof.
  refine (proj1 (proj2
    (api_only_standard_dispatch Prompts the_api (api_only Prompts)
       (PStr "welcome") ∅ world0 _ _))); reflexivity.
Defined.

(** X14 on a concrete run: deleting a prompt leaves the table [projects]
    alone. *)
Lemma db_writes_touch_one_table_witness :
  w_tables (DatabaseConnection_delete the_db "prompts" "welcome" world0).1.2 !! "projects"
    = w_tables world0 !! "projects".
Proof.
  refine (proj2 (proj2
    (db_writes_touch_one_table the_db "prompts" "projects" "welcome" rename Prompt
       world0 _))).
  discriminate.
Defined.

(** X15 on a concrete run: the schema of the examples has no table
    [teams]. *)
Lemma db_unknown_table_raises_value_error_witness :
  DatabaseConnection_get the_db "teams" "t1" Team world0 =
    (Raise (Exn ValueError "Table teams not found in database schema"), world0,
     [Call (DbGet "teams" "t1")]).
Proof.
  refine (proj1 (proj2
    (db_unknown_table_raises_value_error the_db "teams" "t1" rename Team ∅ world0 _))).
  reflexivity.
Defined.

(** X16 on a concrete run: [force_api] is no column of [prompts]. *)
Lemma db_list_selects_by_known_columns_witness :
  (DatabaseConnection_list the_db "prompts" Prompt {["force_api" := PBool false]}
     world0).1
  = (result_mapM (λ row, _row_to_model row Prompt)
       (List.filter
          (λ r, bool_decide
                  (satisfies_filters prompts_table {["force_api" := PBool false]} r))
          [row_root; row_child]), world0).
Proof.
  refine (proj1
    (db_list_selects_by_known_columns the_db "prompts" Prompt
       {["force_api" := PBool false]} prompts_table world0 _ _ _));
    [reflexivity|reflexivity|].
  apply map_Forall_singleton. left. reflexivity.
Defined.

(** X17 on a concrete run. *)
Lemma db_create_then_get_witness :
  (DatabaseConnection_get the_db "prompts" "00000000-0000-0000-0000-00000000000c" Prompt
     (DatabaseConnection_create the_db "prompts" version_data Prompt world0).1.2).1.1
  = Ok (Some created_prompt).
Proof.
  exact (proj1 (db_create_then_get (Hpy := canonical_pylib) (Hpd := strict_pydantic)
                  the_db "prompts" version_data Prompt prompts_table world0
                  created_prompt eq_refl eq_refl eq_refl eq_refl eq_refl)).
Defined.

(** X18 on a concrete run: the root prompt is deleted by its key. *)
Lemma db_delete_then_get_witness :
  (DatabaseConnection_get the_db "prompts" "welcome" Prompt
     (DatabaseConnection_delete the_db "prompts" "welcome" world0).1.2).1.1 = Ok None.
Proof.
  refine (proj1 (proj2
    (db_delete_then_get the_db "prompts" "welcome" Prompt prompts_table world0 _ _)));
    reflexivity.
Defined.

(** X19 on a concrete run: the root prompt is renamed. *)
Lemma db_update_then_get_witness :
  (DatabaseConnection_update the_db "prompts" "welcome" rename Prompt world0).1.1
    = Ok renamed_root.
Proof.
  exact (proj1 (db_update_then_get (Hpy := canonical_pylib) (Hpd := strict_pydantic)
                  the_db "prompts" "welcome" rename Prompt prompts_table world0 row_root
                  eq_refl eq_refl rename_sets_a_field eq_refl eq_refl eq_refl)).
Defined.

(** X20 on a concrete run: a version of the root prompt. *)
Lemma new_version_is_listed_under_a_root_witness :
  (Prompts_get_versions (db_only Prompts) (PStr "welcome")
     (Prompts_create_version (db_only Prompts) (PStr "welcome") version_kwargs
        world0).1.2).1.1
  = result_bind
      (result_mapM (λ r, _row_to_model r Prompt)
         (List.filter (eval_cond (ColEq "parent_id" (PUuid id_root)))
            [row_root; row_child]
          ++ [new_row prompts_table (version_values id_root)]))
      (λ ms, Ok (OModels ms)).
Proof.
  exact (proj2 (new_version_is_listed_under_a_root (Hpy := canonical_pylib)
                  (Hpd := strict_pydantic) (db_only Prompts) the_db (PStr "welcome")
                  version_kwargs version_data prompts_table world0 row_root root_prompt
                  id_root PNone
                  eq_refl eq_refl eq_refl eq_refl eq_refl eq_refl eq_refl eq_refl
                  eq_refl eq_refl eq_refl)).
Defined.

(** X21 on a concrete run: a version of the child prompt. *)
Lemma version_of_a_version_is_not_listed_witness :
  (Prompts_get_versions (db_only Prompts) (PStr "welcome-v2")
     (Prompts_create_version (db_only Prompts) (PStr "welcome-v2") version_kwargs
        world0).1.2).1.1
  = (Prompts_get_versions (db_only Prompts) (PStr "welcome-v2") world0).1.1.
Proof.
  refine (proj2 (version_of_a_version_is_not_listed (Hpy := canonical_pylib)
                   (Hpd := strict_pydantic) (db_only Prompts) the_db (PStr "welcome-v2")
                   version_kwargs version_data prompts_table world0 row_child
                   child_prompt id_child id_root
                   eq_refl eq_refl eq_refl eq_refl eq_refl eq_refl eq_refl eq_refl
                   _ eq_refl eq_refl)).
  discriminate.
Defined.

(** X22 on a concrete run: a key that no prompt has. *)
Lemma versions_of_a_missing_prompt_witness :
  Prompts_get_versions (db_only Prompts) (PStr "no-such-key") world0 =
    (Raise (Exn AttributeError "'NoneType' object has no attribute 'parent_id'"),
     world0,
     [Call (DbGet "prompts" "no-such-key");
      Sql (Select "prompts" [ColEq "key" (PStr "no-such-key")])]).
Proof.
  exact (proj2 (versions_of_a_missing_prompt (Hpy := canonical_pylib)
                  (Hpd := strict_pydantic) (db_only Prompts) the_db (PStr "no-such-key")
                  version_kwargs version_data prompts_table world0
                  eq_refl eq_refl eq_refl eq_refl eq_refl)).
Defined.

(** X23 on concrete runs: a key that no prompt has, in mixed mode and in
    API mode with a 404 answer. *)
Lemma get_of_a_missing_item_witness :
  (ResourceMixin_get (mixed Prompts) (PStr "no-such-key") ∅ world0).1.1 = Ok (OVal PNone)
  ∧ (ResourceMixin_get (api_only Prompts) (PStr "no-such-key") ∅
       (answering not_found_response)).1.1
    = Raise (Exn NotFoundError "no such prompt").
Proof.
  split.
  - exact (proj1 (proj1 (get_of_a_missing_item (Hpy := canonical_pylib)
                           (Hpd := strict_pydantic) Prompts (PStr "no-such-key") ∅ world0)
                    (mixed Prompts) the_db (Some the_api) prompts_table
                    eq_refl eq_refl eq_refl eq_refl eq_refl)).
  - exact (proj2 (get_of_a_missing_item (Hpy := canonical_pylib)
                    (Hpd := strict_pydantic) Prompts (PStr "no-such-key") ∅
                    (answering not_found_response))
             (api_only Prompts) the_api not_found_response (PStr "no such prompt")
             eq_refl (λ _, eq_refl) eq_refl eq_refl).
Defined.

(** X24 on a concrete input: a client in mode [mixed]. *)
Lemma client_dispatchers_follow_the_mode_witness :
  PromptLaneClient_init the_environ the_connect "MIXED"
    (Some "https://api.example/") None (Some "postgresql://db") "v1" = Ok mixed_client
  ∧ r_class <$> dispatchers mixed_client = [Projects; Prompts; Teams; Users; Activities].
Proof.
  split; [reflexivity|].
  refine (proj1
    (client_dispatchers_follow_the_mode the_environ the_connect "MIXED"
       (Some "https://api.example/") None (Some "postgresql://db") "v1" mixed_client _)).
  reflexivity.
Defined.


(** X26 on a concrete input: a name that is no connection type. *)
Lemma connection_type_ignores_case_witness :
  ∃ msg, PromptLaneClient_init the_environ the_connect "Hybrid"
           (Some "https://api.example/") None None "v1" = Raise (Exn ValueError msg).
Proof.
  refine (proj2
    (connection_type_ignores_case the_environ the_connect "Hybrid"
       (Some "https://api.example/") None None "v1") _).
  rewrite !not_elem_of_cons. repeat split; try discriminate. apply not_elem_of_nil.
Defined.

(** X27 on a concrete run: [projects.update] on the mixed client. *)
Lemma mixed_client_reads_database_writes_api_witness :
  uses_api (ApiUpdate "projects" "welcome" (DataModel update_data))
    (ResourceMixin_update (projects mixed_client) (PStr "welcome") update_kwargs) world0.
Proof.
  refine (proj2
    (mixed_client_reads_database_writes_api the_environ the_connect "mixed"
       (Some "https://api.example/") None (Some "postgresql://db") "v1" mixed_client
       (PStr "welcome") update_kwargs world0 _ _) update_data _); reflexivity.
Defined.

(** X28 on a concrete run: [teams.create] on the database client. *)
Lemma database_client_cannot_write_teams_or_users_witness :
  ∃ msg, write_call W_create (teams database_client) PNone PNone PNone ∅ world0
         = (Raise (Exn ValueError msg), world0, []).
Proof.
  refine (proj1
    (database_client_cannot_write_teams_or_users the_environ the_connect "database"
       None None (Some "postgresql://db") "v1" database_client W_create
       PNone PNone PNone ∅ world0 _ _)); reflexivity.
Defined.

(** X29 on concrete runs: a prompt row read back as a [Project], after
    [create] and after [update]. *)
Lemma db_write_is_committed_before_validation_witness :
  (DatabaseConnection_create the_db "prompts" version_data Project world0).1.1
    = Raise (Exn PydanticValidationError "validation error")
  ∧ length <$> (t_rows <$>
      (w_tables (DatabaseConnection_create the_db "prompts" version_data Project
                   world0).1.2 !! "prompts"))
    = Some 3%nat
  ∧ (DatabaseConnection_update the_db "prompts" "welcome" rename Project world0).1.1
    = Raise (Exn PydanticValidationError "validation error")
  ∧ (λ t, (λ r, cell r "name") <$> t_rows t) <$>
      (w_tables (DatabaseConnection_update the_db "prompts" "welcome" rename Project
                   world0).1.2 !! "prompts")
    = Some [PStr "n"; PStr "welcome-v2"].
Proof.
  pose proof (proj1 (db_write_is_committed_before_validation (Hpy := canonical_pylib)
                       (Hpd := strict_pydantic) the_db "prompts" "welcome" version_data
                       Project prompts_table world0
                       (Exn PydanticValidationError "validation error") eq_refl)
                eq_refl eq_refl eq_refl eq_refl) as [Hraise Hrows].
  pose proof (proj2 (db_write_is_committed_before_validation (Hpy := canonical_pylib)
                       (Hpd := strict_pydantic) the_db "prompts" "welcome" rename
                       Project prompts_table world0
                       (Exn PydanticValidationError "validation error") eq_refl)
                row_root eq_refl rename_sets_a_field eq_refl eq_refl eq_refl eq_refl)
    as [Hraise' Hrows'].
  split_and!; [exact Hraise| |exact Hraise'|].
  - cbv zeta in Hrows. by rewrite Hrows.
  - reflexivity.
Defined.

(** X30 on a concrete run: the prompts of the project of the examples. *)
Lemma get_prompts_selects_by_project_witness :
  returned_ids (outcome (Projects_get_prompts (db_only Projects) (PUuid id_project) world0))
    = [PUuid id_root; PUuid id_child].
Proof.
  unfold outcome.
  rewrite (proj1 (get_prompts_selects_by_project (Hpy := canonical_pylib)
                    (Hpd := strict_pydantic) (db_only Projects) the_db
                    (PUuid id_project) prompts_table world0 eq_refl eq_refl) eq_refl).
  reflexivity.
Defined.
